(** * DirectX device discovery library: a shallow embedding and its properties

    The development follows the C++ sources of the device discovery
    library (library/src): [ErrorHandling.h], [Adapter.h], [Device.h],
    [AdapterEnumeration.cpp], [WmiQuery.cpp], [D3DHelpers.cpp],
    [RegistryQuery.cpp] and [DeviceDiscoveryImp.cpp].

    Conventions of the embedding:
    - [std::wstring] is [string]; a [wchar_t] is an [ascii] code unit.
    - [int64_t], [int], [size_t] and [uint32_t] values are [Z] or [N]; the
      library performs no arithmetic on them that could wrap.
    - [std::map<int64_t, Adapter>] is a [gmap Z Adapter]; the maps and sets
      keyed by [std::wstring], whose iteration order is observable, are
      association lists kept sorted by key.
    - C++ exceptions are the [Throw] constructor of [result]; a method that
      mutates its object returns the object together with its [result], so
      that the mutations performed before a [throw] stay visible.
    - Calls into DXCore, WMI, the D3DKMT thunks and the registry are fields
      of a [Platform] record: what the machine answers during one call of
      the library.
    - [LOG] statements and the per-thread WinRT initialisation have no
      effect on the values computed and are left out. *)

From Stdlib Require Import ZArith NArith String Ascii List Bool Lia.
From stdpp Require Import base option list gmap strings pretty.

Local Open Scope Z_scope.
Local Open Scope string_scope.
Local Open Scope list_scope.

(* ================================================================= *)
(** ** ErrorHandling.h *)

(** [class DeviceDiscoveryError]: the exception type of the library. *)
Record DeviceDiscoveryError : Type := mkError {
  message : string;
  file : string;
  function : string;
  line : N
}.

(** [operator bool]: an error object stands for an error when its message
    is not empty. *)
Definition error_bool (e : DeviceDiscoveryError) : bool :=
  negb (String.eqb (message e) "").

(** [DeviceDiscoveryError(message, inner)] and [Wrap]: the outer message is
    prefixed, the location of the inner error is kept. *)
Definition Wrap (e : DeviceDiscoveryError) (msg : string) : DeviceDiscoveryError :=
  {| message := msg +:+ ": " +:+ message e;
     file := file e; function := function e; line := line e |}.

(** The exceptions that can travel through the library: its own error
    type, [std::runtime_error] (the second handler of [DiscoverDevices]),
    the two [std::logic_error] subclasses raised by [std::stoll], and
    [wil::ResultException], a [std::exception] that
    [wil::GetEnvironmentVariableW] raises. *)
Inductive exn : Type :=
| ExDeviceDiscoveryError (e : DeviceDiscoveryError)
| ExRuntimeError (what : string)
| ExInvalidArgument (what : string)
| ExOutOfRange (what : string)
| ExResultException (what : string).

(** Outcome of running a piece of the library.  [NullDeref] is a call
    through a null [com_ptr]; [OutOfFuel] is a loop cut off by the fuel of
    the embedding ([QueryD3DRegistryInfo::PerformQuery] has no bound of its
    own). *)
Inductive result (A : Type) : Type :=
| Return (a : A)
| Throw (e : exn)
| NullDeref
| OutOfFuel.
Arguments Return {A} a.
Arguments Throw {A} e.
Arguments NullDeref {A}.
Arguments OutOfFuel {A}.

Definition bind {A B : Type} (r : result A) (k : A -> result B) : result B :=
  match r with
  | Return a => k a
  | Throw e => Throw e
  | NullDeref => NullDeref
  | OutOfFuel => OutOfFuel
  end.

Declare Scope result_scope.
Delimit Scope result_scope with result.
Notation "x <- r ;; k" := (bind r (fun x => k))
  (at level 100, r at next level, right associativity) : result_scope.
Notation "r ;;; k" := (bind r (fun _ => k))
  (at level 100, right associativity) : result_scope.
Local Open Scope result_scope.

(** A call into the platform, as the [CheckHresult], [CheckWin32] and
    [CheckNtStatus] helpers classify its status code: [Failed msg] when the
    error object they build tests true (its message is [msg]), and
    [Succeeded a] with the out-parameter of the call otherwise. *)
Inductive reply (A : Type) : Type :=
| Succeeded (a : A)
| Failed (msg : string).
Arguments Succeeded {A} a.
Arguments Failed {A} msg.

(** [auto error = Check...(call); if (error) { throw error.Wrap(context); }]
    at the source location [(fl, fn, ln)] ([__WFILE__], [__WFUNCTION__],
    [__LINE__]). *)
Definition check {A : Type} (r : reply A) (fl fn : string) (ln : N)
    (context : string) : result A :=
  match r with
  | Succeeded a => Return a
  | Failed msg => Throw (ExDeviceDiscoveryError (Wrap (mkError msg fl fn ln) context))
  end.

(** [throw CreateError(message)]. *)
Definition throw_CreateError {A : Type} (msg fl fn : string) (ln : N) : result A :=
  Throw (ExDeviceDiscoveryError (mkError msg fl fn ln)).

(* ================================================================= *)
(** ** DeviceFilter.h, Adapter.h, Device.h *)

Inductive DeviceFilter : Type :=
| AllDevices
| DisplaySupported
| ComputeSupported
| DisplayOnly
| ComputeOnly
| DisplayAndCompute.

Global Instance DeviceFilter_eq_dec : EqDecision DeviceFilter.
Proof. solve_decision. Defined.

(** [DXCoreHardwareID]: the PnP hardware identifier of an adapter. *)
Record DXCoreHardwareID : Type := mkHardwareID {
  vendorID : N;
  deviceID : N;
  subSysID : N;
  revision : N
}.

(** [struct Adapter]. *)
Record Adapter : Type := mkAdapter {
  InstanceLuid : Z;
  HardwareID : DXCoreHardwareID;
  IsHardware : bool;
  IsIntegrated : bool;
  IsDetachable : bool;
  SupportsDisplay : bool;
  SupportsCompute : bool
}.

(** The default constructor [Adapter()]; the hardware identifier, which
    the constructor leaves uninitialised, is zero here. *)
Definition Adapter_default : Adapter :=
  mkAdapter 0 (mkHardwareID 0 0 0 0) false false false false false.

(** [struct RuntimeFile], without its constructor (see [RuntimeFile_new]). *)
Record RuntimeFile : Type := mkRuntimeFile {
  SourcePath : string;
  DestinationFilename : string
}.

(** [struct Device]. *)
Record Device : Type := mkDevice {
  DeviceAdapter : Adapter;
  ID : string;
  Description : string;
  DriverRegistryKey : string;
  DriverStorePath : string;
  LocationPath : string;
  RuntimeFiles : list RuntimeFile;
  RuntimeFilesWow64 : list RuntimeFile;
  Vendor : string
}.

Definition Device_default : Device :=
  mkDevice Adapter_default "" "" "" "" "" [] [] "".

(* ================================================================= *)
(** ** The platform services *)

(** The DXCore adapter attributes the library asks for. *)
Inductive Attribute : Type :=
| DXCORE_ADAPTER_ATTRIBUTE_D3D11_GRAPHICS
| DXCORE_ADAPTER_ATTRIBUTE_D3D12_GRAPHICS
| DXCORE_ADAPTER_ATTRIBUTE_D3D12_CORE_COMPUTE.

Definition Attribute_name (a : Attribute) : string :=
  match a with
  | DXCORE_ADAPTER_ATTRIBUTE_D3D11_GRAPHICS => "DXCORE_ADAPTER_ATTRIBUTE_D3D11_GRAPHICS"
  | DXCORE_ADAPTER_ATTRIBUTE_D3D12_GRAPHICS => "DXCORE_ADAPTER_ATTRIBUTE_D3D12_GRAPHICS"
  | DXCORE_ADAPTER_ATTRIBUTE_D3D12_CORE_COMPUTE => "DXCORE_ADAPTER_ATTRIBUTE_D3D12_CORE_COMPUTE"
  end.

(** [IDXCoreAdapter]: the answers of one adapter object.  The LUID is
    given as the 64-bit integer [Int64FromLuid] makes of it. *)
Record DXCoreAdapter : Type := mkDXCoreAdapter {
  GetProperty_InstanceLuid : reply Z;
  GetProperty_HardwareID : reply DXCoreHardwareID;
  GetProperty_IsHardware : reply bool;
  GetProperty_IsIntegrated : reply bool;
  GetProperty_IsDetachable : reply bool;
  IsAttributeSupported : Attribute -> bool
}.

(** [IDXCoreAdapterList]: [GetAdapterCount] is the length of [GetAdapter],
    [GetAdapter(index, ...)] its element at [index].  [hList] names the
    list object; whether it is stale is asked of the platform when
    [IsStale] is called, not when the list is created. *)
Record DXCoreAdapterList : Type := mkDXCoreAdapterList {
  hList : N;
  GetAdapter : list (reply DXCoreAdapter)
}.

(** The [Data] of a [Win32_PnPDeviceProperty] object, by [VARIANT] type.  A
    [VT_ARRAY | VT_BSTR] value carries the status of [SafeArrayLock] and
    its elements, of which the platform supplies at least one. *)
Inductive PropertyData : Type :=
| VT_I8 (llVal : Z)
| VT_BSTR (bstrVal : string)
| VT_ARRAY_BSTR (SafeArrayLock : reply unit) (first : string) (others : list string)
| VT_OTHER.

(** One element of the [deviceProperties] array.  [Get_Data] is [None]
    when [object->Get(L"Data", ...)] fails. *)
Record PnPDeviceProperty : Type := mkPnPDeviceProperty {
  QueryInterface : reply unit;
  Get_KeyName : reply string;
  Get_Data : option PropertyData
}.

(** The [deviceProperties] value returned by [GetDeviceProperties]. *)
Inductive PropertiesValue : Type :=
| VT_ARRAY_UNKNOWN (SafeArrayLock : reply unit) (elements : list PnPDeviceProperty)
| VT_NOT_ARRAY_UNKNOWN.

(** One [Win32_PnPEntity] object returned by the WQL query, with the
    answers to the calls [ExtractDeviceDetails] makes about it, in the
    order in which it makes them. *)
Record PnPEntity : Type := mkPnPEntity {
  Get_DeviceID : reply string;
  Get_Description : reply string;
  Get_Manufacturer : reply string;
  Get___Path : reply string;
  SpawnInstance : reply unit;
  CreateStringArray_SafeArrayLock : reply unit;
  Put_devicePropertyKeys : reply unit;
  ExecMethod_GetDeviceProperties : reply unit;
  GetResultObject : reply unit;
  Get_deviceProperties : reply PropertiesValue
}.

(** [D3DDDI_QUERYREGISTRY_STATUS]. *)
Inductive D3DDDI_QUERYREGISTRY_STATUS : Type :=
| D3DDDI_QUERYREGISTRY_STATUS_SUCCESS
| D3DDDI_QUERYREGISTRY_STATUS_BUFFER_OVERFLOW
| D3DDDI_QUERYREGISTRY_STATUS_FAIL.

(** The fields of [D3DDDI_QUERYREGISTRY_INFO] the library reads back. *)
Record D3DDDI_QUERYREGISTRY_INFO : Type := mkQueryRegistryInfo {
  Status : D3DDDI_QUERYREGISTRY_STATUS;
  OutputValueSize : N;
  OutputString : string
}.

(** One value of a registry key as [RegEnumValueW] reports it: its name,
    its type and its data, a sequence of [wchar_t]. *)
Record RegValue : Type := mkRegValue {
  valueName : string;
  valueType : N;
  valueData : string
}.

Definition REG_MULTI_SZ : N := 7.

(** An open registry key: [RegEnumValueW(key, i, ...)] answers with the
    element at index [i], and with [ERROR_NO_MORE_ITEMS] past the end. *)
Definition HKEY : Type := list (reply RegValue).

(** What the machine answers during one call of the library.
    [path_filename] is [std::filesystem::path(p).filename().wstring()] of
    the C++ runtime.  [D3DKMTQueryAdapterInfo] is given the adapter handle
    and the size of the trailing buffer of the request, the only part of
    the request that changes between two calls of [PerformQuery].
    [SystemRoot] is [wil::GetEnvironmentVariableW(L"SystemRoot")]: the
    value of the variable, or [Failed what] when the call throws a
    [wil::ResultException] that says [what], as it does when the variable
    is not set. *)
Record Platform : Type := mkPlatform {
  path_filename : string -> string;
  DXCoreCreateAdapterFactory : reply unit;
  CreateAdapterList : Attribute -> reply DXCoreAdapterList;
  create_instance_IWbemLocator : reply unit;
  ConnectServer : reply unit;
  CoSetProxyBlanket : reply unit;
  GetObject_Win32_PnPEntity : reply unit;
  GetMethod_GetDeviceProperties : reply unit;
  ExecQuery : string -> reply (list (reply PnPEntity));
  D3DKMTOpenAdapterFromLuid : Z -> reply N;
  D3DKMTQueryAdapterInfo : N -> N -> reply D3DDDI_QUERYREGISTRY_INFO;
  SystemRoot : reply string;
  RegOpenKeyExW : string -> string -> reply HKEY
}.

(** [DeviceDiscoveryError::Pretty]. *)
Definition Pretty (p : Platform) (e : DeviceDiscoveryError) : string :=
  let filename := path_filename p (file e) in
  let fileAndLine := filename +:+ ":" +:+ pretty (line e) in
  message e +:+ " [" +:+ fileAndLine +:+ " " +:+ function e +:+ "]".

(* ================================================================= *)
(** ** AdapterEnumeration.cpp *)

(** [class AdapterEnumeration].  An element of [adapterLists] is a
    [com_ptr<IDXCoreAdapterList>], [None] when null. *)
Record AdapterEnumeration : Type := mkAdapterEnumeration {
  adapterLists : list (option DXCoreAdapterList);
  uniqueAdapters : gmap Z Adapter
}.

(** [__WFILE__] in this source file; the build supplies its directory. *)
Definition AdapterEnumeration_cpp : string := "AdapterEnumeration.cpp".

(** The constructor [AdapterEnumeration::AdapterEnumeration]. *)
Definition AdapterEnumeration_new (p : Platform) : result AdapterEnumeration :=
  check (DXCoreCreateAdapterFactory p)
    AdapterEnumeration_cpp "AdapterEnumeration::AdapterEnumeration" 10
    "DXCoreCreateAdapterFactory failed" ;;;
  Return (mkAdapterEnumeration [] ∅).

(** [AdapterEnumeration::ExtractAdapterDetails]. *)
Definition ExtractAdapterDetails (adapter : DXCoreAdapter) : result Adapter :=
  let fn := "AdapterEnumeration::ExtractAdapterDetails" in
  instanceLuid <- check (GetProperty_InstanceLuid adapter) AdapterEnumeration_cpp fn 135
    "IDXCoreAdapter::GetProperty() failed for property InstanceLuid" ;;
  hardwareID <- check (GetProperty_HardwareID adapter) AdapterEnumeration_cpp fn 142
    "IDXCoreAdapter::GetProperty() failed for property HardwareID" ;;
  isHardware <- check (GetProperty_IsHardware adapter) AdapterEnumeration_cpp fn 148
    "IDXCoreAdapter::GetProperty() failed for property IsHardware" ;;
  isIntegrated <- check (GetProperty_IsIntegrated adapter) AdapterEnumeration_cpp fn 154
    "IDXCoreAdapter::GetProperty() failed for property IsIntegrated" ;;
  isDetachable <- check (GetProperty_IsDetachable adapter) AdapterEnumeration_cpp fn 160
    "IDXCoreAdapter::GetProperty() failed for property IsDetachable" ;;
  Return {|
    InstanceLuid := instanceLuid;
    HardwareID := hardwareID;
    IsHardware := isHardware;
    IsIntegrated := isIntegrated;
    IsDetachable := isDetachable;
    SupportsDisplay :=
      IsAttributeSupported adapter DXCORE_ADAPTER_ATTRIBUTE_D3D11_GRAPHICS ||
      IsAttributeSupported adapter DXCORE_ADAPTER_ATTRIBUTE_D3D12_GRAPHICS;
    SupportsCompute :=
      IsAttributeSupported adapter DXCORE_ADAPTER_ATTRIBUTE_D3D12_GRAPHICS
  |}.

(** The [ENUMERATE_ADAPTERS(attribute)] macro of [EnumerateAdapters], used
    at line [ln]: a null pointer is pushed first, and filled in by
    [CreateAdapterList]. *)
Definition ENUMERATE_ADAPTERS (p : Platform) (attribute : Attribute) (ln : N)
    (self : AdapterEnumeration) : AdapterEnumeration * result unit :=
  match CreateAdapterList p attribute with
  | Succeeded l =>
      (mkAdapterEnumeration (adapterLists self ++ [Some l]) (uniqueAdapters self),
       Return tt)
  | Failed msg =>
      (mkAdapterEnumeration (adapterLists self ++ [None]) (uniqueAdapters self),
       check (@Failed unit msg)
         AdapterEnumeration_cpp "AdapterEnumeration::EnumerateAdapters" ln
         ("IDXCoreAdapterFactory::CreateAdapterList() failed for attribute "
            +:+ Attribute_name attribute))
  end.

(** The filtering conditions of the loop body of [EnumerateAdapters]: [true]
    when none of its four [continue] statements is taken. *)
Definition survives (flt : DeviceFilter) (includeIntegrated includeDetachable : bool)
    (details : Adapter) : bool :=
  if negb (IsHardware details) then false
  else if (bool_decide (flt = DisplayOnly) && SupportsCompute details)
       || (bool_decide (flt = ComputeOnly) && SupportsDisplay details)
       || (bool_decide (flt = DisplayAndCompute)
             && (negb (SupportsDisplay details) || negb (SupportsCompute details)))
  then false
  else if IsIntegrated details && negb includeIntegrated then false
  else if IsDetachable details && negb includeDetachable then false
  else true.

(** [this->uniqueAdapters.insert(std::make_pair(details.InstanceLuid, details))]:
    [std::map::insert] leaves the map as it is when the key is present. *)
Definition map_insert {V : Type} (k : Z) (v : V) (m : gmap Z V) : gmap Z V :=
  match m !! k with
  | Some _ => m
  | None => <[k := v]> m
  end.

(** The inner loop of [EnumerateAdapters] over one adapter list, from
    [index] on; [adapters] are the answers of [GetAdapter] from there. *)
Fixpoint process_adapter_list (flt : DeviceFilter)
    (includeIntegrated includeDetachable : bool)
    (adapters : list (reply DXCoreAdapter)) (index : N)
    (unique : gmap Z Adapter) : gmap Z Adapter * result unit :=
  match adapters with
  | [] => (unique, Return tt)
  | r :: rest =>
      match (adapter <- check r
               AdapterEnumeration_cpp "AdapterEnumeration::EnumerateAdapters" 65
               ("IDXCoreAdapterList::GetAdapter() failed for index " +:+ pretty index) ;;
             ExtractAdapterDetails adapter) with
      | Return details =>
          process_adapter_list flt includeIntegrated includeDetachable rest (index + 1)%N
            (if survives flt includeIntegrated includeDetachable details
             then map_insert (InstanceLuid details) details unique
             else unique)
      | Throw e => (unique, Throw e)
      | NullDeref => (unique, NullDeref)
      | OutOfFuel => (unique, OutOfFuel)
      end
  end.

(** The outer loop of [EnumerateAdapters] over [this->adapterLists]. *)
Fixpoint process_adapter_lists (flt : DeviceFilter)
    (includeIntegrated includeDetachable : bool)
    (lists : list (option DXCoreAdapterList))
    (unique : gmap Z Adapter) : gmap Z Adapter * result unit :=
  match lists with
  | [] => (unique, Return tt)
  | None :: _ => (unique, NullDeref)
  | Some adapters :: rest =>
      match process_adapter_list flt includeIntegrated includeDetachable
              (GetAdapter adapters) 0%N unique with
      | (unique', Return _) =>
          process_adapter_lists flt includeIntegrated includeDetachable rest unique'
      | (unique', r) => (unique', r)
      end
  end.

(** Runs [step] on the object unless an earlier step has thrown. *)
Definition and_then {S : Type} (sr : S * result unit) (step : S -> S * result unit)
    : S * result unit :=
  match sr with
  | (s, Return _) => step s
  | (s, r) => (s, r)
  end.

(** [AdapterEnumeration::EnumerateAdapters]. *)
Definition EnumerateAdapters (p : Platform) (flt : DeviceFilter)
    (includeIntegrated includeDetachable : bool) (self : AdapterEnumeration)
    : AdapterEnumeration * result unit :=
  (* Clear our adapter lists and our set of unique adapters *)
  let self := mkAdapterEnumeration [] ∅ in
  (* Enumerate adapters that support Direct3D 11 *)
  let s1 :=
    if bool_decide (flt ≠ ComputeOnly) && bool_decide (flt ≠ DisplayAndCompute)
    then ENUMERATE_ADAPTERS p DXCORE_ADAPTER_ATTRIBUTE_D3D11_GRAPHICS 42 self
    else (self, Return tt) in
  (* Enumerate adapters that support Direct3D 12 *)
  let s2 := and_then s1 (fun self =>
    if bool_decide (flt ≠ ComputeOnly)
    then ENUMERATE_ADAPTERS p DXCORE_ADAPTER_ATTRIBUTE_D3D12_GRAPHICS 47 self
    else (self, Return tt)) in
  (* Enumerate adapters that support Direct3D 12 Core *)
  let s3 := and_then s2 (fun self =>
    if bool_decide (flt ≠ DisplayOnly)
    then ENUMERATE_ADAPTERS p DXCORE_ADAPTER_ATTRIBUTE_D3D12_CORE_COMPUTE 52 self
    else (self, Return tt)) in
  (* Process each of the enumerated adapters and apply our filtering criteria *)
  and_then s3 (fun self =>
    let (unique, r) :=
      process_adapter_lists flt includeIntegrated includeDetachable
        (adapterLists self) (uniqueAdapters self) in
    (mkAdapterEnumeration (adapterLists self) unique, r)).

(** [AdapterEnumeration::GetUniqueAdapters]. *)
Definition GetUniqueAdapters (self : AdapterEnumeration) : gmap Z Adapter :=
  uniqueAdapters self.

(** The loop of [AdapterEnumeration::IsStale]; [stale h] is the answer of
    [IDXCoreAdapterList::IsStale] for the list object [h] at the time of
    the call. *)
Fixpoint any_list_stale (stale : N -> bool) (lists : list (option DXCoreAdapterList))
    : result bool :=
  match lists with
  | [] => Return false
  | None :: _ => NullDeref
  | Some l :: rest => if stale (hList l) then Return true else any_list_stale stale rest
  end.

(** [AdapterEnumeration::IsStale]. *)
Definition IsStale (stale : N -> bool) (self : AdapterEnumeration) : result bool :=
  if bool_decide (adapterLists self = []) then Return true
  else any_list_stale stale (adapterLists self).

(* ================================================================= *)
(** ** Strings: formatting and the ordered containers of [std::wstring] *)

(** The double quote character. *)
Definition dquote : string := String (ascii_of_nat 34) "".

(** The backslash character. *)
Definition backslash_char : ascii := ascii_of_nat 92.

Definition hex_digit (d : N) : ascii :=
  if (d <? 10)%N then ascii_of_N (48 + d) else ascii_of_N (55 + d).

Fixpoint to_hex_go (fuel : nat) (n : N) (acc : string) : string :=
  match fuel with
  | O => acc
  | S fuel' =>
      let acc' := String (hex_digit (n mod 16)%N) acc in
      if (n / 16 =? 0)%N then acc' else to_hex_go fuel' (n / 16)%N acc'
  end.

Fixpoint pad_left (missing : nat) (s : string) : string :=
  match missing with
  | O => s
  | S m => String "0"%char (pad_left m s)
  end.

(** The [fmt] replacement field [{:0>wX}]: upper-case hexadecimal, right
    aligned in [width] columns, filled with zeros. *)
Definition format_hex (width : nat) (n : N) : string :=
  let digits := to_hex_go (S (N.to_nat (N.log2 n))) n "" in
  pad_left (width - String.length digits) digits.

(** [std::set<std::wstring>::insert] on a sorted list without duplicates. *)
Fixpoint set_insert (x : string) (s : list string) : list string :=
  match s with
  | [] => [x]
  | y :: rest =>
      match String.compare x y with
      | Lt => x :: y :: rest
      | Eq => y :: rest
      | Gt => y :: set_insert x rest
      end
  end.

(** [std::map<std::wstring, V>::insert] on an association list sorted by
    key: an entry whose key is present is not replaced. *)
Fixpoint wmap_insert {V : Type} (k : string) (v : V) (m : list (string * V))
    : list (string * V) :=
  match m with
  | [] => [(k, v)]
  | (k', v') :: rest =>
      match String.compare k k' with
      | Lt => (k, v) :: (k', v') :: rest
      | Eq => (k', v') :: rest
      | Gt => (k', v') :: wmap_insert k v rest
      end
  end.

(** [std::wstring::find(needle, 0) == 0]. *)
Fixpoint starts_with (needle s : string) : bool :=
  match needle, s with
  | "", _ => true
  | String a needle', String b s' => Ascii.eqb a b && starts_with needle' s'
  | String _ _, "" => false
  end.

(** [std::wstring::find(needle, 0) != npos]. *)
Fixpoint contains (needle s : string) : bool :=
  starts_with needle s ||
  match s with
  | "" => false
  | String _ s' => contains needle s'
  end.

(** [s.replace(0, n, by)]. *)
Definition replace_prefix (n : nat) (by_ s : string) : string :=
  by_ +:+ String.substring n (String.length s - n) s.

(** [std::stoll] in base 10 (and [winrt::to_string] before it, which does
    not change code units below 128): leading white space, an optional
    sign, then the longest run of digits. *)
Definition isspace (c : ascii) : bool :=
  let n := N_of_ascii c in
  (n =? 32)%N || ((9 <=? n)%N && (n <=? 13)%N).

Definition isdigit (c : ascii) : bool :=
  let n := N_of_ascii c in
  (48 <=? n)%N && (n <=? 57)%N.

Fixpoint skip_spaces (s : string) : string :=
  match s with
  | String c rest => if isspace c then skip_spaces rest else s
  | "" => ""
  end.

Fixpoint parse_digits (s : string) (acc : Z) : Z :=
  match s with
  | String c rest =>
      if isdigit c then parse_digits rest (10 * acc + (Z.of_N (N_of_ascii c) - 48))
      else acc
  | "" => acc
  end.

Definition LLONG_MIN : Z := - 2 ^ 63.
Definition LLONG_MAX : Z := 2 ^ 63 - 1.

Definition stoll (str : string) : result Z :=
  let s := skip_spaces str in
  let '(negative, s) :=
    match s with
    | String c rest =>
        if Ascii.eqb c "-" then (true, rest)
        else if Ascii.eqb c "+" then (false, rest)
        else (false, s)
    | "" => (false, s)
    end in
  match s with
  | String c _ =>
      if isdigit c then
        let n := parse_digits s 0 in
        let v := if negative : bool then - n else n in
        if (v <? LLONG_MIN)%Z || (LLONG_MAX <? v)%Z
        then Throw (ExOutOfRange "stoll argument out of range")
        else Return v
      else Throw (ExInvalidArgument "invalid stoll argument")
  | "" => Throw (ExInvalidArgument "invalid stoll argument")
  end.

(* ================================================================= *)
(** ** WmiQuery.cpp *)

(** [DevPropKeyToString(DEVPKEY_Device_AdapterLuid)]. *)
Definition DevPropKeyToString_AdapterLuid : string :=
  "{" +:+ format_hex 8 0x60b193cb +:+ "-" +:+ format_hex 4 0x5276 +:+ "-"
  +:+ format_hex 4 0x4d0f +:+ "-" +:+ format_hex 2 0x96 +:+ format_hex 2 0xfc
  +:+ "-" +:+ format_hex 2 0xf1 +:+ format_hex 2 0x73 +:+ format_hex 2 0xab
  +:+ format_hex 2 0xad +:+ format_hex 2 0x3e +:+ format_hex 2 0xc6
  +:+ "} " +:+ pretty 2%N.

(** [FormatHardwareID]: a PCI hardware identifier with a trailing wildcard
    for the device instance; the backslash is doubled for WQL. *)
Definition FormatHardwareID (dxHardwareID : DXCoreHardwareID) : string :=
  "PCI\\VEN_" +:+ format_hex 4 (vendorID dxHardwareID)
  +:+ "&DEV_" +:+ format_hex 4 (deviceID dxHardwareID)
  +:+ "&SUBSYS_" +:+ format_hex 8 (subSysID dxHardwareID)
  +:+ "&REV_" +:+ format_hex 2 (revision dxHardwareID) +:+ "%".

(** [class WmiQuery]: of its members only [devPropKeyLUID] holds data. *)
Record WmiQuery : Type := mkWmiQuery {
  devPropKeyLUID : string
}.

Definition WmiQuery_cpp : string := "WmiQuery.cpp".

(** The constructor [WmiQuery::WmiQuery]. *)
Definition WmiQuery_new (p : Platform) : result WmiQuery :=
  let fn := "WmiQuery::WmiQuery" in
  check (create_instance_IWbemLocator p) WmiQuery_cpp fn 65
    "failed to create an IWbemLocator instance" ;;;
  check (ConnectServer p) WmiQuery_cpp fn 71
    "failed to connect to the WMI service" ;;;
  check (CoSetProxyBlanket p) WmiQuery_cpp fn 86
    "failed to set the security level for the WMI service proxy" ;;;
  check (GetObject_Win32_PnPEntity p) WmiQuery_cpp fn 101
    "failed to retrieve the CIM class definition for the Win32_PnPEntity class" ;;;
  check (GetMethod_GetDeviceProperties p) WmiQuery_cpp fn 113
    "failed to retrieve the input parameters class for Win32_PnPEntity::GetDeviceProperties" ;;;
  Return (mkWmiQuery DevPropKeyToString_AdapterLuid).

Definition set_DeviceAdapter (a : Adapter) (d : Device) : Device :=
  mkDevice a (ID d) (Description d) (DriverRegistryKey d) (DriverStorePath d)
    (LocationPath d) (RuntimeFiles d) (RuntimeFilesWow64 d) (Vendor d).

Definition set_InstanceLuid (luid : Z) (d : Device) : Device :=
  let a := DeviceAdapter d in
  set_DeviceAdapter
    (mkAdapter luid (HardwareID a) (IsHardware a) (IsIntegrated a) (IsDetachable a)
       (SupportsDisplay a) (SupportsCompute a)) d.

Definition set_DriverRegistryKey (k : string) (d : Device) : Device :=
  mkDevice (DeviceAdapter d) (ID d) (Description d) k (DriverStorePath d)
    (LocationPath d) (RuntimeFiles d) (RuntimeFilesWow64 d) (Vendor d).

Definition set_DriverStorePath (s : string) (d : Device) : Device :=
  mkDevice (DeviceAdapter d) (ID d) (Description d) (DriverRegistryKey d) s
    (LocationPath d) (RuntimeFiles d) (RuntimeFilesWow64 d) (Vendor d).

Definition set_LocationPath (l : string) (d : Device) : Device :=
  mkDevice (DeviceAdapter d) (ID d) (Description d) (DriverRegistryKey d)
    (DriverStorePath d) l (RuntimeFiles d) (RuntimeFilesWow64 d) (Vendor d).

Definition set_RuntimeFiles (l : list RuntimeFile) (d : Device) : Device :=
  mkDevice (DeviceAdapter d) (ID d) (Description d) (DriverRegistryKey d)
    (DriverStorePath d) (LocationPath d) l (RuntimeFilesWow64 d) (Vendor d).

Definition set_RuntimeFilesWow64 (l : list RuntimeFile) (d : Device) : Device :=
  mkDevice (DeviceAdapter d) (ID d) (Description d) (DriverRegistryKey d)
    (DriverStorePath d) (LocationPath d) (RuntimeFiles d) l (Vendor d).

(** The body of the loop of [ExtractDeviceDetails] over the device
    properties, once the [Data] of the property has been retrieved. *)
Definition apply_property (self : WmiQuery) (keyName : string) (data : PropertyData)
    (details : Device) : result Device :=
  let fn := "WmiQuery::ExtractDeviceDetails" in
  if String.eqb keyName "DEVPKEY_Device_Driver" then
    match data with
    | VT_BSTR bstrVal =>
        Return (set_DriverRegistryKey
          ("HKEY_LOCAL_MACHINE\SYSTEM\CurrentControlSet\Control\Class\" +:+ bstrVal)
          details)
    | _ => throw_CreateError "DeviceDriver value was not a string" WmiQuery_cpp fn 314
    end
  else if String.eqb keyName "DEVPKEY_Device_LocationPaths" then
    match data with
    | VT_ARRAY_BSTR lock first _ =>
        check lock "SafeArray.h" "SafeArrayIterator<T>::SafeArrayIterator" 20
          "SafeArrayLock failed" ;;;
        Return (set_LocationPath first details)
    | _ => throw_CreateError "LocationPaths value was not an array of strings"
             WmiQuery_cpp fn 326
    end
  else if String.eqb keyName (devPropKeyLUID self) then
    match data with
    | VT_I8 llVal => Return (set_InstanceLuid llVal details)
    | VT_BSTR bstrVal =>
        luid <- stoll bstrVal ;;
        Return (set_InstanceLuid luid details)
    | _ => throw_CreateError "LUID value was not a 64-bit integer or a string"
             WmiQuery_cpp fn 345
    end
  else Return details.

(** The loop of [ExtractDeviceDetails] over the device properties array. *)
Fixpoint process_properties (self : WmiQuery) (elements : list PnPDeviceProperty)
    (details : Device) : result Device :=
  let fn := "WmiQuery::ExtractDeviceDetails" in
  match elements with
  | [] => Return details
  | element :: rest =>
      check (QueryInterface element) WmiQuery_cpp fn 287
        "IUnknown::QueryInterface() failed for Win32_PnPDeviceProperty object" ;;;
      keyName <- check (Get_KeyName element) WmiQuery_cpp fn 294
        "failed to retrieve KeyName property of PnP device property" ;;
      match Get_Data element with
      | None => process_properties self rest details
      | Some data =>
          details' <- apply_property self keyName data details ;;
          process_properties self rest details'
      end
  end.

(** [WmiQuery::ExtractDeviceDetails]. *)
Definition ExtractDeviceDetails (self : WmiQuery) (device : PnPEntity) : result Device :=
  let fn := "WmiQuery::ExtractDeviceDetails" in
  id <- check (Get_DeviceID device) WmiQuery_cpp fn 202
    "failed to retrieve DeviceID property of PnP device" ;;
  description <- check (Get_Description device) WmiQuery_cpp fn 210
    "failed to retrieve Description property of PnP device" ;;
  vendor <- check (Get_Manufacturer device) WmiQuery_cpp fn 218
    "failed to retrieve Manufacturer property of PnP device" ;;
  vtPath <- check (Get___Path device) WmiQuery_cpp fn 226
    "failed to retrieve __Path property of PnP device" ;;
  check (SpawnInstance device) WmiQuery_cpp fn 233
    "failed to spawn input parameters instance for Win32_PnPEntity::GetDeviceProperties" ;;;
  check (CreateStringArray_SafeArrayLock device)
    "SafeArray.cpp" "SafeArrayFactory::CreateStringArray" 16 "SafeArrayLock failed" ;;;
  check (Put_devicePropertyKeys device) WmiQuery_cpp fn 244
    "failed to assign input parameters array for Win32_PnPEntity::GetDeviceProperties" ;;;
  check (ExecMethod_GetDeviceProperties device) WmiQuery_cpp fn 251
    "failed to invoke Win32_PnPEntity::GetDeviceProperties()" ;;;
  check (GetResultObject device) WmiQuery_cpp fn 266
    "failed to retrieve return value for Win32_PnPEntity::GetDeviceProperties" ;;;
  vtPropertiesArray <- check (Get_deviceProperties device) WmiQuery_cpp fn 273
    "failed to retrieve deviceProperties property of Win32_PnPEntity::GetDeviceProperties return value" ;;
  match vtPropertiesArray with
  | VT_NOT_ARRAY_UNKNOWN =>
      throw_CreateError "deviceProperties value was not an array of IUnknown objects"
        WmiQuery_cpp fn 278
  | VT_ARRAY_UNKNOWN lock elements =>
      check lock "SafeArray.h" "SafeArrayIterator<T>::SafeArrayIterator" 20
        "SafeArrayLock failed" ;;;
      process_properties self elements
        (mkDevice Adapter_default id description "" "" "" [] [] vendor)
  end.

(** The [DeviceID LIKE ...] clauses of the WQL query, joined by [OR]. *)
Fixpoint like_clauses (hardwareIDs : list string) : string :=
  match hardwareIDs with
  | [] => ""
  | id :: rest =>
      "DeviceID LIKE " +:+ dquote +:+ id +:+ dquote
      +:+ (match rest with [] => "" | _ => " OR " end) +:+ like_clauses rest
  end.

(** The loop of [GetDevicesForAdapters] over the enumerator of the query
    result: each element is the answer of one call of [Next]. *)
Fixpoint match_devices (self : WmiQuery) (adapters : gmap Z Adapter)
    (enumerator : list (reply PnPEntity)) (devices : list Device)
    : result (list Device) :=
  match enumerator with
  | [] => Return devices
  | next :: rest =>
      device <- check next WmiQuery_cpp "WmiQuery::GetDevicesForAdapters" 168
        "enumerating PnP devices failed" ;;
      details <- ExtractDeviceDetails self device ;;
      match adapters !! InstanceLuid (DeviceAdapter details) with
      | Some matchingAdapter =>
          match_devices self adapters rest
            (devices ++ [set_DeviceAdapter matchingAdapter details])
      | None => match_devices self adapters rest devices
      end
  end.

(** [WmiQuery::GetDevicesForAdapters]. *)
Definition GetDevicesForAdapters (p : Platform) (self : WmiQuery)
    (adapters : gmap Z Adapter) : result (list Device) :=
  if bool_decide (adapters = ∅) then Return []
  else
    let hardwareIDs :=
      foldr (fun adapter ids => set_insert (FormatHardwareID (HardwareID adapter.2)) ids)
        [] (map_to_list adapters) in
    let query :=
      "SELECT * FROM Win32_PnPEntity WHERE Present = TRUE AND ("
      +:+ like_clauses hardwareIDs +:+ ")" in
    enumerator <- check (ExecQuery p query) WmiQuery_cpp "WmiQuery::GetDevicesForAdapters" 150
      "WQL query execution failed" ;;
    match_devices self adapters enumerator [].

(* ================================================================= *)
(** ** D3DHelpers.cpp *)

(** [QueryD3DRegistryInfo::PerformQuery], for the filesystem query set up
    by [SetFilesystemQuery]: [trailingBuffer] is the size given to the last
    [Resize], and the value returned is [RegistryInfo->OutputString] when
    the loop ends.  The [while (true)] loop runs at most [fuel] times. *)
Fixpoint PerformQuery (fuel : nat) (p : Platform) (adapter : N) (trailingBuffer : N)
    : result string :=
  match fuel with
  | O => OutOfFuel
  | S fuel' =>
      RegistryInfo <- check (D3DKMTQueryAdapterInfo p adapter trailingBuffer)
        "D3DHelpers.cpp" "QueryD3DRegistryInfo::PerformQuery" 49
        "D3DKMTQueryAdapterInfo failed" ;;
      match Status RegistryInfo with
      | D3DDDI_QUERYREGISTRY_STATUS_BUFFER_OVERFLOW =>
          PerformQuery fuel' p adapter (OutputValueSize RegistryInfo)
      | _ => Return (OutputString RegistryInfo)
      end
  end.

(* ================================================================= *)
(** ** RegistryQuery.cpp *)

Definition RegistryQuery_cpp : string := "RegistryQuery.cpp".

Definition NUL : ascii := ascii_of_nat 0.

Fixpoint drop_chars (n : nat) (s : string) : string :=
  match n, s with
  | O, _ => s
  | S n', String _ rest => drop_chars n' rest
  | S _, "" => ""
  end.

(** [std::wstring(data)] for a null-terminated [data]; the buffer
    [EnumerateMultiStringValues] reads into is zero-initialised, so that
    the end of the data acts as a terminator. *)
Fixpoint cstring (data : string) : string :=
  match data with
  | String c rest => if Ascii.eqb c NUL then "" else String c (cstring rest)
  | "" => ""
  end.

(** The loop of [ExtractMultiStringValue]; it advances by at least one
    character per iteration, so [fuel = upperBound] lets it run to its end. *)
Fixpoint ExtractMultiStringValue_loop (fuel : nat) (data : string)
    (offset upperBound : nat) (strings : list string) : list string :=
  match fuel with
  | O => strings
  | S fuel' =>
      if (offset <? upperBound)%nat then
        let nextString := cstring (drop_chars offset data) in
        if (String.length nextString =? 0)%nat then strings
        else ExtractMultiStringValue_loop fuel' data
               (offset + String.length nextString + 1)%nat upperBound
               (strings ++ [nextString])
      else strings
  end.

(** [RegistryQuery::ExtractMultiStringValue]; [sizeof(wchar_t)] is 2. *)
Definition ExtractMultiStringValue (data : string) (numBytes : nat) : list string :=
  let upperBound := (numBytes / 2)%nat in
  ExtractMultiStringValue_loop upperBound data 0%nat upperBound [].

(** The loop of [EnumerateMultiStringValues], from the value at the head of
    [key] on. *)
Fixpoint enumerate_values (key : HKEY) (values : list (string * list string))
    : result (list (string * list string)) :=
  match key with
  | [] => Return values
  | r :: rest =>
      value <- check r RegistryQuery_cpp "RegistryQuery::EnumerateMultiStringValues" 35
        "RegEnumValueW failed" ;;
      let name := valueName value in
      if negb (valueType value =? REG_MULTI_SZ)%N then
        throw_CreateError ("enumerated value was not of type REG_MULTI_SZ: " +:+ name)
          RegistryQuery_cpp "RegistryQuery::EnumerateMultiStringValues" 43
      else
        let strings :=
          ExtractMultiStringValue (valueData value)
            (2 * String.length (valueData value)) in
        enumerate_values rest (wmap_insert name strings values)
  end.

(** [RegistryQuery::EnumerateMultiStringValues]. *)
Definition EnumerateMultiStringValues (key : HKEY) : result (list (string * list string)) :=
  enumerate_values key [].

(** The names of the supported root keys of [OpenKeyFromString]. *)
Definition rootKeys : list string :=
  [ "HKEY_CLASSES_ROOT"; "HKEY_CURRENT_CONFIG"; "HKEY_CURRENT_USER";
    "HKEY_LOCAL_MACHINE"; "HKEY_PERFORMANCE_DATA"; "HKEY_USERS" ].

(** [RegistryQuery::OpenKeyFromString]. *)
Definition OpenKeyFromString (p : Platform) (key : string) : result HKEY :=
  let fn := "RegistryQuery::OpenKeyFromString" in
  match String.index 0 (String backslash_char "") key with
  | None => throw_CreateError ("invalid registry key path: " +:+ key) RegistryQuery_cpp fn 89
  | Some backslash =>
      if (String.length key - 1 <=? backslash)%nat then
        throw_CreateError ("invalid registry key path: " +:+ key) RegistryQuery_cpp fn 89
      else
        let rootKeyName := String.substring 0 backslash key in
        let keyPath := drop_chars (backslash + 1) key in
        if existsb (String.eqb rootKeyName) rootKeys then
          check (RegOpenKeyExW p rootKeyName keyPath) RegistryQuery_cpp fn 104
            ("failed to open registry key " +:+ key)
        else
          throw_CreateError ("unknown registry root key: " +:+ rootKeyName)
            RegistryQuery_cpp fn 99
  end.

(** The constructor [RuntimeFile::RuntimeFile] ([Device.h]). *)
Definition RuntimeFile_new (p : Platform) (SourcePath DestinationFilename : string)
    : RuntimeFile :=
  mkRuntimeFile SourcePath
    (if String.eqb DestinationFilename "" then path_filename p SourcePath
     else DestinationFilename).

(** The body of the loop of [ProcessRuntimeFiles] over the enumerated
    values, on the runtime file list of the device. *)
Definition add_runtime_file (p : Platform) (files : list RuntimeFile)
    (pair : string * list string) : list RuntimeFile :=
  match pair.2 with
  | [] => files
  | source :: _ =>
      let newFile :=
        RuntimeFile_new p source
          (if (length pair.2 =? 2)%nat then nth 1 pair.2 "" else "") in
      if existsb (fun f => String.eqb (DestinationFilename f) (DestinationFilename newFile)) files
      then files
      else files ++ [newFile]
  end.

(** The outcome of the enclosing computation when a step of it did not
    return: the exception, null dereference or exhaustion of fuel of the
    step.  It is applied in the branches of a [match] that a [Return] does
    not reach. *)
Definition rethrow {A B : Type} (r : result A) : result B :=
  match r with
  | Return _ => NullDeref
  | Throw e => Throw e
  | NullDeref => NullDeref
  | OutOfFuel => OutOfFuel
  end.

(** [RegistryQuery::ProcessRuntimeFiles]: the handler catches
    [DeviceDiscoveryError] and nothing else.  The device is passed by
    reference: it is returned as the call leaves it. *)
Definition ProcessRuntimeFiles (p : Platform) (key : string) (isWow64 : bool)
    (device : Device) : Device * result unit :=
  let files := if isWow64 then RuntimeFilesWow64 device else RuntimeFiles device in
  let try :=
    registryKey <- OpenKeyFromString p
      (DriverRegistryKey device +:+ String backslash_char "" +:+ key) ;;
    values <- EnumerateMultiStringValues registryKey ;;
    Return (fold_left (add_runtime_file p) values files) in
  match try with
  | Return files' =>
      (if isWow64 then set_RuntimeFilesWow64 files' device
       else set_RuntimeFiles files' device, Return tt)
  | Throw (ExDeviceDiscoveryError err) => (device, Return tt)
  | r => (device, rethrow r)
  end.

(** [RegistryQuery::FillDriverDetails].  The driver store path of the
    device is assigned the string the query returns before the environment
    variable is looked up: a lookup that throws leaves the device with
    that string, and its exception is none [ProcessRuntimeFiles] or
    [DiscoverDevices] has a handler for. *)
Definition FillDriverDetails (fuel : nat) (p : Platform) (device : Device)
    : Device * result unit :=
  let query :=
    (* Attempt to open the DirectX adapter for the device *)
    adapter <- check (D3DKMTOpenAdapterFromLuid p (InstanceLuid (DeviceAdapter device)))
      RegistryQuery_cpp "RegistryQuery::FillDriverDetails" 157
      ("D3DKMTOpenAdapterFromLuid failed to open adapter with LUID "
         +:+ pretty (InstanceLuid (DeviceAdapter device))) ;;
    (* Retrieve the path to the driver store directory for the adapter *)
    PerformQuery fuel p adapter 0 in
  match query with
  | Return OutputString =>
      let device := set_DriverStorePath OutputString device in
      (* If the driver store path begins with the "\SystemRoot" prefix then expand it *)
      let prefix := String backslash_char "SystemRoot" in
      match SystemRoot p with
      | Failed what => (device, Throw (ExResultException what))
      | Succeeded systemRoot =>
          let path :=
            if starts_with prefix (DriverStorePath device)
            then replace_prefix (String.length prefix) systemRoot (DriverStorePath device)
            else DriverStorePath device in
          let device := set_DriverStorePath path device in
          (* Determine whether we're running on the host or inside a container *)
          if contains "HostDriverStore" (DriverStorePath device) then (device, Return tt)
          else
            and_then (and_then (and_then
              (ProcessRuntimeFiles p "CopyToVmOverwrite" false device)
              (ProcessRuntimeFiles p "CopyToVmWhenNewer" false))
              (ProcessRuntimeFiles p "CopyToVmOverwriteWow64" true))
              (ProcessRuntimeFiles p "CopyToVmWhenNewerWow64" true)
      end
  | r => (device, rethrow r)
  end.

(* ================================================================= *)
(** ** DeviceDiscoveryImp.cpp *)

(** [class DeviceDiscoveryImp]; a [unique_ptr] member is [None] when null. *)
Record DeviceDiscoveryImp : Type := mkDeviceDiscoveryImp {
  devices : list Device;
  lastError : string;
  enumeration : option AdapterEnumeration;
  wmi : option WmiQuery
}.

(** The constructor [DeviceDiscoveryImp()]. *)
Definition DeviceDiscoveryImp_new : DeviceDiscoveryImp :=
  mkDeviceDiscoveryImp [] "" None None.

Definition DeviceDiscoveryImp_cpp : string := "DeviceDiscoveryImp.cpp".

(** [DeviceDiscoveryImp::GetLastErrorMessage]. *)
Definition GetLastErrorMessage (self : DeviceDiscoveryImp) : string := lastError self.

(** [DeviceDiscoveryImp::HaveDevices]. *)
Definition HaveDevices (self : DeviceDiscoveryImp) : bool :=
  bool_decide (is_Some (enumeration self)) && bool_decide (is_Some (wmi self)).

(** [DeviceDiscoveryImp::SetLastErrorMessage]. *)
Definition SetLastErrorMessage (msg : string) (self : DeviceDiscoveryImp)
    : DeviceDiscoveryImp :=
  mkDeviceDiscoveryImp (devices self) msg (enumeration self) (wmi self).

(** The macros [RETURN_ERROR(sentinel, message)] and [RETURN_SUCCESS(value)]. *)
Definition RETURN_ERROR {A : Type} (sentinel : A) (msg : string)
    (self : DeviceDiscoveryImp) : DeviceDiscoveryImp * A :=
  (SetLastErrorMessage msg self, sentinel).

Definition RETURN_SUCCESS {A : Type} (value : A) (self : DeviceDiscoveryImp)
    : DeviceDiscoveryImp * A :=
  (SetLastErrorMessage "" self, value).

(** [DeviceDiscoveryImp::IsRefreshRequired]. *)
Definition IsRefreshRequired (stale : N -> bool) (self : DeviceDiscoveryImp)
    : result bool :=
  if HaveDevices self then
    match enumeration self with
    | Some e => IsStale stale e
    | None => NullDeref
    end
  else Return true.

Definition set_enumeration (e : AdapterEnumeration) (self : DeviceDiscoveryImp)
    : DeviceDiscoveryImp :=
  mkDeviceDiscoveryImp (devices self) (lastError self) (Some e) (wmi self).

Definition set_wmi (w : WmiQuery) (self : DeviceDiscoveryImp) : DeviceDiscoveryImp :=
  mkDeviceDiscoveryImp (devices self) (lastError self) (enumeration self) (Some w).

Definition set_devices (l : list Device) (self : DeviceDiscoveryImp) : DeviceDiscoveryImp :=
  mkDeviceDiscoveryImp l (lastError self) (enumeration self) (wmi self).

(** The first statement of the [try] block of [DiscoverDevices]: the helper
    objects are created when one of them is missing.  A constructor that
    throws leaves the member it was to be assigned to as it was. *)
Definition create_helpers (p : Platform) (self : DeviceDiscoveryImp)
    : DeviceDiscoveryImp * result unit :=
  if negb (HaveDevices self) then
    match AdapterEnumeration_new p with
    | Return e =>
        let self := set_enumeration e self in
        match WmiQuery_new p with
        | Return w => (set_wmi w self, Return tt)
        | r => (self, rethrow r)
        end
    | r => (self, rethrow r)
    end
  else (self, Return tt).

(** The loop of [DiscoverDevices] over [this->devices], which holds
    [devices] from the device reached by the loop on. *)
Fixpoint fill_driver_details (fuel : nat) (p : Platform) (devices : list Device)
    : list Device * result unit :=
  match devices with
  | [] => ([], Return tt)
  | device :: rest =>
      match FillDriverDetails fuel p device with
      | (device', Return _) =>
          let (rest', r) := fill_driver_details fuel p rest in
          (device' :: rest', r)
      | (device', r) => (device' :: rest, r)
      end
  end.

(** The [try] block of [DeviceDiscoveryImp::DiscoverDevices]. *)
Definition DiscoverDevices_try (fuel : nat) (p : Platform) (flt : DeviceFilter)
    (includeIntegrated includeDetachable : bool) (self : DeviceDiscoveryImp)
    : DeviceDiscoveryImp * result unit :=
  (* If this is the first time we're performing device discovery then create
     our helper objects *)
  and_then (create_helpers p self) (fun self =>
    match enumeration self, wmi self with
    | Some e, Some w =>
        (* Enumerate the DirectX adapters that meet the supplied filtering criteria *)
        let (e', r) := EnumerateAdapters p flt includeIntegrated includeDetachable e in
        and_then (set_enumeration e' self, r) (fun self =>
          (* Retrieve the PnP device details from WMI for each of the enumerated
             adapters *)
          match GetDevicesForAdapters p w (GetUniqueAdapters e') with
          | Return found =>
              (* Retrieve the driver details from the registry for each of the
                 devices *)
              let (filled, r) := fill_driver_details fuel p found in
              (set_devices filled self, r)
          | r => (self, rethrow r)
          end)
    | _, _ => (self, NullDeref)
    end).

(** [DeviceDiscoveryImp::DiscoverDevices]: the two handlers turn a
    [DeviceDiscoveryError] and a [std::runtime_error] into the sentinel
    [false]; any other exception leaves the function. *)
Definition DiscoverDevices (fuel : nat) (p : Platform) (flt : DeviceFilter)
    (includeIntegrated includeDetachable : bool) (self : DeviceDiscoveryImp)
    : DeviceDiscoveryImp * result bool :=
  match DiscoverDevices_try fuel p flt includeIntegrated includeDetachable self with
  | (self, Return _) =>
      let (self, value) := RETURN_SUCCESS true self in (self, Return value)
  | (self, Throw (ExDeviceDiscoveryError err)) =>
      let (self, sentinel) := RETURN_ERROR false (Pretty p err) self in
      (self, Return sentinel)
  | (self, Throw (ExRuntimeError what)) =>
      let (self, sentinel) := RETURN_ERROR false what self in
      (self, Return sentinel)
  | (self, r) => (self, rethrow r)
  end.

(** [DeviceDiscovery_DiscoverDevices] of the C interface
    ([DeviceDiscovery.cpp]): 0 on success and -1 on failure; it has no
    handler of its own. *)
Definition DeviceDiscovery_DiscoverDevices (fuel : nat) (p : Platform)
    (flt : DeviceFilter) (includeIntegrated includeDetachable : bool)
    (instance : DeviceDiscoveryImp) : DeviceDiscoveryImp * result Z :=
  let (instance, r) :=
    DiscoverDevices fuel p flt includeIntegrated includeDetachable instance in
  (instance, success <- r ;; Return (if success : bool then 0 else -1)).

(** [DeviceDiscoveryImp::GetNumDevices]. *)
Definition GetNumDevices (self : DeviceDiscoveryImp) : DeviceDiscoveryImp * Z :=
  if negb (HaveDevices self) then
    RETURN_ERROR (-1)
      "attempted to retrieve device count before performing device discovery" self
  else RETURN_SUCCESS (Z.of_nat (length (devices self))) self.

(** [DeviceDiscoveryImp::ValidateRequestedDevice]: [Some err] when it throws
    the error [err], which is the only exception it raises. *)
Definition ValidateRequestedDevice (device : N) (self : DeviceDiscoveryImp)
    : DeviceDiscoveryImp * option DeviceDiscoveryError :=
  let fn := "DeviceDiscoveryImp::ValidateRequestedDevice" in
  if negb (HaveDevices self) then
    (self, Some (mkError
       "attempted to retrieve device details before performing device discovery"
       DeviceDiscoveryImp_cpp fn 253))
  else
    let (self, numDevices) := GetNumDevices self in
    if (numDevices <=? Z.of_N device)%Z then
      (self, Some (mkError ("requested device index is invalid: " +:+ pretty device)
                     DeviceDiscoveryImp_cpp fn 258))
    else (self, None).

(** An accessor of the form [VERIFY_DEVICE(sentinel); RETURN_SUCCESS(field)]:
    [get] reads the field of [this->devices[device]]. *)
Definition device_accessor {A : Type} (sentinel : A) (get : Device -> A) (device : N)
    (self : DeviceDiscoveryImp) : DeviceDiscoveryImp * A :=
  match ValidateRequestedDevice device self with
  | (self, Some err) => RETURN_ERROR sentinel (message err) self
  | (self, None) =>
      RETURN_SUCCESS (get (nth (N.to_nat device) (devices self) Device_default)) self
  end.

(** An accessor of the form [VERIFY_DEVICE(nullptr); VERIFY_FILE();
    RETURN_SUCCESS(field)]: [files] selects the runtime file list of the
    device and [get] reads the field of [files[file]]. *)
Definition file_accessor (files : Device -> list RuntimeFile)
    (get : RuntimeFile -> string) (device file : N) (self : DeviceDiscoveryImp)
    : DeviceDiscoveryImp * option string :=
  match ValidateRequestedDevice device self with
  | (self, Some err) => RETURN_ERROR None (message err) self
  | (self, None) =>
      let files := files (nth (N.to_nat device) (devices self) Device_default) in
      if (Z.of_nat (length files) <=? Z.of_N file)%Z then
        RETURN_ERROR None
          ("requested runtime file index is invalid: " +:+ pretty file) self
      else
        RETURN_SUCCESS
          (Some (get (nth (N.to_nat file) files (mkRuntimeFile "" "")))) self
  end.

(** The accessors; a [const wchar_t*] result is [None] when null, and an
    [int] made from a [bool] is 1 or 0. *)
Definition GetDeviceAdapterLUID :=
  device_accessor (-1) (fun d => InstanceLuid (DeviceAdapter d)).
Definition GetDeviceID := device_accessor None (fun d => Some (ID d)).
Definition GetDeviceDescription := device_accessor None (fun d => Some (Description d)).
Definition GetDeviceDriverRegistryKey :=
  device_accessor None (fun d => Some (DriverRegistryKey d)).
Definition GetDeviceDriverStorePath :=
  device_accessor None (fun d => Some (DriverStorePath d)).
Definition GetDeviceLocationPath := device_accessor None (fun d => Some (LocationPath d)).
Definition GetDeviceVendor := device_accessor None (fun d => Some (Vendor d)).
Definition GetNumRuntimeFiles :=
  device_accessor (-1) (fun d => Z.of_nat (length (RuntimeFiles d))).
Definition GetRuntimeFileSource := file_accessor RuntimeFiles SourcePath.
Definition GetRuntimeFileDestination := file_accessor RuntimeFiles DestinationFilename.
Definition GetNumRuntimeFilesWow64 :=
  device_accessor (-1) (fun d => Z.of_nat (length (RuntimeFilesWow64 d))).
Definition GetRuntimeFileSourceWow64 := file_accessor RuntimeFilesWow64 SourcePath.
Definition GetRuntimeFileDestinationWow64 :=
  file_accessor RuntimeFilesWow64 DestinationFilename.
Definition IsDeviceIntegrated :=
  device_accessor (-1) (fun d => Z.b2z (IsIntegrated (DeviceAdapter d))).
Definition IsDeviceDetachable :=
  device_accessor (-1) (fun d => Z.b2z (IsDetachable (DeviceAdapter d))).
Definition DoesDeviceSupportDisplay :=
  device_accessor (-1) (fun d => Z.b2z (SupportsDisplay (DeviceAdapter d))).
Definition DoesDeviceSupportCompute :=
  device_accessor (-1) (fun d => Z.b2z (SupportsCompute (DeviceAdapter d))).

(* ================================================================= *)
(** ** ErrorHandling.cpp *)

Definition CR : ascii := ascii_of_nat 13.
Definition LF : ascii := ascii_of_nat 10.

(** [std::wstring::find_last_of(chars)] on the part of a string that starts
    at position [pos]: the position of the last character that is one of
    [chars], if any. *)
Fixpoint find_last_of (chars : list ascii) (s : string) (pos : nat) : option nat :=
  match s with
  | "" => None
  | String c rest =>
      match find_last_of chars rest (S pos) with
      | Some i => Some i
      | None => if existsb (Ascii.eqb c) chars then Some pos else None
      end
  end.

(** [ErrorHandling::ErrorForNtStatus].  [FormatMessageW] is the text the
    platform writes into the buffer for the status code, empty when it
    returns the length 0.  The count [newline - 1] of [substr] is a
    [size_t]: for [newline = 0] it is the largest one, and the whole
    message is kept. *)
Definition ErrorForNtStatus (status : Z) (FormatMessageW : string)
    (fl fn : string) (ln : N) : DeviceDiscoveryError :=
  if (status <? 0)%Z then
    let length := String.length FormatMessageW in
    if (0 <? length)%nat then
      (* If the message has a trailing newline then remove it *)
      let message := FormatMessageW in
      let message :=
        match find_last_of [CR; LF] message 0 with
        | Some newline =>
            if (newline =? 0)%nat then message
            else String.substring 0 (newline - 1) message
        | None => message
        end in
      mkError message fl fn ln
    else
      mkError ("Unable to retrieve error message for NTSTATUS code 0x"
                 +:+ format_hex 8 (Z.to_N (status mod 2 ^ 32)))
        fl fn ln
  else mkError "" fl fn ln.

(* ================================================================= *)
(** ** DeviceDiscovery.cpp: the C interface *)

(** The functions of the C interface hand their arguments to the method
    of the same name of the instance. *)
Definition DeviceDiscovery_GetLastErrorMessage := GetLastErrorMessage.
Definition DeviceDiscovery_GetNumDevices := GetNumDevices.
Definition DeviceDiscovery_GetDeviceAdapterLUID := GetDeviceAdapterLUID.
Definition DeviceDiscovery_GetDeviceID := GetDeviceID.
Definition DeviceDiscovery_GetDeviceDescription := GetDeviceDescription.
Definition DeviceDiscovery_GetDeviceDriverRegistryKey := GetDeviceDriverRegistryKey.
Definition DeviceDiscovery_GetDeviceDriverStorePath := GetDeviceDriverStorePath.
Definition DeviceDiscovery_GetDeviceLocationPath := GetDeviceLocationPath.
Definition DeviceDiscovery_GetDeviceVendor := GetDeviceVendor.
Definition DeviceDiscovery_GetNumRuntimeFiles := GetNumRuntimeFiles.
Definition DeviceDiscovery_GetRuntimeFileSource := GetRuntimeFileSource.
Definition DeviceDiscovery_GetRuntimeFileDestination := GetRuntimeFileDestination.
Definition DeviceDiscovery_GetNumRuntimeFilesWow64 := GetNumRuntimeFilesWow64.
Definition DeviceDiscovery_GetRuntimeFileSourceWow64 := GetRuntimeFileSourceWow64.
Definition DeviceDiscovery_GetRuntimeFileDestinationWow64 := GetRuntimeFileDestinationWow64.
Definition DeviceDiscovery_IsDeviceIntegrated := IsDeviceIntegrated.
Definition DeviceDiscovery_IsDeviceDetachable := IsDeviceDetachable.
Definition DeviceDiscovery_DoesDeviceSupportDisplay := DoesDeviceSupportDisplay.
Definition DeviceDiscovery_DoesDeviceSupportCompute := DoesDeviceSupportCompute.

(* ================================================================= *)
(** ** DeviceDiscovery.h: the wrapper class for C++ clients *)

(** What a method of [class DeviceDiscovery] hands to its caller: a value,
    or a [DeviceDiscoveryException] with its message. *)
Inductive outcome (A : Type) : Type :=
| Value (a : A)
| DeviceDiscoveryException (what : string).
Arguments Value {A} a.
Arguments DeviceDiscoveryException {A} what.

(** The macro [THROW_IF_ERROR(sentinel)] after a call of the C interface
    that has returned [result]. *)
Definition THROW_IF_ERROR {A : Type} (is_sentinel : A -> bool)
    (call : DeviceDiscoveryImp * A) : DeviceDiscoveryImp * outcome A :=
  let (instance, result) := call in
  if is_sentinel result
  then (instance, DeviceDiscoveryException (DeviceDiscovery_GetLastErrorMessage instance))
  else (instance, Value result).

(** The sentinel tests [result == -1] and [result == nullptr]. *)
Definition is_minus_one (result : Z) : bool := (result =? -1)%Z.
Definition is_nullptr (result : option string) : bool :=
  match result with
  | None => true
  | Some _ => false
  end.

(** The result of a method once its value has been converted by [convert],
    as the [return] statement of the method does. *)
Definition returning {A B : Type} (convert : A -> B)
    (r : DeviceDiscoveryImp * outcome A) : DeviceDiscoveryImp * outcome B :=
  match r with
  | (instance, Value a) => (instance, Value (convert a))
  | (instance, DeviceDiscoveryException what) => (instance, DeviceDiscoveryException what)
  end.

(** [int] to [bool]. *)
Definition int_to_bool (result : Z) : bool := negb (result =? 0)%Z.

Module DeviceDiscovery.

(** [DeviceDiscovery::DiscoverDevices]: the filter goes through [int] and
    back unchanged; an exception that leaves the C interface leaves the
    method too. *)
Definition DiscoverDevices (fuel : nat) (p : Platform) (flt : DeviceFilter)
    (includeIntegrated includeDetachable : bool) (instance : DeviceDiscoveryImp)
    : DeviceDiscoveryImp * result (outcome bool) :=
  match DeviceDiscovery_DiscoverDevices fuel p flt includeIntegrated includeDetachable
          instance with
  | (instance, Return result) =>
      let (instance, returned) :=
        returning (fun result => (result =? 0)%Z)
          (THROW_IF_ERROR is_minus_one (instance, result)) in
      (instance, Return returned)
  | (instance, r) => (instance, rethrow r)
  end.

Definition GetNumDevices (instance : DeviceDiscoveryImp) :=
  THROW_IF_ERROR is_minus_one (DeviceDiscovery_GetNumDevices instance).

Definition GetDeviceAdapterLUID (device : N) (instance : DeviceDiscoveryImp) :=
  THROW_IF_ERROR is_minus_one (DeviceDiscovery_GetDeviceAdapterLUID device instance).

Definition GetDeviceID (device : N) (instance : DeviceDiscoveryImp) :=
  THROW_IF_ERROR is_nullptr (DeviceDiscovery_GetDeviceID device instance).

Definition GetDeviceDescription (device : N) (instance : DeviceDiscoveryImp) :=
  THROW_IF_ERROR is_nullptr (DeviceDiscovery_GetDeviceDescription device instance).

Definition GetDeviceDriverRegistryKey (device : N) (instance : DeviceDiscoveryImp) :=
  THROW_IF_ERROR is_nullptr (DeviceDiscovery_GetDeviceDriverRegistryKey device instance).

Definition GetDeviceDriverStorePath (device : N) (instance : DeviceDiscoveryImp) :=
  THROW_IF_ERROR is_nullptr (DeviceDiscovery_GetDeviceDriverStorePath device instance).

Definition GetDeviceLocationPath (device : N) (instance : DeviceDiscoveryImp) :=
  THROW_IF_ERROR is_nullptr (DeviceDiscovery_GetDeviceLocationPath device instance).

Definition GetDeviceVendor (device : N) (instance : DeviceDiscoveryImp) :=
  THROW_IF_ERROR is_nullptr (DeviceDiscovery_GetDeviceVendor device instance).

Definition GetNumRuntimeFiles (device : N) (instance : DeviceDiscoveryImp) :=
  THROW_IF_ERROR is_minus_one (DeviceDiscovery_GetNumRuntimeFiles device instance).

Definition GetRuntimeFileSource (device file : N) (instance : DeviceDiscoveryImp) :=
  THROW_IF_ERROR is_nullptr (DeviceDiscovery_GetRuntimeFileSource device file instance).

Definition GetRuntimeFileDestination (device file : N) (instance : DeviceDiscoveryImp) :=
  THROW_IF_ERROR is_nullptr (DeviceDiscovery_GetRuntimeFileDestination device file instance).

Definition GetNumRuntimeFilesWow64 (device : N) (instance : DeviceDiscoveryImp) :=
  THROW_IF_ERROR is_minus_one (DeviceDiscovery_GetNumRuntimeFilesWow64 device instance).

Definition GetRuntimeFileSourceWow64 (device file : N) (instance : DeviceDiscoveryImp) :=
  THROW_IF_ERROR is_nullptr (DeviceDiscovery_GetRuntimeFileSourceWow64 device file instance).

Definition GetRuntimeFileDestinationWow64 (device file : N)
    (instance : DeviceDiscoveryImp) :=
  THROW_IF_ERROR is_nullptr
    (DeviceDiscovery_GetRuntimeFileDestinationWow64 device file instance).

Definition IsDeviceIntegrated (device : N) (instance : DeviceDiscoveryImp) :=
  returning int_to_bool
    (THROW_IF_ERROR is_minus_one (DeviceDiscovery_IsDeviceIntegrated device instance)).

Definition IsDeviceDetachable (device : N) (instance : DeviceDiscoveryImp) :=
  returning int_to_bool
    (THROW_IF_ERROR is_minus_one (DeviceDiscovery_IsDeviceDetachable device instance)).

Definition DoesDeviceSupportDisplay (device : N) (instance : DeviceDiscoveryImp) :=
  returning int_to_bool
    (THROW_IF_ERROR is_minus_one (DeviceDiscovery_DoesDeviceSupportDisplay device instance)).

Definition DoesDeviceSupportCompute (device : N) (instance : DeviceDiscoveryImp) :=
  returning int_to_bool
    (THROW_IF_ERROR is_minus_one (DeviceDiscovery_DoesDeviceSupportCompute device instance)).

End DeviceDiscovery.

(* ================================================================= *)
(** ** Notions used to state the properties *)

(** One step of the loop body of [EnumerateAdapters] on the set of unique
    adapters. *)
Definition keep (flt : DeviceFilter) (includeIntegrated includeDetachable : bool)
    (unique : gmap Z Adapter) (details : Adapter) : gmap Z Adapter :=
  if survives flt includeIntegrated includeDetachable details
  then map_insert (InstanceLuid details) details unique
  else unique.

(** The adapter details extracted from the answers of one adapter list, in
    the order of the list. *)
Fixpoint details_of (adapters : list (reply DXCoreAdapter)) : list Adapter :=
  match adapters with
  | [] => []
  | Succeeded adapter :: rest =>
      match ExtractAdapterDetails adapter with
      | Return details => details :: details_of rest
      | _ => details_of rest
      end
  | Failed _ :: rest => details_of rest
  end.

(** The details of all adapters of the lists held by the enumeration
    object, in the order in which [EnumerateAdapters] goes through them. *)
Definition candidates (lists : list (option DXCoreAdapterList)) : list Adapter :=
  concat (map (fun l => match l with
                        | Some l => details_of (GetAdapter l)
                        | None => []
                        end) lists).

(** The candidates that pass the four filtering conditions. *)
Definition survivors (flt : DeviceFilter) (includeIntegrated includeDetachable : bool)
    (lists : list (option DXCoreAdapterList)) : list Adapter :=
  List.filter (survives flt includeIntegrated includeDetachable) (candidates lists).

(** The values enumerated under the sub-key [key] of the driver registry
    key of the device, in the order in which [ProcessRuntimeFiles] goes
    through them; none when opening or enumerating the sub-key fails. *)
Definition subkey_values (p : Platform) (device : Device) (key : string)
    : list (string * list string) :=
  match (registryKey <- OpenKeyFromString p
           (DriverRegistryKey device +:+ String backslash_char "" +:+ key) ;;
         EnumerateMultiStringValues registryKey) with
  | Return values => values
  | _ => []
  end.

(** The driver store path [FillDriverDetails] makes of the string the
    driver store query returns: the string itself when the lookup of the
    environment variable throws. *)
Definition expand_SystemRoot (p : Platform) (OutputString : string) : string :=
  match SystemRoot p with
  | Succeeded systemRoot =>
      if starts_with (String backslash_char "SystemRoot") OutputString
      then replace_prefix (String.length (String backslash_char "SystemRoot"))
             systemRoot OutputString
      else OutputString
  | Failed _ => OutputString
  end.

(** The destination file names of a runtime file list. *)
Definition destinations (files : list RuntimeFile) : list string :=
  map DestinationFilename files.

(** A computation that returns or throws a [DeviceDiscoveryError]. *)
Definition returns_or_throws_error {A : Type} (r : result A) : Prop :=
  match r with
  | Return _ | Throw (ExDeviceDiscoveryError _) => True
  | _ => False
  end.


(** Opening and enumerating the sub-key [key] of the driver registry key
    of the device, as the [try] block of [ProcessRuntimeFiles] does. *)
Definition enumerate_subkey (p : Platform) (device : Device) (key : string)
    : result (list (string * list string)) :=
  registryKey <- OpenKeyFromString p
    (DriverRegistryKey device +:+ String backslash_char "" +:+ key) ;;
  EnumerateMultiStringValues registryKey.

(** The exceptions raised from inside the library: every exception of
    the embedding but [std::runtime_error], which no code of the library
    raises. *)
Definition library_exception (e : exn) : Prop :=
  match e with
  | ExRuntimeError _ => False
  | _ => True
  end.

(** A computation that throws nothing but library exceptions. *)
Definition throws_library {A : Type} (r : result A) : Prop :=
  match r with
  | Throw e => library_exception e
  | _ => True
  end.

(** The helper objects cannot both be created on the platform. *)
Definition helpers_fail (p : Platform) : Prop :=
  forall e w, ~ (AdapterEnumeration_new p = Return e /\ WmiQuery_new p = Return w).

(** One call of [DiscoverDevices] and its arguments. *)
Record call : Type := mkCall {
  call_fuel : nat;
  call_platform : Platform;
  call_filter : DeviceFilter;
  call_includeIntegrated : bool;
  call_includeDetachable : bool
}.

(** The session after a sequence of [DiscoverDevices] calls. *)
Definition run_calls (calls : list call) (self : DeviceDiscoveryImp) : DeviceDiscoveryImp :=
  fold_left (fun self c =>
      (DiscoverDevices (call_fuel c) (call_platform c) (call_filter c)
         (call_includeIntegrated c) (call_includeDetachable c) self).1)
    calls self.

(** The first two stages of [DiscoverDevices], up to the evaluation of the
    right-hand side of the assignment to [this->devices]: creation of the
    helper objects when one is missing, adapter enumeration, and
    correlation with the PnP devices. *)
Definition correlation_stage (p : Platform) (flt : DeviceFilter)
    (includeIntegrated includeDetachable : bool) (self : DeviceDiscoveryImp)
    : result (list Device) :=
  let (self, created) := create_helpers p self in
  created ;;;
  match enumeration self, wmi self with
  | Some e, Some w =>
      let (e', enumerated) := EnumerateAdapters p flt includeIntegrated includeDetachable e in
      enumerated ;;; GetDevicesForAdapters p w (GetUniqueAdapters e')
  | _, _ => NullDeref
  end.

(** No call of the sequence, made one after the other from the session
    [self] on, has completed its first two stages: each has failed, or
    been left by an exception, before the assignment to
    [this->devices]. *)
Fixpoint no_call_correlated (calls : list call) (self : DeviceDiscoveryImp) : Prop :=
  match calls with
  | [] => True
  | c :: rest =>
      (forall found,
          correlation_stage (call_platform c) (call_filter c)
            (call_includeIntegrated c) (call_includeDetachable c) self
          <> Return found) /\
      no_call_correlated rest
        (DiscoverDevices (call_fuel c) (call_platform c) (call_filter c)
           (call_includeIntegrated c) (call_includeDetachable c) self).1
  end.


(** The destination names of each runtime file list of the device are
    pairwise distinct. *)
Definition distinct_destinations (d : Device) : Prop :=
  NoDup (destinations (RuntimeFiles d)) /\ NoDup (destinations (RuntimeFilesWow64 d)).

(** The attributes for which [EnumerateAdapters] asks for an adapter list,
    in the order in which it asks, by filter. *)
Definition requested_attributes (flt : DeviceFilter) : list Attribute :=
  match flt with
  | AllDevices | DisplaySupported | ComputeSupported =>
      [ DXCORE_ADAPTER_ATTRIBUTE_D3D11_GRAPHICS;
        DXCORE_ADAPTER_ATTRIBUTE_D3D12_GRAPHICS;
        DXCORE_ADAPTER_ATTRIBUTE_D3D12_CORE_COMPUTE ]
  | DisplayOnly =>
      [ DXCORE_ADAPTER_ATTRIBUTE_D3D11_GRAPHICS;
        DXCORE_ADAPTER_ATTRIBUTE_D3D12_GRAPHICS ]
  | ComputeOnly =>
      [ DXCORE_ADAPTER_ATTRIBUTE_D3D12_CORE_COMPUTE ]
  | DisplayAndCompute =>
      [ DXCORE_ADAPTER_ATTRIBUTE_D3D12_GRAPHICS;
        DXCORE_ADAPTER_ATTRIBUTE_D3D12_CORE_COMPUTE ]
  end.

(** The [REG_MULTI_SZ] layout of a sequence of strings: each string is
    followed by a null character. *)
Fixpoint multi_sz (strings : list string) : string :=
  match strings with
  | [] => ""
  | s :: rest => s +:+ String NUL (multi_sz rest)
  end.

(** The string holds no null character. *)
Fixpoint no_NUL (s : string) : bool :=
  match s with
  | "" => true
  | String c rest => negb (Ascii.eqb c NUL) && no_NUL rest
  end.

(** The strings of a sequence laid out from position [offset] on that
    start before position [upperBound]. *)
Fixpoint strings_before (upperBound offset : nat) (strings : list string) : list string :=
  match strings with
  | [] => []
  | s :: rest =>
      if (offset <? upperBound)%nat
      then s :: strings_before upperBound (offset + String.length s + 1) rest
      else []
  end.

(** The string holds no backslash. *)
Fixpoint no_backslash (s : string) : bool :=
  match s with
  | "" => true
  | String c rest => negb (Ascii.eqb c backslash_char) && no_backslash rest
  end.

(** The names are in strictly ascending order, as the keys of a
    [std::map<std::wstring, V>] are when it is iterated. *)
Fixpoint names_ascending (names : list string) : Prop :=
  match names with
  | [] => True
  | x :: rest => Forall (fun y => String.compare x y = Lt) rest /\ names_ascending rest
  end.

(** The entry [EnumerateMultiStringValues] makes of a registry value. *)
Definition value_entry (value : RegValue) : string * list string :=
  (valueName value,
   ExtractMultiStringValue (valueData value) (2 * String.length (valueData value))).

(** An answer of [RegEnumValueW] that [EnumerateMultiStringValues]
    accepts: a value of type [REG_MULTI_SZ]. *)
Definition multi_string_value (r : reply RegValue) : Prop :=
  match r with
  | Succeeded value => valueType value = REG_MULTI_SZ
  | Failed _ => False
  end.

(** The character is a carriage return or a line feed. *)
Definition is_newline (c : ascii) : bool := existsb (Ascii.eqb c) [CR; LF].

(** The string holds neither a carriage return nor a line feed. *)
Fixpoint no_newline (s : string) : bool :=
  match s with
  | "" => true
  | String c rest => negb (is_newline c) && no_newline rest
  end.

(** The string starts with a decimal digit. *)
Definition starts_with_digit (s : string) : bool :=
  match s with
  | "" => false
  | String c _ => isdigit c
  end.

(** The device [GetDevicesForAdapters] makes of one answer of the
    enumerator of its query, when the answer is a PnP entity whose details
    can be extracted and whose LUID is a key of the adapters; none
    otherwise. *)
Definition correlate (self : WmiQuery) (adapters : gmap Z Adapter)
    (next : reply PnPEntity) : option Device :=
  match next with
  | Succeeded device =>
      match ExtractDeviceDetails self device with
      | Return details =>
          match adapters !! InstanceLuid (DeviceAdapter details) with
          | Some matchingAdapter => Some (set_DeviceAdapter matchingAdapter details)
          | None => None
          end
      | _ => None
      end
  | Failed _ => None
  end.

(** An answer of the enumerator that [GetDevicesForAdapters] gets past: a
    PnP entity whose details can be extracted. *)
Definition extractable (self : WmiQuery) (next : reply PnPEntity) : Prop :=
  match next with
  | Succeeded device => exists details, ExtractDeviceDetails self device = Return details
  | Failed _ => False
  end.

(** The hardware identifiers [GetDevicesForAdapters] gathers for its
    query. *)
Definition query_hardware_ids (adapters : gmap Z Adapter) : list string :=
  foldr (fun adapter ids => set_insert (FormatHardwareID (HardwareID adapter.2)) ids)
    [] (map_to_list adapters).

(** The prefix [ExtractDeviceDetails] puts in front of the value of the
    driver property. *)
Definition class_key_prefix : string :=
  "HKEY_LOCAL_MACHINE\SYSTEM\CurrentControlSet\Control\Class\".

(** What the loop of [ExtractDeviceDetails] over the device properties
    keeps of the device details [d0] in [d]. *)
Definition properties_frame (d0 d : Device) : Prop :=
  ID d = ID d0 /\ Description d = Description d0 /\ Vendor d = Vendor d0 /\
  DriverStorePath d = DriverStorePath d0 /\
  HardwareID (DeviceAdapter d) = HardwareID (DeviceAdapter d0) /\
  IsHardware (DeviceAdapter d) = IsHardware (DeviceAdapter d0) /\
  IsIntegrated (DeviceAdapter d) = IsIntegrated (DeviceAdapter d0) /\
  IsDetachable (DeviceAdapter d) = IsDetachable (DeviceAdapter d0) /\
  SupportsDisplay (DeviceAdapter d) = SupportsDisplay (DeviceAdapter d0) /\
  SupportsCompute (DeviceAdapter d) = SupportsCompute (DeviceAdapter d0) /\
  (DriverRegistryKey d = DriverRegistryKey d0 \/
   exists driver, DriverRegistryKey d = class_key_prefix +:+ driver).

(** The property of a PnP device does not give an adapter LUID: it has
    another key name, or no data. *)
Definition not_luid_property (self : WmiQuery) (element : PnPDeviceProperty) : Prop :=
  Get_KeyName element <> Succeeded (devPropKeyLUID self) \/ Get_Data element = None.

(** The size of the trailing buffer with which [PerformQuery] makes its
    query number [n] (from 0), when it starts with the size
    [trailingBuffer] and each query before has been answered with a buffer
    overflow; none when an earlier query has ended the loop. *)
Fixpoint buffer_of_round (p : Platform) (adapter : N) (n : nat) (trailingBuffer : N)
    : option N :=
  match n with
  | O => Some trailingBuffer
  | S n' =>
      match D3DKMTQueryAdapterInfo p adapter trailingBuffer with
      | Succeeded info =>
          match Status info with
          | D3DDDI_QUERYREGISTRY_STATUS_BUFFER_OVERFLOW =>
              buffer_of_round p adapter n' (OutputValueSize info)
          | _ => None
          end
      | Failed _ => None
      end
  end.

(** DXCore has reported an adapter with these details on the platform:
    they are the details [ExtractAdapterDetails] makes of an adapter of a
    list that the platform creates for one of the attributes. *)
Definition reported_by (p : Platform) (details : Adapter) : Prop :=
  exists attribute l adapter,
    CreateAdapterList p attribute = Succeeded l /\
    Succeeded adapter ∈ GetAdapter l /\
    ExtractAdapterDetails adapter = Return details.

(* ================================================================= *)
(** ** Example platforms *)

(** The final segment of a path whose segments are separated by
    backslashes: the file name of a path without a root name. *)
Fixpoint ex_filename_go (s acc : string) : string :=
  match s with
  | "" => acc
  | String c rest =>
      if Ascii.eqb c backslash_char then ex_filename_go rest ""
      else ex_filename_go rest (acc +:+ String c "")
  end.

Definition ex_filename (s : string) : string := ex_filename_go s "".

(** A hardware adapter that answers every property query. *)
Definition ex_adapter (luid : Z) (vendor : N) (integrated d3d11 d3d12 : bool)
    : DXCoreAdapter :=
  mkDXCoreAdapter (Succeeded luid) (Succeeded (mkHardwareID vendor 1 2 3))
    (Succeeded true) (Succeeded integrated) (Succeeded false)
    (fun attribute =>
       match attribute with
       | DXCORE_ADAPTER_ATTRIBUTE_D3D11_GRAPHICS => d3d11
       | DXCORE_ADAPTER_ATTRIBUTE_D3D12_GRAPHICS => d3d12
       | DXCORE_ADAPTER_ATTRIBUTE_D3D12_CORE_COMPUTE => true
       end).

(** The details [ExtractAdapterDetails] makes of [ex_adapter]. *)
Definition ex_details (luid : Z) (vendor : N) (integrated d3d11 d3d12 : bool) : Adapter :=
  mkAdapter luid (mkHardwareID vendor 1 2 3) true integrated false (d3d11 || d3d12) d3d12.

(** A PnP entity with a driver key and an adapter LUID property. *)
Definition ex_entity (id : string) (luid : PropertyData) : PnPEntity :=
  mkPnPEntity (Succeeded id) (Succeeded "Example GPU") (Succeeded "Example Corp")
    (Succeeded "path") (Succeeded tt) (Succeeded tt) (Succeeded tt) (Succeeded tt)
    (Succeeded tt)
    (Succeeded (VT_ARRAY_UNKNOWN (Succeeded tt)
       [ mkPnPDeviceProperty (Succeeded tt) (Succeeded "DEVPKEY_Device_Driver")
           (Some (VT_BSTR "{4d36e968}\0001"));
         mkPnPDeviceProperty (Succeeded tt) (Succeeded DevPropKeyToString_AdapterLuid)
           (Some luid) ])).

(** The driver store query: the first call, made with an empty trailing
    buffer, reports an overflow and the size needed. *)
Definition ex_query (adapter trailingBuffer : N) : reply D3DDDI_QUERYREGISTRY_INFO :=
  if (trailingBuffer <? 80)%N
  then Succeeded (mkQueryRegistryInfo D3DDDI_QUERYREGISTRY_STATUS_BUFFER_OVERFLOW 80 "")
  else Succeeded (mkQueryRegistryInfo D3DDDI_QUERYREGISTRY_STATUS_SUCCESS 80
         (String backslash_char "SystemRoot\System32\DriverStore\FileRepository\ex.inf")).

(** A machine on which every call succeeds, given its adapter lists, the
    entities the WQL query returns, the answer to opening an adapter and
    the registry. *)
Definition ex_platform (lists : Attribute -> reply DXCoreAdapterList)
    (entities : reply (list (reply PnPEntity))) (open : Z -> reply N)
    (registry : string -> string -> reply HKEY) : Platform :=
  mkPlatform ex_filename (Succeeded tt) lists
    (Succeeded tt) (Succeeded tt) (Succeeded tt) (Succeeded tt) (Succeeded tt)
    (fun _ => entities) open ex_query (Succeeded "C:\Windows") registry.

Definition ex_no_registry (root path : string) : reply HKEY := Failed "not found".

(** Two adapter objects with the LUID 5 and different hardware identifiers,
    one in the Direct3D 11 list and one in the Direct3D 12 list. *)
Definition ex_duplicate_lists (attribute : Attribute) : reply DXCoreAdapterList :=
  match attribute with
  | DXCORE_ADAPTER_ATTRIBUTE_D3D11_GRAPHICS =>
      Succeeded (mkDXCoreAdapterList 1 [Succeeded (ex_adapter 5 1 false true true)])
  | DXCORE_ADAPTER_ATTRIBUTE_D3D12_GRAPHICS =>
      Succeeded (mkDXCoreAdapterList 2 [Succeeded (ex_adapter 5 2 false true true)])
  | DXCORE_ADAPTER_ATTRIBUTE_D3D12_CORE_COMPUTE =>
      Succeeded (mkDXCoreAdapterList 3 [])
  end.

Definition ex_duplicate_platform : Platform :=
  ex_platform ex_duplicate_lists (Succeeded []) (fun _ => Succeeded 1%N) ex_no_registry.

(** The scenario of three adapters: A (display and compute, integrated),
    B (display and compute, discrete) and C (display only, discrete). *)
Definition ex_scenario_lists (attribute : Attribute) : reply DXCoreAdapterList :=
  Succeeded (mkDXCoreAdapterList 1
    [ Succeeded (ex_adapter 10 1 true true true);
      Succeeded (ex_adapter 11 1 false true true);
      Succeeded (ex_adapter 12 1 false true false) ]).

Definition ex_scenario_platform : Platform :=
  ex_platform ex_scenario_lists (Succeeded []) (fun _ => Succeeded 1%N) ex_no_registry.

(** A correlated device that has not been through driver metadata
    resolution. *)
Definition ex_device : Device :=
  mkDevice (ex_details 5 1 false true true) "PCI\VEN_0001&DEV_0001" "Example GPU"
    "HKEY_LOCAL_MACHINE\SYSTEM\CurrentControlSet\Control\Class\{4d36e968}\0001"
    "" "" [] [] "Example Corp".

Definition ex_multi_sz (name data : string) : reply RegValue :=
  Succeeded (mkRegValue name REG_MULTI_SZ data).

(** A registry in which [CopyToVmOverwrite] lists three files, two of them
    with the destination name [x.dll], [CopyToVmWhenNewer] cannot be
    opened, [CopyToVmOverwriteWow64] lists one file, and
    [CopyToVmWhenNewerWow64] holds a value that is not a multi-string. *)
Definition ex_registry (root path : string) : reply HKEY :=
  let class := "SYSTEM\CurrentControlSet\Control\Class\{4d36e968}\0001\" in
  if String.eqb path (class +:+ "CopyToVmOverwrite") then
    Succeeded
      [ ex_multi_sz "a" "nv\x.dll";
        ex_multi_sz "b" "other\x.dll";
        ex_multi_sz "c" ("nv\y.dll" +:+ String NUL "z.dll") ]
  else if String.eqb path (class +:+ "CopyToVmWhenNewer") then
    Failed "Access is denied."
  else if String.eqb path (class +:+ "CopyToVmOverwriteWow64") then
    Succeeded [ ex_multi_sz "a" "nv32\x.dll" ]
  else if String.eqb path (class +:+ "CopyToVmWhenNewerWow64") then
    Succeeded [ Succeeded (mkRegValue "a" 1 "text") ]
  else Failed "The system cannot find the file specified.".

Definition ex_registry_platform : Platform :=
  ex_platform ex_scenario_lists (Succeeded []) (fun _ => Succeeded 1%N) ex_registry.

(** Two PnP entities that report the LUID 5, one as a 64-bit integer and
    one as a string, and a third that reports a LUID no adapter has. *)
Definition ex_two_entities : reply (list (reply PnPEntity)) :=
  Succeeded
    [ Succeeded (ex_entity "PCI\VEN_0001&DEV_0001\A" (VT_I8 5));
      Succeeded (ex_entity "PCI\VEN_0001&DEV_0001\B" (VT_BSTR "5"));
      Succeeded (ex_entity "PCI\VEN_0001&DEV_0001\C" (VT_I8 9)) ].

Definition ex_two_entities_platform : Platform :=
  ex_platform ex_duplicate_lists ex_two_entities (fun _ => Succeeded 1%N) ex_no_registry.

(** The adapter set the enumeration makes on that machine. *)
Definition ex_adapters : gmap Z Adapter := {[ 5 := ex_details 5 1 false true true ]}.

(** The device correlation makes of [ex_entity id] for the adapter 5. *)
Definition ex_correlated (id : string) : Device :=
  mkDevice (ex_details 5 1 false true true) id "Example GPU"
    "HKEY_LOCAL_MACHINE\SYSTEM\CurrentControlSet\Control\Class\{4d36e968}\0001"
    "" "" [] [] "Example Corp".

Definition ex_one_entity : reply (list (reply PnPEntity)) :=
  Succeeded [ Succeeded (ex_entity "PCI\VEN_0001&DEV_0001\A" (VT_I8 5)) ].

(** A machine on which discovery succeeds and finds one device. *)
Definition ex_good_platform : Platform :=
  ex_platform ex_duplicate_lists ex_one_entity (fun _ => Succeeded 1%N) ex_registry.

(** A machine on which the adapter of the one correlated device cannot be
    opened. *)
Definition ex_open_fails_platform : Platform :=
  ex_platform ex_duplicate_lists ex_one_entity
    (fun _ => Failed "The parameter is incorrect.") ex_registry.

(** A machine on which the WQL query fails. *)
Definition ex_query_fails_platform : Platform :=
  ex_platform ex_duplicate_lists (Failed "The RPC server is unavailable.")
    (fun _ => Succeeded 1%N) ex_registry.

(** A machine on which the first adapter list cannot be created. *)
Definition ex_list_fails_platform : Platform :=
  ex_platform (fun _ => Failed "Unspecified error") ex_one_entity
    (fun _ => Succeeded 1%N) ex_registry.

(** A machine on which the DXCore adapter factory cannot be created. *)
Definition ex_no_dxcore_platform : Platform :=
  mkPlatform ex_filename (Failed "Class not registered") ex_duplicate_lists
    (Succeeded tt) (Succeeded tt) (Succeeded tt) (Succeeded tt) (Succeeded tt)
    (fun _ => ex_one_entity) (fun _ => Succeeded 1%N) ex_query (Succeeded "C:\Windows")
    ex_registry.

(** A machine on which the adapter LUID of a PnP device is delivered as a
    string that is not a number. *)
Definition ex_bad_luid_platform : Platform :=
  ex_platform ex_duplicate_lists
    (Succeeded [ Succeeded (ex_entity "PCI\VEN_0001&DEV_0001\A" (VT_BSTR "unknown")) ])
    (fun _ => Succeeded 1%N) ex_registry.

(** A machine on which the adapter LUID of a PnP device is delivered as a
    string of digits too large for 64 bits. *)
Definition ex_huge_luid_platform : Platform :=
  ex_platform ex_duplicate_lists
    (Succeeded [ Succeeded (ex_entity "PCI\VEN_0001&DEV_0001\A"
                              (VT_BSTR "99999999999999999999")) ])
    (fun _ => Succeeded 1%N) ex_registry.

Definition ex_call (p : Platform) : call := mkCall 2 p AllDevices true true.

(** A machine whose driver store query reports a buffer overflow whatever
    the size of the buffer, asking each time for one character more. *)
Definition ex_overflow_platform : Platform :=
  mkPlatform ex_filename (Succeeded tt) ex_scenario_lists
    (Succeeded tt) (Succeeded tt) (Succeeded tt) (Succeeded tt) (Succeeded tt)
    (fun _ => Succeeded []) (fun _ => Succeeded 1%N)
    (fun _ trailingBuffer =>
       Succeeded (mkQueryRegistryInfo D3DDDI_QUERYREGISTRY_STATUS_BUFFER_OVERFLOW
                    (trailingBuffer + 1) ""))
    (Succeeded "C:\Windows") ex_no_registry.

(** A machine without adapters, on which the WQL query fails. *)
Definition ex_no_adapters_platform : Platform :=
  ex_platform (fun _ => Succeeded (mkDXCoreAdapterList 1 []))
    (Failed "The RPC server is unavailable.") (fun _ => Succeeded 1%N) ex_no_registry.

(** A session that holds its helper objects and one device. *)
Definition ex_session : DeviceDiscoveryImp :=
  mkDeviceDiscoveryImp [ex_device] ""
    (Some (mkAdapterEnumeration [] ∅)) (Some (mkWmiQuery DevPropKeyToString_AdapterLuid)).

(** A PnP entity that has a driver key and reports no adapter LUID. *)
Definition ex_entity_without_luid : PnPEntity :=
  mkPnPEntity (Succeeded "ROOT\BASICDISPLAY\0000") (Succeeded "Example display")
    (Succeeded "Example Corp") (Succeeded "path") (Succeeded tt) (Succeeded tt)
    (Succeeded tt) (Succeeded tt) (Succeeded tt)
    (Succeeded (VT_ARRAY_UNKNOWN (Succeeded tt)
       [ mkPnPDeviceProperty (Succeeded tt) (Succeeded "DEVPKEY_Device_Driver")
           (Some (VT_BSTR "{4d36e968}\0002")) ])).

(** A machine on which discovery finds one device and the environment
    variable [SystemRoot] is not set. *)
Definition ex_no_systemroot_platform : Platform :=
  mkPlatform ex_filename (Succeeded tt) ex_duplicate_lists
    (Succeeded tt) (Succeeded tt) (Succeeded tt) (Succeeded tt) (Succeeded tt)
    (fun _ => ex_one_entity) (fun _ => Succeeded 1%N) ex_query
    (Failed "The system could not find the environment option that was entered.")
    ex_registry.

(** A machine whose driver store query answers with the status
    [D3DDDI_QUERYREGISTRY_STATUS_FAIL]. *)
Definition ex_fail_status_platform : Platform :=
  mkPlatform ex_filename (Succeeded tt) ex_duplicate_lists
    (Succeeded tt) (Succeeded tt) (Succeeded tt) (Succeeded tt) (Succeeded tt)
    (fun _ => ex_one_entity) (fun _ => Succeeded 1%N)
    (fun _ _ => Succeeded (mkQueryRegistryInfo D3DDDI_QUERYREGISTRY_STATUS_FAIL 0 ""))
    (Succeeded "C:\Windows") ex_registry.

(* ================================================================= *)
(** * Properties *)

(** ** Adapter enumeration *)

Section Enumeration.

Context (flt : DeviceFilter) (includeIntegrated includeDetachable : bool).

Lemma map_insert_lookup {V : Type} (k k' : Z) (v : V) (m : gmap Z V) :
  map_insert k v m !! k' =
  match m !! k' with
  | Some x => Some x
  | None => if decide (k = k') then Some v else None
  end.
Proof.
  unfold map_insert. destruct (m !! k) as [x|] eqn:Hk.
  - destruct (m !! k') eqn:Hk'; [done|].
    destruct (decide (k = k')) as [->|]; [congruence | done].
  - rewrite lookup_insert. destruct (decide (k = k')) as [->|].
    + by rewrite Hk.
    + by destruct (m !! k').
Qed.

(** Entries are never replaced or removed by the loop body. *)
Lemma keep_lookup_Some unique details k a :
  unique !! k = Some a -> keep flt includeIntegrated includeDetachable unique details !! k = Some a.
Proof.
  intros H. unfold keep. destruct (survives _ _ _ _); [|done].
  by rewrite map_insert_lookup, H.
Qed.

Lemma fold_keep_lookup_Some ds unique k a :
  unique !! k = Some a -> fold_left (keep flt includeIntegrated includeDetachable) ds unique !! k = Some a.
Proof.
  revert unique. induction ds as [|d ds IH]; intros unique H; simpl; [done|].
  apply IH. by apply keep_lookup_Some.
Qed.

(** The set built from a sequence of details holds, for each identifier,
    the first surviving details that carry it. *)
Lemma fold_keep_lookup ds unique k :
  fold_left (keep flt includeIntegrated includeDetachable) ds unique !! k =
  match unique !! k with
  | Some a => Some a
  | None =>
      head (List.filter (fun d => bool_decide (InstanceLuid d = k))
              (List.filter (survives flt includeIntegrated includeDetachable) ds))
  end.
Proof.
  revert unique. induction ds as [|d ds IH]; intros unique; simpl.
  - by destruct (unique !! k).
  - rewrite IH. unfold keep.
    destruct (survives flt includeIntegrated includeDetachable d) eqn:Hs; simpl.
    + rewrite map_insert_lookup.
      destruct (unique !! k) eqn:Hk; [done|].
      destruct (decide (InstanceLuid d = k)) as [Heq|Hne].
      * by rewrite bool_decide_eq_true_2.
      * by rewrite bool_decide_eq_false_2.
    + done.
Qed.

(** A pass over one adapter list that completes has applied the loop body
    to the details of its adapters, in order. *)
Lemma process_adapter_list_Return adapters index unique unique' :
  process_adapter_list flt includeIntegrated includeDetachable adapters index unique
    = (unique', Return tt) ->
  unique' = fold_left (keep flt includeIntegrated includeDetachable) (details_of adapters) unique.
Proof.
  revert index unique.
  induction adapters as [|r rest IH]; intros index unique H; simpl in *.
  - by inversion H.
  - destruct r as [adapter|msg]; simpl in H; [|by inversion H].
    destruct (ExtractAdapterDetails adapter) as [details| | |] eqn:He;
      simpl in H; try by inversion H.
    apply IH in H. by rewrite H.
Qed.

(** A pass over one adapter list, however it ends, only adds entries the
    loop body accepts. *)
Lemma process_adapter_list_inv (P : Z -> Adapter -> Prop) adapters index unique :
  (forall adapter details,
      ExtractAdapterDetails adapter = Return details ->
      survives flt includeIntegrated includeDetachable details = true ->
      P (InstanceLuid details) details) ->
  map_Forall P unique ->
  map_Forall P
    (process_adapter_list flt includeIntegrated includeDetachable adapters index unique).1.
Proof.
  intros HP. revert index unique.
  induction adapters as [|r rest IH]; intros index unique Hu; simpl; [done|].
  destruct r as [adapter|msg]; simpl; [|done].
  destruct (ExtractAdapterDetails adapter) as [details| | |] eqn:He; simpl; try done.
  apply IH.
  destruct (survives flt includeIntegrated includeDetachable details) eqn:Hs; [|done].
  intros k a. rewrite map_insert_lookup.
  destruct (unique !! k) eqn:Hk.
  - intros [= <-]. by apply Hu.
  - destruct (decide (InstanceLuid details = k)) as [<-|]; [|done].
    intros [= <-]. by eapply HP.
Qed.

Lemma process_adapter_lists_Return lists unique unique' :
  process_adapter_lists flt includeIntegrated includeDetachable lists unique
    = (unique', Return tt) ->
  unique' = fold_left (keep flt includeIntegrated includeDetachable) (candidates lists) unique.
Proof.
  revert unique. induction lists as [|l lists IH]; intros unique H; simpl in *.
  - by inversion H.
  - destruct l as [l|]; [|by inversion H].
    destruct (process_adapter_list _ _ _ (GetAdapter l) 0%N unique) as [u1 r1] eqn:H1.
    destruct r1 as [[]| | |]; try by inversion H.
    apply process_adapter_list_Return in H1. subst u1.
    apply IH in H. unfold candidates in *. simpl.
    by rewrite fold_left_app.
Qed.

Lemma process_adapter_lists_inv (P : Z -> Adapter -> Prop) lists unique :
  (forall adapter details,
      ExtractAdapterDetails adapter = Return details ->
      survives flt includeIntegrated includeDetachable details = true ->
      P (InstanceLuid details) details) ->
  map_Forall P unique ->
  map_Forall P
    (process_adapter_lists flt includeIntegrated includeDetachable lists unique).1.
Proof.
  intros HP. revert unique.
  induction lists as [|l lists IH]; intros unique Hu; simpl; [done|].
  destruct l as [l|]; [|done].
  pose proof (process_adapter_list_inv P (GetAdapter l) 0%N unique HP Hu) as H1.
  destruct (process_adapter_list _ _ _ (GetAdapter l) 0%N unique) as [u1 r1].
  simpl in H1. destruct r1 as [[]| | |]; simpl; try done.
  by apply IH.
Qed.

End Enumeration.

(** The three [ENUMERATE_ADAPTERS] steps leave the set of unique adapters
    empty, as the [clear()] calls made it. *)
Lemma ENUMERATE_ADAPTERS_unique p attribute ln self :
  uniqueAdapters (ENUMERATE_ADAPTERS p attribute ln self).1 = uniqueAdapters self.
Proof. unfold ENUMERATE_ADAPTERS. by destruct (CreateAdapterList p attribute). Qed.

(** Whatever the outcome of [EnumerateAdapters], an entry of the set of
    unique adapters is keyed by its own identifier, was extracted from an
    adapter object, and passes the filtering conditions. *)
Lemma EnumerateAdapters_entries p flt ii id self :
  map_Forall (fun k a =>
      InstanceLuid a = k /\
      survives flt ii id a = true /\
      exists adapter, ExtractAdapterDetails adapter = Return a)
    (uniqueAdapters (EnumerateAdapters p flt ii id self).1).
Proof.
  unfold EnumerateAdapters.
  set (P := fun (k : Z) (a : Adapter) => InstanceLuid a = k /\
      survives flt ii id a = true /\
      exists adapter, ExtractAdapterDetails adapter = Return a).
  set (s0 := mkAdapterEnumeration [] ∅).
  assert (Hstep : forall (sr : AdapterEnumeration * result unit) (c : bool) attribute ln,
    uniqueAdapters sr.1 = ∅ ->
    uniqueAdapters (and_then sr (fun self =>
      if c then ENUMERATE_ADAPTERS p attribute ln self else (self, Return tt))).1 = ∅).
  { intros [s [[]| | |]] c attribute ln Hs; simpl in *; try done.
    destruct c; [|done]. by rewrite ENUMERATE_ADAPTERS_unique. }
  set (s1 := if bool_decide (flt ≠ ComputeOnly) && bool_decide (flt ≠ DisplayAndCompute)
             then ENUMERATE_ADAPTERS p DXCORE_ADAPTER_ATTRIBUTE_D3D11_GRAPHICS 42 s0
             else (s0, Return tt)).
  assert (H1 : uniqueAdapters s1.1 = ∅).
  { unfold s1. destruct (_ && _); [|done]. by rewrite ENUMERATE_ADAPTERS_unique. }
  pose proof (Hstep s1 (bool_decide (flt ≠ ComputeOnly))
                DXCORE_ADAPTER_ATTRIBUTE_D3D12_GRAPHICS 47%N H1) as H2.
  set (s2 := and_then s1 _) in *.
  pose proof (Hstep s2 (bool_decide (flt ≠ DisplayOnly))
                DXCORE_ADAPTER_ATTRIBUTE_D3D12_CORE_COMPUTE 52%N H2) as H3.
  set (s3 := and_then s2 _) in *.
  destruct s3 as [s r]. simpl in H3.
  destruct r as [[]| | |]; simpl; try (rewrite H3; apply map_Forall_empty).
  pose proof (process_adapter_lists_inv flt ii id P (adapterLists s) (uniqueAdapters s)) as Hinv.
  destruct (process_adapter_lists flt ii id (adapterLists s) (uniqueAdapters s)) as [u r].
  simpl in *. apply Hinv.
  - intros adapter details He Hs. unfold P. eauto.
  - rewrite H3. apply map_Forall_empty.
Qed.

(** A pass of [EnumerateAdapters] that completes has built the set of
    unique adapters from the candidates of the lists it now holds. *)
Lemma EnumerateAdapters_Return p flt ii id self e' :
  EnumerateAdapters p flt ii id self = (e', Return tt) ->
  Forall is_Some (adapterLists e') /\
  uniqueAdapters e' = fold_left (keep flt ii id) (candidates (adapterLists e')) ∅.
Proof.
  unfold EnumerateAdapters.
  set (s0 := mkAdapterEnumeration [] ∅).
  set (Q := fun (sr : AdapterEnumeration * result unit) =>
     uniqueAdapters sr.1 = ∅ /\ (sr.2 = Return tt -> Forall is_Some (adapterLists sr.1))).
  assert (Hen : forall attribute ln s, Q (s, Return tt) -> Q (ENUMERATE_ADAPTERS p attribute ln s)).
  { intros attribute ln s [Hu Hl]. unfold Q, ENUMERATE_ADAPTERS.
    destruct (CreateAdapterList p attribute); simpl; split; try done.
    intros _. apply Forall_app. split; [by apply Hl|]. by repeat constructor. }
  assert (Hstep : forall (sr : AdapterEnumeration * result unit) (c : bool) attribute ln,
    Q sr -> Q (and_then sr (fun self =>
      if c then ENUMERATE_ADAPTERS p attribute ln self else (self, Return tt)))).
  { intros [s [[]| | |]] c attribute ln Hs; simpl in *; try done.
    destruct c; [|done]. by apply Hen. }
  set (s1 := if bool_decide (flt ≠ ComputeOnly) && bool_decide (flt ≠ DisplayAndCompute)
             then ENUMERATE_ADAPTERS p DXCORE_ADAPTER_ATTRIBUTE_D3D11_GRAPHICS 42 s0
             else (s0, Return tt)).
  assert (H0 : Q (s0, Return tt)) by (split; [done | by constructor]).
  assert (H1 : Q s1).
  { unfold s1. destruct (_ && _); [|done]. by apply Hen. }
  pose proof (Hstep s1 (bool_decide (flt ≠ ComputeOnly))
                DXCORE_ADAPTER_ATTRIBUTE_D3D12_GRAPHICS 47%N H1) as H2.
  set (s2 := and_then s1 _) in *.
  pose proof (Hstep s2 (bool_decide (flt ≠ DisplayOnly))
                DXCORE_ADAPTER_ATTRIBUTE_D3D12_CORE_COMPUTE 52%N H2) as H3.
  set (s3 := and_then s2 _) in *.
  destruct s3 as [s r]. destruct H3 as [Hu Hl]. simpl in *.
  destruct r as [[]| | |]; simpl; try (intros H; by inversion H).
  destruct (process_adapter_lists flt ii id (adapterLists s) (uniqueAdapters s))
    as [u r] eqn:Hp.
  intros H. inversion H; subst. simpl. split; [by apply Hl|].
  apply process_adapter_lists_Return in Hp. by rewrite Hp, Hu.
Qed.

(** The entries of a map with a given key, as a list. *)
Lemma filter_key_map_to_list (m : gmap Z Adapter) (k : Z) (a : Adapter) :
  m !! k = Some a ->
  filter (fun kv => kv.1 = k) (map_to_list m) = [(k, a)].
Proof.
  intros H.
  apply Permutation_singleton_r.
  rewrite <- (insert_delete_id m k a H) at 1.
  rewrite map_to_list_insert by apply lookup_delete_eq.
  rewrite filter_cons_True by done.
  constructor.
  assert (Hnone : filter (fun kv : Z * Adapter => kv.1 = k) (map_to_list (delete k m)) = []).
  { destruct (filter _ (map_to_list (delete k m))) as [|[k' a'] xs] eqn:Hf; [done|].
    assert (Hin : (k', a') ∈ filter (fun kv : Z * Adapter => kv.1 = k)
                    (map_to_list (delete k m))) by (rewrite Hf; left).
    apply list_elem_of_filter in Hin as [Hk Hin]. simpl in Hk. subst k'.
    apply elem_of_map_to_list in Hin. by rewrite lookup_delete_eq in Hin. }
  by rewrite Hnone.
Qed.

(** C3 (as stated) fails: with two surviving candidates that carry the
    LUID 5, the entry kept for 5 is the candidate processed first, not the
    one processed last. *)
Lemma C3_last_write_wins_counterexample :
  let run := EnumerateAdapters ex_duplicate_platform AllDevices true true
               (mkAdapterEnumeration [] ∅) in
  let first := ex_details 5 1 false true true in
  let last := ex_details 5 2 false true true in
  run.2 = Return tt /\
  survivors AllDevices true true (adapterLists run.1) = [first; last] /\
  InstanceLuid first = InstanceLuid last /\
  uniqueAdapters run.1 !! 5 = Some first /\
  uniqueAdapters run.1 !! 5 <> Some last.
Proof. vm_compute. repeat split; congruence. Qed.

(** C3 (amended): after an enumeration pass that completes, the set of
    unique adapters has exactly one entry for the LUID of any surviving
    candidate, and the entry holds the fields of the first surviving
    candidate with that LUID in processing order, whatever comes after it
    (first-write-wins). *)
Theorem C3_first_write_wins p flt ii id self e' pre first rest :
  EnumerateAdapters p flt ii id self = (e', Return tt) ->
  survivors flt ii id (adapterLists e') = pre ++ first :: rest ->
  Forall (fun d => InstanceLuid d <> InstanceLuid first) pre ->
  uniqueAdapters e' !! InstanceLuid first = Some first /\
  filter (fun kv => kv.1 = InstanceLuid first) (map_to_list (uniqueAdapters e'))
    = [(InstanceLuid first, first)].
Proof.
  intros Hrun Hsurv Hpre.
  apply EnumerateAdapters_Return in Hrun as [_ Hu].
  assert (Hl : uniqueAdapters e' !! InstanceLuid first = Some first).
  { rewrite Hu, fold_keep_lookup, lookup_empty.
    fold (survivors flt ii id (adapterLists e')). rewrite Hsurv.
    rewrite List.filter_app. simpl.
    rewrite bool_decide_eq_true_2 by done.
    assert (Hnil : List.filter (fun d => bool_decide (InstanceLuid d = InstanceLuid first)) pre = []).
    { clear -Hpre. induction Hpre as [|d pre Hd _ IH]; simpl; [done|].
      by rewrite bool_decide_eq_false_2. }
    by rewrite Hnil. }
  split; [done|]. by apply filter_key_map_to_list.
Qed.

Lemma C3_first_write_wins_witness :
  let run := EnumerateAdapters ex_duplicate_platform AllDevices true true
               (mkAdapterEnumeration [] ∅) in
  uniqueAdapters run.1 !! 5 = Some (ex_details 5 1 false true true) /\
  filter (fun kv => kv.1 = 5) (map_to_list (uniqueAdapters run.1))
    = [(5, ex_details 5 1 false true true)].
Proof.
  apply (C3_first_write_wins ex_duplicate_platform AllDevices true true
           (mkAdapterEnumeration [] ∅) _ []
           (ex_details 5 1 false true true) [ex_details 5 2 false true true]).
  - reflexivity.
  - reflexivity.
  - constructor.
Defined.

(** With [AllDevices] the filtering conditions do not look at the
    capability flags. *)
Lemma survives_AllDevices ii id d :
  survives AllDevices ii id d =
  IsHardware d && (negb (IsIntegrated d) || ii) && (negb (IsDetachable d) || id).
Proof.
  unfold survives. simpl.
  destruct (IsHardware d), (IsIntegrated d), (IsDetachable d), ii, id; reflexivity.
Qed.

(** C6: whatever the outcome of an enumeration pass, under [DisplayOnly] no
    adapter of the result supports compute, under [ComputeOnly] none
    supports display, and under [DisplayAndCompute] every one supports
    both.  Under [AllDevices] the filtering conditions do not depend on the
    capability flags, all three adapter lists are enumerated, and a pass
    that completes has an entry for the LUID of every hardware candidate
    that passes the integrated and detachable conditions. *)
Theorem C6_filter_correctness p ii id self :
  map_Forall (fun _ a => SupportsCompute a = false)
    (uniqueAdapters (EnumerateAdapters p DisplayOnly ii id self).1) /\
  map_Forall (fun _ a => SupportsDisplay a = false)
    (uniqueAdapters (EnumerateAdapters p ComputeOnly ii id self).1) /\
  map_Forall (fun _ a => SupportsDisplay a = true /\ SupportsCompute a = true)
    (uniqueAdapters (EnumerateAdapters p DisplayAndCompute ii id self).1) /\
  (forall d display compute,
      survives AllDevices ii id d =
      survives AllDevices ii id
        (mkAdapter (InstanceLuid d) (HardwareID d) (IsHardware d) (IsIntegrated d)
           (IsDetachable d) display compute)) /\
  (forall e', EnumerateAdapters p AllDevices ii id self = (e', Return tt) ->
      (exists l11 l12 lcc,
          CreateAdapterList p DXCORE_ADAPTER_ATTRIBUTE_D3D11_GRAPHICS = Succeeded l11 /\
          CreateAdapterList p DXCORE_ADAPTER_ATTRIBUTE_D3D12_GRAPHICS = Succeeded l12 /\
          CreateAdapterList p DXCORE_ADAPTER_ATTRIBUTE_D3D12_CORE_COMPUTE = Succeeded lcc /\
          adapterLists e' = [Some l11; Some l12; Some lcc]) /\
      (forall d, d ∈ candidates (adapterLists e') ->
          IsHardware d = true ->
          (IsIntegrated d = true -> ii = true) ->
          (IsDetachable d = true -> id = true) ->
          is_Some (uniqueAdapters e' !! InstanceLuid d))).
Proof.
  split; [|split; [|split; [|split]]].
  - eapply map_Forall_impl; [apply EnumerateAdapters_entries|].
    intros k a (_ & Hs & _). simpl in Hs. unfold survives in Hs. simpl in Hs.
    destruct (IsHardware a), (SupportsCompute a); simpl in Hs; congruence.
  - eapply map_Forall_impl; [apply EnumerateAdapters_entries|].
    intros k a (_ & Hs & _). simpl in Hs. unfold survives in Hs. simpl in Hs.
    destruct (IsHardware a), (SupportsDisplay a); simpl in Hs; congruence.
  - eapply map_Forall_impl; [apply EnumerateAdapters_entries|].
    intros k a (_ & Hs & _). simpl in Hs. unfold survives in Hs. simpl in Hs.
    destruct (IsHardware a), (SupportsDisplay a), (SupportsCompute a);
      simpl in Hs; split; congruence.
  - intros d display compute. by rewrite !survives_AllDevices.
  - intros e' Hrun. split.
    + unfold EnumerateAdapters, ENUMERATE_ADAPTERS in Hrun. simpl in Hrun.
      destruct (CreateAdapterList p DXCORE_ADAPTER_ATTRIBUTE_D3D11_GRAPHICS) as [l11|];
        simpl in Hrun; [|by inversion Hrun].
      destruct (CreateAdapterList p DXCORE_ADAPTER_ATTRIBUTE_D3D12_GRAPHICS) as [l12|];
        simpl in Hrun; [|by inversion Hrun].
      destruct (CreateAdapterList p DXCORE_ADAPTER_ATTRIBUTE_D3D12_CORE_COMPUTE) as [lcc|];
        simpl in Hrun; [|by inversion Hrun].
      exists l11, l12, lcc. repeat split; try done.
      destruct (process_adapter_list AllDevices ii id (GetAdapter l11) 0 ∅) as [u1 r1].
      destruct r1 as [[]| | |]; try by inversion Hrun.
      destruct (process_adapter_list AllDevices ii id (GetAdapter l12) 0 u1) as [u2 r2].
      destruct r2 as [[]| | |]; try by inversion Hrun.
      destruct (process_adapter_list AllDevices ii id (GetAdapter lcc) 0 u2) as [u3 r3].
      destruct r3; by inversion Hrun.
    + intros d Hin Hhw Hii Hid.
      apply EnumerateAdapters_Return in Hrun as [_ Hu].
      rewrite Hu, fold_keep_lookup, lookup_empty.
      assert (Hs : survives AllDevices ii id d = true).
      { rewrite survives_AllDevices, Hhw.
        destruct (IsIntegrated d), (IsDetachable d), ii, id; simpl; try done;
          (by (exfalso; (by discriminate Hii) || (by discriminate Hid))) ||
          (by specialize (Hii eq_refl)) || (by specialize (Hid eq_refl)). }
      assert (Hin' : d ∈ List.filter (fun d' => bool_decide (InstanceLuid d' = InstanceLuid d))
                 (List.filter (survives AllDevices ii id) (candidates (adapterLists e')))).
      { apply list_elem_of_In, filter_In. split.
        - apply filter_In. split; [by apply list_elem_of_In | done].
        - by apply bool_decide_eq_true_2. }
      destruct (List.filter _ (List.filter _ _)) as [|x xs]; [by inversion Hin'|].
      simpl. eauto.
Qed.

(** The scenario of the three adapters A, B and C: with [DisplayAndCompute],
    integrated adapters excluded and detachable ones included, the result
    is B alone; with [AllDevices] and everything included it is all
    three. *)
Example ex_scenario :
  uniqueAdapters
    (EnumerateAdapters ex_scenario_platform DisplayAndCompute false true
       (mkAdapterEnumeration [] ∅)).1
  = {[ 11 := ex_details 11 1 false true true ]} /\
  dom (uniqueAdapters
         (EnumerateAdapters ex_scenario_platform AllDevices true true
            (mkAdapterEnumeration [] ∅)).1)
  = ({[ 10; 11; 12 ]} : gset Z).
Proof. split; by vm_compute. Qed.

(** C10: the details extracted from an adapter have [SupportsCompute] equal
    to the support of the Direct3D 12 graphics attribute, hence
    [SupportsCompute] implies [SupportsDisplay]; and whatever the outcome of
    an enumeration pass under [ComputeOnly], no adapter of the result has
    [SupportsCompute] set. *)
Theorem C10_compute_implies_display :
  (forall adapter details,
      ExtractAdapterDetails adapter = Return details ->
      SupportsCompute details
        = IsAttributeSupported adapter DXCORE_ADAPTER_ATTRIBUTE_D3D12_GRAPHICS /\
      (SupportsCompute details = true -> SupportsDisplay details = true)) /\
  (forall p ii id self,
      map_Forall (fun _ a => SupportsCompute a = false)
        (uniqueAdapters (EnumerateAdapters p ComputeOnly ii id self).1)).
Proof.
  assert (Hex : forall adapter details,
      ExtractAdapterDetails adapter = Return details ->
      SupportsCompute details
        = IsAttributeSupported adapter DXCORE_ADAPTER_ATTRIBUTE_D3D12_GRAPHICS /\
      (SupportsCompute details = true -> SupportsDisplay details = true)).
  { intros adapter details H. unfold ExtractAdapterDetails in H.
    destruct (GetProperty_InstanceLuid adapter); simpl in H; [|by inversion H].
    destruct (GetProperty_HardwareID adapter); simpl in H; [|by inversion H].
    destruct (GetProperty_IsHardware adapter); simpl in H; [|by inversion H].
    destruct (GetProperty_IsIntegrated adapter); simpl in H; [|by inversion H].
    destruct (GetProperty_IsDetachable adapter); simpl in H; [|by inversion H].
    inversion H; subst; simpl. split; [done|].
    intros ->. apply orb_true_r. }
  split; [exact Hex|].
  intros p ii id self.
  eapply map_Forall_impl; [apply EnumerateAdapters_entries|].
  intros k a (_ & Hs & adapter & He). simpl in *.
  apply Hex in He as [_ Himp].
  unfold survives in Hs. simpl in Hs.
  destruct (SupportsCompute a) eqn:Hc; [|done].
  rewrite (Himp eq_refl) in Hs.
  destruct (IsHardware a); simpl in Hs; congruence.
Qed.

(** ** Driver metadata resolution *)

Lemma check_returns_or_throws_error {A : Type} (r : reply A) fl fn ln context :
  returns_or_throws_error (check r fl fn ln context).
Proof. by destruct r. Qed.

Lemma bind_returns_or_throws_error {A B : Type} (r : result A) (k : A -> result B) :
  returns_or_throws_error r ->
  (forall a, returns_or_throws_error (k a)) ->
  returns_or_throws_error (bind r k).
Proof. destruct r as [a|[]| |]; simpl; try done; intros _ H; apply H. Qed.

Lemma OpenKeyFromString_returns_or_throws_error p key :
  returns_or_throws_error (OpenKeyFromString p key).
Proof.
  unfold OpenKeyFromString.
  destruct (index 0 _ key) as [backslash|]; [|done].
  destruct (_ <=? _)%nat; [done|].
  destruct (existsb _ _); [|done].
  apply check_returns_or_throws_error.
Qed.

Lemma enumerate_values_returns_or_throws_error key values :
  returns_or_throws_error (enumerate_values key values).
Proof.
  revert values. induction key as [|r rest IH]; intros values; simpl; [done|].
  destruct r as [value|msg]; simpl; [|done].
  destruct (negb _); [done|]. apply IH.
Qed.


Lemma existsb_destination files name :
  existsb (fun f => String.eqb (DestinationFilename f) name) files = true <->
  name ∈ destinations files.
Proof.
  unfold destinations. rewrite existsb_exists, list_elem_of_In, in_map_iff.
  split.
  - intros (f & Hin & Heq). apply String.eqb_eq in Heq. eauto.
  - intros (f & Heq & Hin). exists f. split; [done|]. by apply String.eqb_eq.
Qed.

Lemma add_runtime_file_NoDup p files pair :
  NoDup (destinations files) -> NoDup (destinations (add_runtime_file p files pair)).
Proof.
  intros Hnd. unfold add_runtime_file. destruct pair.2 as [|source others]; [done|].
  set (newFile := RuntimeFile_new p source _).
  destruct (existsb _ files) eqn:Hex; [done|].
  unfold destinations. rewrite map_app.
  change (map DestinationFilename [newFile]) with [DestinationFilename newFile].
  apply NoDup_app. split; [done|]. split; [|apply NoDup_singleton].
  intros name Hin Hnew. apply list_elem_of_singleton in Hnew. subst name.
  apply existsb_destination in Hin. congruence.
Qed.


Lemma fold_add_runtime_file_NoDup p values files :
  NoDup (destinations files) ->
  NoDup (destinations (fold_left (add_runtime_file p) values files)).
Proof.
  revert files. induction values as [|v values IH]; intros files H; simpl; [done|].
  by apply IH, add_runtime_file_NoDup.
Qed.

(** [ProcessRuntimeFiles] always returns: it appends the files of the
    values of its sub-key to the list it is asked to fill, and leaves the
    device as it is when the sub-key cannot be opened or enumerated. *)
Lemma ProcessRuntimeFiles_spec p key isWow64 device :
  ProcessRuntimeFiles p key isWow64 device =
  (if isWow64
   then set_RuntimeFilesWow64
          (fold_left (add_runtime_file p) (subkey_values p device key)
             (RuntimeFilesWow64 device)) device
   else set_RuntimeFiles
          (fold_left (add_runtime_file p) (subkey_values p device key)
             (RuntimeFiles device)) device,
   Return tt).
Proof.
  unfold ProcessRuntimeFiles, subkey_values.
  pose proof (OpenKeyFromString_returns_or_throws_error p
    (DriverRegistryKey device +:+ String backslash_char "" +:+ key)) as Ho.
  destruct (OpenKeyFromString p _) as [registryKey|[]| |]; simpl in *; try done.
  - unfold EnumerateMultiStringValues.
    pose proof (enumerate_values_returns_or_throws_error registryKey []) as He.
    destruct (enumerate_values registryKey []) as [values|[]| |]; simpl in *; try done;
      by destruct isWow64, device.
  - by destruct isWow64, device.
Qed.

Lemma subkey_values_ext p d1 d2 key :
  DriverRegistryKey d1 = DriverRegistryKey d2 ->
  subkey_values p d1 key = subkey_values p d2 key.
Proof. unfold subkey_values. by intros ->. Qed.

(** The device [FillDriverDetails] produces once the driver store query
    has returned [OutputString]. *)
Lemma FillDriverDetails_spec fuel p device :
  FillDriverDetails fuel p device =
  match (adapter <- check (D3DKMTOpenAdapterFromLuid p (InstanceLuid (DeviceAdapter device)))
           RegistryQuery_cpp "RegistryQuery::FillDriverDetails" 157
           ("D3DKMTOpenAdapterFromLuid failed to open adapter with LUID "
              +:+ pretty (InstanceLuid (DeviceAdapter device))) ;;
         PerformQuery fuel p adapter 0) with
  | Return OutputString =>
      let path := expand_SystemRoot p OutputString in
      match SystemRoot p with
      | Failed what => (set_DriverStorePath path device, Throw (ExResultException what))
      | Succeeded _ =>
          if contains "HostDriverStore" path
          then (set_DriverStorePath path device, Return tt)
          else
            (mkDevice (DeviceAdapter device) (ID device) (Description device)
               (DriverRegistryKey device) path (LocationPath device)
               (fold_left (add_runtime_file p) (subkey_values p device "CopyToVmWhenNewer")
                  (fold_left (add_runtime_file p)
                     (subkey_values p device "CopyToVmOverwrite")
                     (RuntimeFiles device)))
               (fold_left (add_runtime_file p)
                  (subkey_values p device "CopyToVmWhenNewerWow64")
                  (fold_left (add_runtime_file p)
                     (subkey_values p device "CopyToVmOverwriteWow64")
                     (RuntimeFilesWow64 device)))
               (Vendor device),
             Return tt)
      end
  | r => (device, rethrow r)
  end.
Proof.
  unfold FillDriverDetails, expand_SystemRoot.
  destruct (bind _ _) as [OutputString| | |]; try done.
  destruct (SystemRoot p) as [systemRoot|what]; [|done].
  cbn [DriverStorePath set_DriverStorePath].
  set (path := if starts_with _ OutputString then _ else _).
  cbv zeta. destruct (contains _ path); [done|].
  unfold and_then. repeat (rewrite !ProcessRuntimeFiles_spec; simpl).
  reflexivity.
Qed.

Lemma apply_property_RuntimeFiles self keyName data details details' :
  apply_property self keyName data details = Return details' ->
  RuntimeFiles details' = RuntimeFiles details /\
  RuntimeFilesWow64 details' = RuntimeFilesWow64 details.
Proof.
  unfold apply_property. intros H.
  destruct (keyName =? "DEVPKEY_Device_Driver")%string.
  { destruct data; inversion H; subst; done. }
  destruct (keyName =? "DEVPKEY_Device_LocationPaths")%string.
  { destruct data as [| |lock first others|]; try by inversion H.
    destruct lock; simpl in H; inversion H; subst; done. }
  destruct (keyName =? devPropKeyLUID self)%string; [|by inversion H].
  destruct data as [llVal|bstrVal| |]; try by inversion H.
  destruct (stoll bstrVal); simpl in H; inversion H; subst. by split.
Qed.

Lemma process_properties_RuntimeFiles self elements details details' :
  process_properties self elements details = Return details' ->
  RuntimeFiles details' = RuntimeFiles details /\
  RuntimeFilesWow64 details' = RuntimeFilesWow64 details.
Proof.
  revert details. induction elements as [|element rest IH]; intros details H; simpl in H.
  - by inversion H.
  - destruct (QueryInterface element); simpl in H; [|by inversion H].
    destruct (Get_KeyName element) as [keyName|]; simpl in H; [|by inversion H].
    destruct (Get_Data element) as [data|]; [|by apply IH].
    destruct (apply_property self keyName data details) as [d1| | |] eqn:Ha;
      simpl in H; try by inversion H.
    apply apply_property_RuntimeFiles in Ha as [Ha1 Ha2].
    apply IH in H as [-> ->]. done.
Qed.

(** A device extracted from a PnP entity has no runtime files yet. *)
Lemma ExtractDeviceDetails_RuntimeFiles self device details :
  ExtractDeviceDetails self device = Return details ->
  RuntimeFiles details = [] /\ RuntimeFilesWow64 details = [].
Proof.
  unfold ExtractDeviceDetails. intros H.
  repeat match type of H with
         | context [check ?r _ _ _ _] => destruct r; simpl in H; [|by inversion H]
         end.
  match type of H with
  | context [match ?v with _ => _ end] =>
      destruct v as [lock elements|]; simpl in H; [|by inversion H]
  end.
  destruct lock; simpl in H; [|by inversion H].
  by apply process_properties_RuntimeFiles in H.
Qed.



(** On the example registry the second file with the destination name
    [x.dll] is dropped, and the two sub-keys that fail add nothing. *)
Example ex_resolution :
  FillDriverDetails 2 ex_registry_platform ex_device =
  (mkDevice (ex_details 5 1 false true true) "PCI\VEN_0001&DEV_0001" "Example GPU"
     "HKEY_LOCAL_MACHINE\SYSTEM\CurrentControlSet\Control\Class\{4d36e968}\0001"
     "C:\Windows\System32\DriverStore\FileRepository\ex.inf" ""
     [mkRuntimeFile "nv\x.dll" "x.dll"; mkRuntimeFile "nv\y.dll" "z.dll"]
     [mkRuntimeFile "nv32\x.dll" "x.dll"] "Example Corp",
   Return tt).
Proof. vm_compute. reflexivity. Qed.

(** More fuel does not change what [PerformQuery] returns. *)
Lemma PerformQuery_fuel fuel extra p adapter trailingBuffer out :
  PerformQuery fuel p adapter trailingBuffer = Return out ->
  PerformQuery (fuel + extra) p adapter trailingBuffer = Return out.
Proof.
  revert trailingBuffer. induction fuel as [|fuel IH]; intros trailingBuffer H; simpl in *.
  - inversion H.
  - destruct (D3DKMTQueryAdapterInfo p adapter trailingBuffer) as [info|]; simpl in *;
      [|done].
    destruct (Status info); try done. by apply IH.
Qed.

(** When the platform reports an overflow exactly for the buffers smaller
    than the size it asks for, the loop of [PerformQuery] ends after at most
    two queries. *)
Lemma PerformQuery_terminates fuel p adapter needed out :
  (forall size, (size < needed)%N ->
      D3DKMTQueryAdapterInfo p adapter size =
      Succeeded (mkQueryRegistryInfo D3DDDI_QUERYREGISTRY_STATUS_BUFFER_OVERFLOW needed "")) ->
  (forall size, (needed <= size)%N ->
      D3DKMTQueryAdapterInfo p adapter size =
      Succeeded (mkQueryRegistryInfo D3DDDI_QUERYREGISTRY_STATUS_SUCCESS needed out)) ->
  PerformQuery (S (S fuel)) p adapter 0 = Return out.
Proof.
  intros Hsmall Hlarge. simpl.
  destruct (decide (0 < needed)%N) as [Hlt|Hge].
  - rewrite (Hsmall 0%N Hlt). simpl. by rewrite (Hlarge needed) by lia.
  - by rewrite (Hlarge 0%N) by lia.
Qed.



(** On the example registry two of the four sub-keys fail and the device
    record is produced with the files of the other two. *)
Example ex_partial_failure :
  (exists msg, enumerate_subkey ex_registry_platform ex_device "CopyToVmWhenNewer"
               = Throw (ExDeviceDiscoveryError msg)) /\
  (exists msg, enumerate_subkey ex_registry_platform ex_device "CopyToVmWhenNewerWow64"
               = Throw (ExDeviceDiscoveryError msg)) /\
  (FillDriverDetails 2 ex_registry_platform ex_device).2 = Return tt /\
  length (RuntimeFiles (FillDriverDetails 2 ex_registry_platform ex_device).1) = 2%nat /\
  length (RuntimeFilesWow64 (FillDriverDetails 2 ex_registry_platform ex_device).1) = 1%nat.
Proof. vm_compute. eauto 10. Qed.

(** ** Correlation of adapters and PnP devices *)

(** The loop of [GetDevicesForAdapters] appends at most one device per PnP
    record, and each device it appends carries the adapter the set holds
    for the LUID the record reports. *)
Lemma match_devices_spec self (adapters : gmap Z Adapter) enumerator devices found :
  match_devices self adapters enumerator devices = Return found ->
  exists new,
    found = devices ++ new /\
    (length new <= length enumerator)%nat /\
    Forall (fun d => exists k, adapters !! k = Some (DeviceAdapter d)) new.
Proof.
  revert devices. induction enumerator as [|next rest IH]; intros devices H; simpl in H.
  - inversion H; subst. exists []. by rewrite app_nil_r.
  - destruct next as [device|msg]; simpl in H; [|by inversion H].
    destruct (ExtractDeviceDetails self device) as [details| | |]; simpl in H;
      try by inversion H.
    destruct (adapters !! InstanceLuid (DeviceAdapter details)) as [matchingAdapter|] eqn:Hm.
    + apply IH in H as (new & -> & Hlen & Hall).
      exists (set_DeviceAdapter matchingAdapter details :: new).
      rewrite <- app_assoc. split; [done|]. split; [simpl; lia|].
      constructor; [by eexists | done].
    + apply IH in H as (new & -> & Hlen & Hall).
      exists new. split; [done|]. split; [simpl; lia | done].
Qed.

(** A list of distinct keys of a map is no longer than the map is large. *)
Lemma NoDup_keys_length (m : gmap Z Adapter) (keys : list Z) :
  NoDup keys -> Forall (fun k => is_Some (m !! k)) keys -> (length keys <= size m)%nat.
Proof.
  intros Hnd Hall.
  rewrite <- (size_list_to_set (C := gset Z) keys) by done.
  rewrite <- size_dom.
  apply subseteq_size. intros k Hk. apply elem_of_list_to_set in Hk.
  apply elem_of_dom. by eapply Forall_forall in Hall.
Qed.

(** C7 (as stated) fails: two PnP records that report the LUID of the one
    adapter of the set make a device list of two. *)
Lemma C7_size_counterexample :
  GetDevicesForAdapters ex_two_entities_platform
    (mkWmiQuery DevPropKeyToString_AdapterLuid) ex_adapters
  = Return [ ex_correlated "PCI\VEN_0001&DEV_0001\A";
             ex_correlated "PCI\VEN_0001&DEV_0001\B" ] /\
  size ex_adapters = 1%nat /\
  ~ (length [ ex_correlated "PCI\VEN_0001&DEV_0001\A";
              ex_correlated "PCI\VEN_0001&DEV_0001\B" ] <= size ex_adapters)%nat.
Proof. vm_compute. repeat split. lia. Qed.

(** C7 (amended): for an adapter set keyed by the LUID of its adapters, as
    enumeration builds it, every correlated device carries the adapter the
    set holds for its LUID; the device list is empty for an empty set and
    otherwise no longer than the sequence of PnP records the query
    returned; and it is no longer than the set is large when the LUIDs of
    its devices are pairwise distinct. *)
Theorem C7_correlation_subset p self (adapters : gmap Z Adapter) found :
  map_Forall (fun k a => InstanceLuid a = k) adapters ->
  GetDevicesForAdapters p self adapters = Return found ->
  Forall (fun d => adapters !! InstanceLuid (DeviceAdapter d) = Some (DeviceAdapter d))
    found /\
  ((adapters = ∅ /\ found = []) \/
   (exists query enumerator,
       ExecQuery p query = Succeeded enumerator /\
       (length found <= length enumerator)%nat)) /\
  (NoDup (map (fun d => InstanceLuid (DeviceAdapter d)) found) ->
   (length found <= size adapters)%nat).
Proof.
  intros Hkeyed H.
  assert (Hall : Forall (fun d =>
            adapters !! InstanceLuid (DeviceAdapter d) = Some (DeviceAdapter d)) found /\
          ((adapters = ∅ /\ found = []) \/
           (exists query enumerator,
               ExecQuery p query = Succeeded enumerator /\
               (length found <= length enumerator)%nat))).
  { unfold GetDevicesForAdapters in H. case_bool_decide as He.
    - inversion H; subst. split; [constructor | by left].
    - match type of H with
      | context [ExecQuery p ?q] =>
          destruct (ExecQuery p q) as [enumerator|msg] eqn:Hq; simpl in H;
            [|by inversion H]
      end.
      apply match_devices_spec in H as (new & -> & Hlen & Hnew). simpl.
      split.
      + eapply Forall_impl; [exact Hnew|]. intros d [k Hk].
        by rewrite (Hkeyed k _ Hk).
      + right. eauto. }
  destruct Hall as [Hfound Hlen]. split; [done|]. split; [done|].
  intros Hnd. rewrite <- (length_map (fun d => InstanceLuid (DeviceAdapter d)) found).
  apply NoDup_keys_length; [done|].
  apply Forall_map. eapply Forall_impl; [exact Hfound|]. simpl. by intros d ->.
Qed.

Lemma C7_correlation_subset_witness :
  let found := [ ex_correlated "PCI\VEN_0001&DEV_0001\A";
                 ex_correlated "PCI\VEN_0001&DEV_0001\B" ] in
  Forall (fun d => ex_adapters !! InstanceLuid (DeviceAdapter d) = Some (DeviceAdapter d))
    found /\
  ((ex_adapters = ∅ /\ found = []) \/
   (exists query enumerator,
       ExecQuery ex_two_entities_platform query = Succeeded enumerator /\
       (length found <= length enumerator)%nat)) /\
  (NoDup (map (fun d => InstanceLuid (DeviceAdapter d)) found) ->
   (length found <= size ex_adapters)%nat).
Proof.
  apply (C7_correlation_subset ex_two_entities_platform
           (mkWmiQuery DevPropKeyToString_AdapterLuid) ex_adapters).
  - apply map_Forall_singleton. reflexivity.
  - vm_compute. reflexivity.
Defined.

(** ** The discovery session *)

Lemma check_throws_library {A : Type} (r : reply A) fl fn ln context :
  throws_library (check r fl fn ln context).
Proof. by destruct r. Qed.

Lemma bind_throws_library {A B : Type} (r : result A) (k : A -> result B) :
  throws_library r -> (forall a, throws_library (k a)) -> throws_library (bind r k).
Proof. destruct r as [a|e| |]; simpl; try done; intros _ H; apply H. Qed.

Lemma rethrow_throws_library {A B : Type} (r : result A) :
  throws_library r -> throws_library (@rethrow A B r).
Proof. by destruct r. Qed.

Ltac throws_library :=
  repeat first
    [ apply check_throws_library
    | apply bind_throws_library; [|intros ?]
    | done ].

Lemma AdapterEnumeration_new_throws_library p : throws_library (AdapterEnumeration_new p).
Proof. unfold AdapterEnumeration_new. throws_library. Qed.

Lemma WmiQuery_new_throws_library p : throws_library (WmiQuery_new p).
Proof. unfold WmiQuery_new. throws_library. Qed.

Lemma ExtractAdapterDetails_throws_library adapter :
  throws_library (ExtractAdapterDetails adapter).
Proof. unfold ExtractAdapterDetails. throws_library. Qed.

Lemma process_adapter_list_throws_library flt ii id adapters index unique :
  throws_library (process_adapter_list flt ii id adapters index unique).2.
Proof.
  revert index unique. induction adapters as [|r rest IH]; intros index unique; simpl; [done|].
  pose proof (bind_throws_library
    (check r AdapterEnumeration_cpp "AdapterEnumeration::EnumerateAdapters" 65
       ("IDXCoreAdapterList::GetAdapter() failed for index " +:+ pretty index))
    ExtractAdapterDetails (check_throws_library _ _ _ _ _)
    ExtractAdapterDetails_throws_library) as H.
  destruct (bind _ _) as [details|e| |]; simpl in *; try done; apply IH.
Qed.

Lemma process_adapter_lists_throws_library flt ii id lists unique :
  throws_library (process_adapter_lists flt ii id lists unique).2.
Proof.
  revert unique. induction lists as [|l lists IH]; intros unique; simpl; [done|].
  destruct l as [l|]; [|done].
  pose proof (process_adapter_list_throws_library flt ii id (GetAdapter l) 0%N unique) as H.
  destruct (process_adapter_list _ _ _ _ _ _) as [u [[]|e| |]]; simpl in *; try done;
    apply IH.
Qed.

Lemma and_then_throws_library {S : Type} (sr : S * result unit) step :
  throws_library sr.2 -> (forall s, throws_library (step s).2) ->
  throws_library (and_then sr step).2.
Proof. destruct sr as [s [[]|e| |]]; simpl; try done; intros _ H; apply H. Qed.

Lemma ENUMERATE_ADAPTERS_throws_library p attribute ln self :
  throws_library (ENUMERATE_ADAPTERS p attribute ln self).2.
Proof. unfold ENUMERATE_ADAPTERS. by destruct (CreateAdapterList p attribute). Qed.

Lemma EnumerateAdapters_throws_library p flt ii id self :
  throws_library (EnumerateAdapters p flt ii id self).2.
Proof.
  unfold EnumerateAdapters.
  repeat apply and_then_throws_library.
  - destruct (_ && _); [apply ENUMERATE_ADAPTERS_throws_library | done].
  - intros s. destruct (bool_decide _); [apply ENUMERATE_ADAPTERS_throws_library | done].
  - intros s. destruct (bool_decide _); [apply ENUMERATE_ADAPTERS_throws_library | done].
  - intros s.
    pose proof (process_adapter_lists_throws_library flt ii id
                  (adapterLists s) (uniqueAdapters s)) as H.
    by destruct (process_adapter_lists _ _ _ _ _).
Qed.

Lemma stoll_throws_library str : throws_library (stoll str).
Proof.
  unfold stoll.
  destruct (skip_spaces str) as [|c rest]; simpl; [done|].
  destruct (Ascii.eqb c "-"); [|destruct (Ascii.eqb c "+")];
    simpl; repeat (match goal with |- context [match ?s with _ => _ end] => destruct s end;
                   simpl; try done).
Qed.

Lemma apply_property_throws_library self keyName data details :
  throws_library (apply_property self keyName data details).
Proof.
  unfold apply_property.
  destruct (keyName =? _)%string; [by destruct data|].
  destruct (keyName =? _)%string.
  { destruct data as [| |lock first others|]; try done. by destruct lock. }
  destruct (keyName =? _)%string; [|done].
  destruct data as [llVal|bstrVal| |]; try done.
  apply bind_throws_library; [apply stoll_throws_library | done].
Qed.

Lemma process_properties_throws_library self elements details :
  throws_library (process_properties self elements details).
Proof.
  revert details. induction elements as [|element rest IH]; intros details; simpl; [done|].
  destruct (QueryInterface element); simpl; [|done].
  destruct (Get_KeyName element) as [keyName|]; simpl; [|done].
  destruct (Get_Data element) as [data|]; [|apply IH].
  apply bind_throws_library; [apply apply_property_throws_library | intros; apply IH].
Qed.

Lemma ExtractDeviceDetails_throws_library self device :
  throws_library (ExtractDeviceDetails self device).
Proof.
  unfold ExtractDeviceDetails. throws_library.
  match goal with |- context [match ?v with _ => _ end] => destruct v as [lock elements|] end;
    [|done].
  apply bind_throws_library; [apply check_throws_library|].
  intros _. apply process_properties_throws_library.
Qed.

Lemma match_devices_throws_library self (adapters : gmap Z Adapter) enumerator devices :
  throws_library (match_devices self adapters enumerator devices).
Proof.
  revert devices. induction enumerator as [|next rest IH]; intros devices; simpl; [done|].
  apply bind_throws_library; [apply check_throws_library | intros device].
  apply bind_throws_library; [apply ExtractDeviceDetails_throws_library | intros details].
  destruct (adapters !! _); apply IH.
Qed.

Lemma GetDevicesForAdapters_throws_library p self (adapters : gmap Z Adapter) :
  throws_library (GetDevicesForAdapters p self adapters).
Proof.
  unfold GetDevicesForAdapters. case_bool_decide; [done|].
  apply bind_throws_library; [apply check_throws_library | intros enumerator].
  apply match_devices_throws_library.
Qed.

Lemma PerformQuery_throws_library fuel p adapter trailingBuffer :
  throws_library (PerformQuery fuel p adapter trailingBuffer).
Proof.
  revert trailingBuffer. induction fuel as [|fuel IH]; intros trailingBuffer; simpl; [done|].
  apply bind_throws_library; [apply check_throws_library | intros info].
  destruct (Status info); try done; apply IH.
Qed.

Lemma FillDriverDetails_throws_library fuel p device :
  throws_library (FillDriverDetails fuel p device).2.
Proof.
  rewrite FillDriverDetails_spec.
  pose proof (bind_throws_library
    (check (D3DKMTOpenAdapterFromLuid p (InstanceLuid (DeviceAdapter device)))
       RegistryQuery_cpp "RegistryQuery::FillDriverDetails" 157
       ("D3DKMTOpenAdapterFromLuid failed to open adapter with LUID "
          +:+ pretty (InstanceLuid (DeviceAdapter device))))
    (fun adapter => PerformQuery fuel p adapter 0)
    (check_throws_library _ _ _ _ _)
    (fun adapter => PerformQuery_throws_library fuel p adapter 0%N)) as H.
  destruct (bind _ _) as [OutputString|e| |]; simpl in *; try done.
  destruct (SystemRoot p) as [systemRoot|what]; [|done].
  by destruct (contains _ _).
Qed.

Lemma fill_driver_details_throws_library fuel p devices :
  throws_library (fill_driver_details fuel p devices).2.
Proof.
  induction devices as [|device rest IH]; simpl; [done|].
  pose proof (FillDriverDetails_throws_library fuel p device) as H.
  destruct (FillDriverDetails fuel p device) as [device' [[]|e| |]]; simpl in *; try done;
    by destruct (fill_driver_details fuel p rest).
Qed.

Lemma append_not_empty (a b c : string) : a +:+ String " " b +:+ c <> "".
Proof. destruct a; simpl; discriminate. Qed.

(** The message [DiscoverDevices] stores for a [DeviceDiscoveryError] is
    never empty. *)
Lemma Pretty_not_empty p err : Pretty p err <> "".
Proof. unfold Pretty. destruct (message err); simpl; discriminate. Qed.

(** The only exception of [PerformQuery] is a [DeviceDiscoveryError]. *)
Lemma PerformQuery_Throw fuel p adapter trailingBuffer e :
  PerformQuery fuel p adapter trailingBuffer = Throw e ->
  exists err, e = ExDeviceDiscoveryError err.
Proof.
  revert trailingBuffer. induction fuel as [|fuel IH]; intros trailingBuffer; simpl; [done|].
  destruct (D3DKMTQueryAdapterInfo p adapter trailingBuffer) as [info|msg]; simpl.
  - destruct (Status info); try done; apply IH.
  - intros [= <-]. eauto.
Qed.

(** A device for which [FillDriverDetails] does not return is left as it
    was, unless it is the lookup of the environment variable that has
    thrown: the device then holds the string of the driver store query as
    its driver store path. *)
Lemma FillDriverDetails_not_Return fuel p device device' r :
  FillDriverDetails fuel p device = (device', r) -> r <> Return tt ->
  (device' = device /\ forall e, r = Throw e -> exists err, e = ExDeviceDiscoveryError err) \/
  (exists adapter OutputString what,
      D3DKMTOpenAdapterFromLuid p (InstanceLuid (DeviceAdapter device)) = Succeeded adapter /\
      PerformQuery fuel p adapter 0 = Return OutputString /\
      SystemRoot p = Failed what /\
      r = Throw (ExResultException what) /\
      device' = set_DriverStorePath OutputString device).
Proof.
  rewrite FillDriverDetails_spec.
  destruct (D3DKMTOpenAdapterFromLuid p _) as [adapter|msg] eqn:Ho; simpl.
  2:{ intros [= <- <-] _. left. split; [done|]. intros e [= <-]. eauto. }
  destruct (PerformQuery fuel p adapter 0) as [OutputString|e| |] eqn:Hq; simpl.
  - destruct (SystemRoot p) as [systemRoot|what] eqn:Hroot.
    + destruct (contains _ _); intros [= <- <-]; done.
    + intros [= <- <-] _. right. exists adapter, OutputString, what.
      repeat split; try done. unfold expand_SystemRoot. by rewrite Hroot.
  - intros [= <- <-] _. left. split; [done|]. intros e' [= <-].
    by eapply PerformQuery_Throw.
  - intros [= <- <-] _. left. by split.
  - intros [= <- <-] _. left. by split.
Qed.


(** [create_helpers] does not touch the device list or the last error; it
    returns with both helper objects in place, and when it does not
    return, the session had no helper objects, they cannot both be
    created on the platform, and the WMI helper is as it was. *)
Lemma create_helpers_spec p self self1 r :
  create_helpers p self = (self1, r) ->
  devices self1 = devices self /\ lastError self1 = lastError self /\
  throws_library r /\
  match r with
  | Return _ => exists e w, enumeration self1 = Some e /\ wmi self1 = Some w
  | _ => HaveDevices self = false /\ wmi self1 = wmi self /\
         (AdapterEnumeration_new p = rethrow r \/
          (exists e, AdapterEnumeration_new p = Return e) /\ WmiQuery_new p = rethrow r)
  end.
Proof.
  unfold create_helpers. destruct (HaveDevices self) eqn:Hh; simpl.
  - intros [= <- <-]. repeat split; try done.
    unfold HaveDevices in Hh. apply andb_true_iff in Hh as [He Hw].
    apply bool_decide_eq_true in He as [e He], Hw as [w Hw]. eauto.
  - pose proof (AdapterEnumeration_new_throws_library p) as Hte.
    pose proof (WmiQuery_new_throws_library p) as Htw.
    destruct (AdapterEnumeration_new p) as [e|ex| |] eqn:He.
    + destruct (WmiQuery_new p) as [w|wx| |] eqn:Hw;
        intros [= <- <-]; simpl; repeat split; eauto.
    + intros [= <- <-]. simpl. repeat split; eauto.
    + intros [= <- <-]. simpl. repeat split; eauto.
    + intros [= <- <-]. simpl. repeat split; eauto.
Qed.

(** The [try] block of [DiscoverDevices], by the outcome of its first two
    stages: when they do not return the device list is untouched, and when
    they return the device list is what the loop over the correlated
    devices leaves. *)
Lemma DiscoverDevices_try_spec fuel p flt ii id self self' r :
  DiscoverDevices_try fuel p flt ii id self = (self', r) ->
  lastError self' = lastError self /\ throws_library r /\
  match correlation_stage p flt ii id self with
  | Return found =>
      fill_driver_details fuel p found = (devices self', r) /\
      exists e e' w,
        EnumerateAdapters p flt ii id e = (e', Return tt) /\
        enumeration self' = Some e' /\ wmi self' = Some w
  | r' => devices self' = devices self /\ r = rethrow r'
  end.
Proof.
  unfold DiscoverDevices_try, correlation_stage.
  destruct (create_helpers p self) as [s1 r1] eqn:Hc.
  apply create_helpers_spec in Hc as (Hd1 & Hl1 & Ht1 & Hr1).
  destruct r1 as [[]|e1| |]; simpl; try (by intros [= <- <-]).
  destruct Hr1 as (e & w & He & Hw). rewrite He, Hw.
  pose proof (EnumerateAdapters_throws_library p flt ii id e) as Ht2.
  destruct (EnumerateAdapters p flt ii id e) as [e' r2] eqn:Hen.
  destruct r2 as [[]|e2| |]; simpl in *; try (by intros [= <- <-]).
  pose proof (GetDevicesForAdapters_throws_library p w (GetUniqueAdapters e')) as Ht3.
  destruct (GetDevicesForAdapters p w (GetUniqueAdapters e')) as [found|e3| |];
    simpl in *; try (by intros [= <- <-]).
  pose proof (fill_driver_details_throws_library fuel p found) as Ht4.
  destruct (fill_driver_details fuel p found) as [filled r4].
  intros [= <- <-]. simpl. repeat split; try done.
  exists e, e', w. by rewrite Hw.
Qed.

Lemma rethrow_not_Return {A B : Type} (r : result A) (b : B) : @rethrow A B r <> Return b.
Proof. by destruct r. Qed.



(** The three cases of C1 on example machines. *)
Example ex_discover_success :
  let run := DiscoverDevices 2 ex_good_platform AllDevices true true DeviceDiscoveryImp_new in
  run.2 = Return true /\ lastError run.1 = "" /\
  map ID (devices run.1) = [ "PCI\VEN_0001&DEV_0001\A" ] /\
  map RuntimeFiles (devices run.1)
    = [ [mkRuntimeFile "nv\x.dll" "x.dll"; mkRuntimeFile "nv\y.dll" "z.dll"] ].
Proof. vm_compute. repeat split. Qed.

Example ex_discover_query_fails :
  let first := DiscoverDevices 2 ex_good_platform AllDevices true true DeviceDiscoveryImp_new in
  let run := DiscoverDevices 2 ex_query_fails_platform AllDevices true true first.1 in
  run.2 = Return false /\ devices run.1 = devices first.1 /\
  lastError run.1 =
    "WQL query execution failed: The RPC server is unavailable. [WmiQuery.cpp:150 WmiQuery::GetDevicesForAdapters]".
Proof. vm_compute. repeat split. Qed.

Example ex_discover_open_fails :
  let run := DiscoverDevices 2 ex_open_fails_platform AllDevices true true
               DeviceDiscoveryImp_new in
  run.2 = Return false /\
  lastError run.1 =
    "D3DKMTOpenAdapterFromLuid failed to open adapter with LUID 5: The parameter is incorrect. [RegistryQuery.cpp:157 RegistryQuery::FillDriverDetails]".
Proof. vm_compute. repeat split. Qed.

(** C2: on a machine that delivers the adapter LUID of a PnP device as a
    string that is not a number, [std::stoll] throws
    [std::invalid_argument], which neither handler of [DiscoverDevices]
    catches: the exception leaves [DiscoverDevices] and the C interface
    function, and the last error is not set.  An exception that leaves
    [DiscoverDevices] is one of the two exceptions of [std::stoll] or the
    [wil::ResultException] of the lookup of the environment variable; it
    is neither a [DeviceDiscoveryError] nor a [std::runtime_error], which
    the handlers catch, and it leaves the C interface function as well,
    as the exception of the lookup does on a machine without the
    variable. *)
Theorem C2_unparsable_luid_escapes :
  let run := DiscoverDevices 2 ex_bad_luid_platform AllDevices true true
               DeviceDiscoveryImp_new in
  run.2 = Throw (ExInvalidArgument "invalid stoll argument") /\
  lastError run.1 = "" /\
  (DeviceDiscovery_DiscoverDevices 2 ex_bad_luid_platform AllDevices true true
     DeviceDiscoveryImp_new).2 = Throw (ExInvalidArgument "invalid stoll argument") /\
  (DiscoverDevices 2 ex_huge_luid_platform AllDevices true true DeviceDiscoveryImp_new).2
    = Throw (ExOutOfRange "stoll argument out of range") /\
  (forall fuel p flt ii id self e,
      (DiscoverDevices fuel p flt ii id self).2 = Throw e ->
      (exists what, e = ExInvalidArgument what) \/ (exists what, e = ExOutOfRange what) \/
      (exists what, e = ExResultException what)) /\
  (forall fuel p flt ii id self e,
      (DiscoverDevices fuel p flt ii id self).2 = Throw e ->
      (forall err, e <> ExDeviceDiscoveryError err) /\
      (forall what, e <> ExRuntimeError what) /\
      (DeviceDiscovery_DiscoverDevices fuel p flt ii id self).2 = Throw e) /\
  (DeviceDiscovery_DiscoverDevices 2 ex_no_systemroot_platform AllDevices true true
     DeviceDiscoveryImp_new).2
    = Throw (ExResultException
               "The system could not find the environment option that was entered.").
Proof.
  split; [by vm_compute|]. split; [by vm_compute|].
  split; [by vm_compute|]. split; [by vm_compute|].
  split; [|split; [|by vm_compute]].
  - intros fuel p flt ii id self e. unfold DiscoverDevices.
    destruct (DiscoverDevices_try fuel p flt ii id self) as [s' r].
    destruct r as [[]|[err|what|what|what|what]| |]; simpl; try discriminate;
      intros [= <-]; eauto.
  - intros fuel p flt ii id self e.
    unfold DeviceDiscovery_DiscoverDevices, DiscoverDevices.
    destruct (DiscoverDevices_try fuel p flt ii id self) as [s' r].
    destruct r as [[]|[err|what|what|what|what]| |]; simpl; try discriminate;
      by intros [= <-].
Qed.

(** A call on a platform that cannot create both helper objects leaves a
    session without WMI helper as it finds it, last error apart. *)
Lemma DiscoverDevices_helpers_fail fuel p flt ii id self :
  helpers_fail p -> wmi self = None ->
  let self' := (DiscoverDevices fuel p flt ii id self).1 in
  wmi self' = None /\ devices self' = devices self.
Proof.
  intros Hfail Hw.
  assert (Hh : HaveDevices self = false).
  { unfold HaveDevices. rewrite Hw. apply andb_false_iff. right.
    apply bool_decide_eq_false. by intros [? ?]. }
  unfold DiscoverDevices, DiscoverDevices_try, create_helpers. rewrite Hh. simpl.
  destruct (AdapterEnumeration_new p) as [e0|ex| |] eqn:He0; simpl.
  - destruct (WmiQuery_new p) as [w0|wx| |] eqn:Hw0; simpl.
    + by destruct (Hfail e0 w0).
    + by destruct wx.
    + done.
    + done.
  - by destruct ex.
  - done.
  - done.
Qed.

(** After calls that all failed to create the helper objects the session
    has no WMI helper and no device. *)
Lemma run_calls_helpers_fail calls self :
  Forall (fun c => helpers_fail (call_platform c)) calls ->
  wmi self = None -> devices self = [] ->
  wmi (run_calls calls self) = None /\ devices (run_calls calls self) = [].
Proof.
  intros Hall. revert self. induction Hall as [|c calls Hc _ IH]; intros self Hw Hd.
  - done.
  - simpl.
    destruct (DiscoverDevices_helpers_fail (call_fuel c) (call_platform c) (call_filter c)
                (call_includeIntegrated c) (call_includeDetachable c) self Hc Hw)
      as [Hw' Hd'].
    apply IH; congruence.
Qed.

Lemma HaveDevices_no_wmi self : wmi self = None -> HaveDevices self = false.
Proof.
  intros Hw. unfold HaveDevices. rewrite Hw. apply andb_false_iff. right.
  apply bool_decide_eq_false. by intros [? ?].
Qed.

(** C4 (as stated) fails: after a first call that failed at the WQL query
    [GetNumDevices] returns 0 and clears the last error, and after a first
    call that failed during driver metadata resolution the accessors
    return the data of the correlated device. *)
Lemma C4_failed_discovery_counterexample :
  let failed := DiscoverDevices 2 ex_query_fails_platform AllDevices true true
                  DeviceDiscoveryImp_new in
  let partial := DiscoverDevices 2 ex_open_fails_platform AllDevices true true
                   DeviceDiscoveryImp_new in
  failed.2 = Return false /\
  (GetNumDevices failed.1).2 = 0 /\
  lastError (GetNumDevices failed.1).1 = "" /\
  partial.2 = Return false /\
  (GetNumDevices partial.1).2 = 1 /\
  (GetDeviceID 0 partial.1).2 = Some "PCI\VEN_0001&DEV_0001\A" /\
  lastError (GetDeviceID 0 partial.1).1 = "".
Proof. vm_compute. repeat split. Qed.

(** A call that does not complete its first two stages leaves the device
    list as it was. *)
Lemma DiscoverDevices_not_correlated fuel p flt ii id self :
  (forall found, correlation_stage p flt ii id self <> Return found) ->
  devices (DiscoverDevices fuel p flt ii id self).1 = devices self.
Proof.
  intros Hnot. unfold DiscoverDevices.
  destruct (DiscoverDevices_try fuel p flt ii id self) as [s' r] eqn:Htry.
  apply DiscoverDevices_try_spec in Htry as (_ & _ & Hm).
  destruct (correlation_stage p flt ii id self) as [found|e| |];
    [by destruct (Hnot found)| | |];
    destruct Hm as [Hd ->]; simpl; try done.
  by destruct e.
Qed.

Lemma run_calls_not_correlated calls : forall self,
  no_call_correlated calls self ->
  devices (run_calls calls self) = devices self.
Proof.
  induction calls as [|c calls IH]; intros self Hno; simpl; [done|].
  destruct Hno as [Hc Hrest].
  change (devices (run_calls calls
            (DiscoverDevices (call_fuel c) (call_platform c) (call_filter c)
               (call_includeIntegrated c) (call_includeDetachable c) self).1)
          = devices self).
  rewrite (IH _ Hrest). by apply DiscoverDevices_not_correlated.
Qed.

(** Calls that cannot create the helper objects do not complete their
    first two stages. *)
Lemma helpers_fail_not_correlated calls : forall self,
  Forall (fun c => helpers_fail (call_platform c)) calls ->
  wmi self = None ->
  no_call_correlated calls self.
Proof.
  induction calls as [|c calls IH]; intros self Hall Hw; simpl; [done|].
  apply Forall_cons in Hall as [Hc Hall].
  destruct (DiscoverDevices_helpers_fail (call_fuel c) (call_platform c) (call_filter c)
              (call_includeIntegrated c) (call_includeDetachable c) self Hc Hw)
    as [Hw' _].
  split; [|by apply IH].
  intros found. unfold correlation_stage, create_helpers.
  rewrite (HaveDevices_no_wmi self Hw). simpl.
  destruct (AdapterEnumeration_new (call_platform c)) as [e0|ex| |] eqn:He0; simpl;
    try done.
  destruct (WmiQuery_new (call_platform c)) as [w0|wx| |] eqn:Hw0; simpl; try done.
  by destruct (Hc e0 w0).
Qed.

(** With an empty device list no device index is valid. *)
Lemma ValidateRequestedDevice_empty self device :
  devices self = [] ->
  ValidateRequestedDevice device self =
  if HaveDevices self
  then (SetLastErrorMessage "" self,
        Some (mkError ("requested device index is invalid: " +:+ pretty device)
                DeviceDiscoveryImp_cpp "DeviceDiscoveryImp::ValidateRequestedDevice" 258))
  else (self,
        Some (mkError
                "attempted to retrieve device details before performing device discovery"
                DeviceDiscoveryImp_cpp "DeviceDiscoveryImp::ValidateRequestedDevice" 253)).
Proof.
  intros Hd. unfold ValidateRequestedDevice, GetNumDevices, RETURN_SUCCESS.
  destruct (HaveDevices self); simpl; [|done].
  rewrite Hd. simpl. by rewrite (proj2 (Z.leb_le _ _)) by lia.
Qed.

(** C4 (amended): in a session in which no [DiscoverDevices] call so far
    has completed its first two stages, the device list is empty and
    every per-device accessor returns its sentinel with a non-empty last
    error, whether the helper objects exist or not; [GetNumDevices] returns
    -1 with a non-empty last error when a helper object is missing, as in
    every session whose calls, if any, all failed to create the helper
    objects, and 0 with the last error cleared otherwise; in any session,
    [GetNumDevices] returns -1 when a helper object is missing and the
    length of the device list otherwise, and every per-device accessor
    returns its sentinel with a non-empty last error when the device list
    is empty. *)
Theorem C4_no_helpers_no_devices calls :
  no_call_correlated calls DeviceDiscoveryImp_new ->
  let self := run_calls calls DeviceDiscoveryImp_new in
  devices self = [] /\
  (GetNumDevices self =
   if HaveDevices self
   then (SetLastErrorMessage "" self, 0)
   else (SetLastErrorMessage
           "attempted to retrieve device count before performing device discovery" self,
         -1)) /\
  (forall (A : Type) (sentinel : A) get device,
      (device_accessor sentinel get device self).2 = sentinel /\
      lastError (device_accessor sentinel get device self).1
        = (if HaveDevices self
           then "requested device index is invalid: " +:+ pretty device
           else "attempted to retrieve device details before performing device discovery") /\
      lastError (device_accessor sentinel get device self).1 <> "") /\
  (forall files get device file,
      (file_accessor files get device file self).2 = None /\
      lastError (file_accessor files get device file self).1
        = (if HaveDevices self
           then "requested device index is invalid: " +:+ pretty device
           else "attempted to retrieve device details before performing device discovery") /\
      lastError (file_accessor files get device file self).1 <> "") /\
  (Forall (fun c => helpers_fail (call_platform c)) calls ->
   HaveDevices self = false /\
   (GetNumDevices self).2 = -1 /\
   lastError (GetNumDevices self).1
     = "attempted to retrieve device count before performing device discovery") /\
  (forall calls',
      Forall (fun c => helpers_fail (call_platform c)) calls' ->
      no_call_correlated calls' DeviceDiscoveryImp_new) /\
  (forall other : DeviceDiscoveryImp,
      (GetNumDevices other).2 =
      if HaveDevices other then Z.of_nat (length (devices other)) else -1) /\
  (forall other : DeviceDiscoveryImp,
      devices other = [] ->
      (forall (A : Type) (sentinel : A) get device,
          (device_accessor sentinel get device other).2 = sentinel /\
          lastError (device_accessor sentinel get device other).1 <> "") /\
      (forall files get device file,
          (file_accessor files get device file other).2 = None /\
          lastError (file_accessor files get device file other).1 <> "")).
Proof.
  intros Hno self.
  pose proof (run_calls_not_correlated calls DeviceDiscoveryImp_new Hno) as Hd.
  fold self in Hd. simpl in Hd.
  pose proof (fun device => ValidateRequestedDevice_empty self device Hd) as Hvalidate.
  assert (Hmessage : forall device : N,
    (if HaveDevices self
     then "requested device index is invalid: " +:+ pretty device
     else "attempted to retrieve device details before performing device discovery")
    <> "").
  { intros device. by destruct (HaveDevices self). }
  split; [done|]. split; [|split; [|split; [|split; [|split; [|split]]]]].
  - unfold GetNumDevices, RETURN_SUCCESS, RETURN_ERROR.
    destruct (HaveDevices self); simpl; [|done]. by rewrite Hd.
  - intros A sentinel get device. unfold device_accessor. rewrite Hvalidate.
    pose proof (Hmessage device) as Hm.
    destruct (HaveDevices self); simpl; by repeat split.
  - intros files get device file. unfold file_accessor. rewrite Hvalidate.
    pose proof (Hmessage device) as Hm.
    destruct (HaveDevices self); simpl; by repeat split.
  - intros Hall.
    destruct (run_calls_helpers_fail calls DeviceDiscoveryImp_new Hall eq_refl eq_refl)
      as [Hw _].
    fold self in Hw. apply HaveDevices_no_wmi in Hw.
    split; [done|]. unfold GetNumDevices. by rewrite Hw.
  - intros calls' Hall. by apply helpers_fail_not_correlated.
  - intros other. unfold GetNumDevices. by destruct (HaveDevices other).
  - intros other Hother. split.
    + intros A sentinel get device. unfold device_accessor.
      rewrite (ValidateRequestedDevice_empty other device Hother).
      destruct (HaveDevices other); simpl; by repeat split.
    + intros files get device file. unfold file_accessor.
      rewrite (ValidateRequestedDevice_empty other device Hother).
      destruct (HaveDevices other); simpl; by repeat split.
Qed.

Lemma C4_no_helpers_no_devices_witness :
  let calls := [ex_call ex_no_dxcore_platform; ex_call ex_query_fails_platform] in
  let self := run_calls calls DeviceDiscoveryImp_new in
  devices self = [] /\
  (GetNumDevices self =
   if HaveDevices self
   then (SetLastErrorMessage "" self, 0)
   else (SetLastErrorMessage
           "attempted to retrieve device count before performing device discovery" self,
         -1)) /\
  (forall (A : Type) (sentinel : A) get device,
      (device_accessor sentinel get device self).2 = sentinel /\
      lastError (device_accessor sentinel get device self).1
        = (if HaveDevices self
           then "requested device index is invalid: " +:+ pretty device
           else "attempted to retrieve device details before performing device discovery") /\
      lastError (device_accessor sentinel get device self).1 <> "") /\
  (forall files get device file,
      (file_accessor files get device file self).2 = None /\
      lastError (file_accessor files get device file self).1
        = (if HaveDevices self
           then "requested device index is invalid: " +:+ pretty device
           else "attempted to retrieve device details before performing device discovery") /\
      lastError (file_accessor files get device file self).1 <> "") /\
  (Forall (fun c => helpers_fail (call_platform c)) calls ->
   HaveDevices self = false /\
   (GetNumDevices self).2 = -1 /\
   lastError (GetNumDevices self).1
     = "attempted to retrieve device count before performing device discovery") /\
  (forall calls',
      Forall (fun c => helpers_fail (call_platform c)) calls' ->
      no_call_correlated calls' DeviceDiscoveryImp_new) /\
  (forall other : DeviceDiscoveryImp,
      (GetNumDevices other).2 =
      if HaveDevices other then Z.of_nat (length (devices other)) else -1) /\
  (forall other : DeviceDiscoveryImp,
      devices other = [] ->
      (forall (A : Type) (sentinel : A) get device,
          (device_accessor sentinel get device other).2 = sentinel /\
          lastError (device_accessor sentinel get device other).1 <> "") /\
      (forall files get device file,
          (file_accessor files get device file other).2 = None /\
          lastError (file_accessor files get device file other).1 <> "")).
Proof.
  apply (C4_no_helpers_no_devices
           [ex_call ex_no_dxcore_platform; ex_call ex_query_fails_platform]).
  simpl. repeat split.
  - intros found H. vm_compute in H. discriminate H.
  - intros found H. vm_compute in H. discriminate H.
Defined.

(** ** Staleness *)







(** C5 on an example machine: no refresh is required right after a
    successful call while no list is stale, and one is required as soon
    as one of the lists is. *)
Example ex_refresh :
  let run := DiscoverDevices 2 ex_good_platform AllDevices true true DeviceDiscoveryImp_new in
  IsRefreshRequired (fun _ => true) DeviceDiscoveryImp_new = Return true /\
  run.2 = Return true /\
  IsRefreshRequired (fun _ => false) run.1 = Return false /\
  IsRefreshRequired (fun h => bool_decide (h = 3%N)) run.1 = Return true.
Proof. vm_compute. repeat split. Qed.

(** ** The runtime file lists of a session *)

Lemma FillDriverDetails_distinct_destinations fuel p device :
  distinct_destinations device ->
  distinct_destinations (FillDriverDetails fuel p device).1.
Proof.
  intros [Hnd Hnd64]. rewrite FillDriverDetails_spec.
  destruct (bind _ _) as [OutputString| | |]; simpl; try done.
  destruct (SystemRoot p) as [systemRoot|what]; simpl; [|by destruct device].
  destruct (contains _ _); simpl; [by destruct device|].
  split; simpl; by repeat apply fold_add_runtime_file_NoDup.
Qed.

Lemma fill_driver_details_distinct_destinations fuel p found :
  Forall distinct_destinations found ->
  Forall distinct_destinations (fill_driver_details fuel p found).1.
Proof.
  induction 1 as [|device rest Hd Hrest IH]; simpl; [constructor|].
  pose proof (FillDriverDetails_distinct_destinations fuel p device Hd) as Hd'.
  destruct (FillDriverDetails fuel p device) as [device' [[]|e| |]]; simpl in *;
    try (by constructor).
  destruct (fill_driver_details fuel p rest) as [rest' r]. simpl in *. by constructor.
Qed.

Lemma match_devices_distinct_destinations self (adapters : gmap Z Adapter)
    enumerator devices found :
  match_devices self adapters enumerator devices = Return found ->
  Forall distinct_destinations devices ->
  Forall distinct_destinations found.
Proof.
  revert devices. induction enumerator as [|next rest IH]; intros devices H Hd; simpl in H.
  - by inversion H; subst.
  - destruct next as [device|msg]; simpl in H; [|by inversion H].
    destruct (ExtractDeviceDetails self device) as [details| | |] eqn:He; simpl in H;
      try by inversion H.
    apply ExtractDeviceDetails_RuntimeFiles in He as [Hf Hf64].
    destruct (adapters !! InstanceLuid (DeviceAdapter details)) as [matchingAdapter|];
      [|by eapply IH].
    eapply IH; [exact H|]. apply Forall_app. split; [done|].
    constructor; [|constructor]. split; simpl; [rewrite Hf | rewrite Hf64]; constructor.
Qed.

(** In every session reached from a new one by [DiscoverDevices] calls,
    whatever their outcomes, the destination names of each runtime file
    list of each device are pairwise distinct. *)
Lemma run_calls_distinct_destinations calls :
  Forall distinct_destinations (devices (run_calls calls DeviceDiscoveryImp_new)).
Proof.
  assert (Hstep : forall fuel p flt ii id self,
    Forall distinct_destinations (devices self) ->
    Forall distinct_destinations (devices (DiscoverDevices fuel p flt ii id self).1)).
  { intros fuel p flt ii id self Hself. unfold DiscoverDevices.
    destruct (DiscoverDevices_try fuel p flt ii id self) as [s' r] eqn:Htry.
    assert (Hs' : Forall distinct_destinations (devices s')).
    { apply DiscoverDevices_try_spec in Htry as (_ & _ & Hm).
      unfold correlation_stage in Hm.
      destruct (create_helpers p self) as [s1 r1].
      destruct r1 as [[]|e1| |]; simpl in Hm; try (destruct Hm as [-> _]; done).
      destruct (enumeration s1) as [e|]; [|destruct Hm as [-> _]; done].
      destruct (wmi s1) as [w|]; [|destruct Hm as [-> _]; done].
      destruct (EnumerateAdapters p flt ii id e) as [e' r2].
      destruct r2 as [[]|e2| |]; simpl in Hm; try (destruct Hm as [-> _]; done).
      destruct (GetDevicesForAdapters p w (GetUniqueAdapters e')) as [found|e3| |] eqn:Hg;
        try (destruct Hm as [-> _]; done).
      destruct Hm as [Hfill _].
      pose proof (fill_driver_details_distinct_destinations fuel p found) as Hfd.
      rewrite Hfill in Hfd. simpl in Hfd. apply Hfd.
      unfold GetDevicesForAdapters in Hg. case_bool_decide.
      - inversion Hg; subst. constructor.
      - match type of Hg with
        | context [ExecQuery p ?q] =>
            destruct (ExecQuery p q) as [enumerator|msg]; simpl in Hg; [|by inversion Hg]
        end.
        eapply match_devices_distinct_destinations; [exact Hg | constructor]. }
    by destruct r as [[]|[err|what|what|what|what]| |]. }
  unfold run_calls.
  generalize DeviceDiscoveryImp_new,
    (Forall_nil_2 distinct_destinations : Forall _ (devices DeviceDiscoveryImp_new)).
  induction calls as [|c calls IH]; intros self Hself; simpl; [done|].
  apply IH. by apply Hstep.
Qed.

(* ================================================================= *)
(** * Further properties of the code *)

(** ** Adapter enumeration *)

(** X1: whatever the outcome of an enumeration pass, every adapter of the
    set of unique adapters is stored under its own LUID, is a hardware
    adapter, is integrated only if integrated adapters were asked for, and
    is detachable only if detachable adapters were asked for. *)
Theorem X1_enumerated_adapters_are_gated p flt ii id self :
  map_Forall (fun k a =>
      InstanceLuid a = k /\
      IsHardware a = true /\
      (IsIntegrated a = true -> ii = true) /\
      (IsDetachable a = true -> id = true))
    (uniqueAdapters (EnumerateAdapters p flt ii id self).1).
Proof.
  eapply map_Forall_impl; [apply EnumerateAdapters_entries|].
  intros k a (Hk & Hs & _). simpl. split; [done|].
  unfold survives in Hs.
  destruct (IsHardware a); simpl in Hs; [|discriminate].
  destruct (_ || _); [discriminate|].
  destruct (IsIntegrated a), ii; simpl in Hs; try discriminate;
    destruct (IsDetachable a), id; simpl in Hs; try discriminate; done.
Qed.

Lemma process_adapter_list_ext flt1 flt2 ii id adapters index unique :
  (forall d, survives flt1 ii id d = survives flt2 ii id d) ->
  process_adapter_list flt1 ii id adapters index unique
  = process_adapter_list flt2 ii id adapters index unique.
Proof.
  intros Hs. revert index unique.
  induction adapters as [|r rest IH]; intros index unique; simpl; [done|].
  destruct (bind _ _) as [details|e| |]; try done. by rewrite Hs, IH.
Qed.

Lemma process_adapter_lists_ext flt1 flt2 ii id lists unique :
  (forall d, survives flt1 ii id d = survives flt2 ii id d) ->
  process_adapter_lists flt1 ii id lists unique
  = process_adapter_lists flt2 ii id lists unique.
Proof.
  intros Hs. revert unique.
  induction lists as [|l lists IH]; intros unique; simpl; [done|].
  destruct l as [l|]; [|done].
  rewrite (process_adapter_list_ext flt1 flt2) by done.
  destruct (process_adapter_list flt2 ii id (GetAdapter l) 0 unique) as [u [[]|e| |]];
    try done; apply IH.
Qed.

(** X2: the filters [DisplaySupported] and [ComputeSupported] select
    nothing: an enumeration pass with either of them asks for the same
    adapter lists, keeps the same adapters and ends the same way as a pass
    with [AllDevices]; their filtering conditions do not look at the
    capability flags of an adapter. *)
Theorem X2_supported_filters_filter_nothing p ii id self :
  EnumerateAdapters p DisplaySupported ii id self
    = EnumerateAdapters p AllDevices ii id self /\
  EnumerateAdapters p ComputeSupported ii id self
    = EnumerateAdapters p AllDevices ii id self /\
  (forall d,
      survives DisplaySupported ii id d
        = IsHardware d && (negb (IsIntegrated d) || ii) && (negb (IsDetachable d) || id) /\
      survives ComputeSupported ii id d
        = IsHardware d && (negb (IsIntegrated d) || ii) && (negb (IsDetachable d) || id)).
Proof.
  assert (Hd : forall d, survives DisplaySupported ii id d = survives AllDevices ii id d)
    by done.
  assert (Hc : forall d, survives ComputeSupported ii id d = survives AllDevices ii id d)
    by done.
  split; [|split].
  - unfold EnumerateAdapters.
    rewrite !(bool_decide_eq_true_2 (DisplaySupported ≠ _)) by done.
    rewrite !(bool_decide_eq_true_2 (AllDevices ≠ _)) by done.
    match goal with |- and_then ?s0 _ = _ => destruct s0 as [s [[]|e| |]] end;
      simpl; try done.
    by rewrite (process_adapter_lists_ext DisplaySupported AllDevices).
  - unfold EnumerateAdapters.
    rewrite !(bool_decide_eq_true_2 (ComputeSupported ≠ _)) by done.
    rewrite !(bool_decide_eq_true_2 (AllDevices ≠ _)) by done.
    match goal with |- and_then ?s0 _ = _ => destruct s0 as [s [[]|e| |]] end;
      simpl; try done.
    by rewrite (process_adapter_lists_ext ComputeSupported AllDevices).
  - intros d. rewrite Hd, Hc, survives_AllDevices. done.
Qed.

(** With [DisplaySupported] a pass keeps an adapter that supports neither
    Direct3D 11 nor Direct3D 12 graphics. *)
Example ex_display_supported_keeps_compute_only :
  let adapter := ex_adapter 7 1 false false false in
  let p := ex_platform
             (fun _ => Succeeded (mkDXCoreAdapterList 1 [Succeeded adapter]))
             (Succeeded []) (fun _ => Succeeded 1%N) ex_no_registry in
  SupportsDisplay <$>
    uniqueAdapters (EnumerateAdapters p DisplaySupported true true
                      (mkAdapterEnumeration [] ∅)).1 !! 7
  = Some false.
Proof. by vm_compute. Qed.

(** X3: an enumeration pass that completes holds exactly the adapter lists
    of the attributes of its filter, in order: Direct3D 11, Direct3D 12
    and core compute for [AllDevices], [DisplaySupported] and
    [ComputeSupported]; Direct3D 11 and Direct3D 12 for [DisplayOnly];
    core compute alone for [ComputeOnly]; Direct3D 12 and core compute
    for [DisplayAndCompute]. *)
Theorem X3_adapter_lists_requested p flt ii id self :
  (EnumerateAdapters p flt ii id self).2 = Return tt ->
  exists lists,
    Forall2 (fun attribute l => CreateAdapterList p attribute = Succeeded l)
      (requested_attributes flt) lists /\
    adapterLists (EnumerateAdapters p flt ii id self).1 = map Some lists.
Proof.
  unfold EnumerateAdapters, ENUMERATE_ADAPTERS.
  destruct flt;
    repeat match goal with
           | |- context [bool_decide ?P] =>
               let b := eval vm_compute in (bool_decide P) in
               change (bool_decide P) with b
           end;
    cbn -[process_adapter_lists];
    repeat match goal with
           | |- context [CreateAdapterList p ?a] =>
               destruct (CreateAdapterList p a) eqn:?;
               cbn -[process_adapter_lists]; try discriminate
           end;
    match goal with
    | |- context [process_adapter_lists ?f ii id ?l ?u] =>
        destruct (process_adapter_lists f ii id l u) as [u' r']
    end;
    intros _; cbn [fst adapterLists];
    lazymatch goal with
    | |- ex (fun _ => _ /\ [Some ?a; Some ?b; Some ?c] = _) => exists [a; b; c]
    | |- ex (fun _ => _ /\ [Some ?a; Some ?b] = _) => exists [a; b]
    | |- ex (fun _ => _ /\ [Some ?a] = _) => exists [a]
    end;
    (split; [repeat constructor; done | reflexivity]).
Qed.

Lemma X3_adapter_lists_requested_witness :
  exists lists,
    Forall2 (fun attribute l =>
               CreateAdapterList ex_duplicate_platform attribute = Succeeded l)
      (requested_attributes DisplayAndCompute) lists /\
    adapterLists (EnumerateAdapters ex_duplicate_platform DisplayAndCompute true true
                    (mkAdapterEnumeration [] ∅)).1 = map Some lists.
Proof.
  apply (X3_adapter_lists_requested ex_duplicate_platform DisplayAndCompute true true
           (mkAdapterEnumeration [] ∅)).
  vm_compute. reflexivity.
Defined.

Lemma any_list_stale_null stale pre post :
  Forall is_Some pre ->
  (forall l, Some l ∈ pre -> stale (hList l) = false) ->
  any_list_stale stale (pre ++ None :: post) = NullDeref.
Proof.
  induction 1 as [|l0 pre [l' ->] _ IH]; intros Hs; simpl; [done|].
  rewrite (Hs l') by left. apply IH. intros l Hin. apply Hs. by right.
Qed.

(** X4: after an enumeration pass, either every list pointer held is
    valid, or the pass has thrown while creating an adapter list: then the
    last pointer held, and only the last, is null, the set of unique
    adapters is empty, and [IsStale] calls through the null pointer unless
    one of the lists created before it is stale. *)
Theorem X4_failed_list_creation_leaves_null p flt ii id self :
  let run := EnumerateAdapters p flt ii id self in
  Forall is_Some (adapterLists run.1) \/
  exists pre,
    adapterLists run.1 = pre ++ [None] /\
    Forall is_Some pre /\
    uniqueAdapters run.1 = ∅ /\
    (exists err, run.2 = Throw (ExDeviceDiscoveryError err)) /\
    (forall stale,
        (forall l, Some l ∈ pre -> stale (hList l) = false) ->
        IsStale stale run.1 = NullDeref).
Proof.
  intros run. subst run. unfold EnumerateAdapters.
  set (s0 := mkAdapterEnumeration [] ∅).
  set (Q := fun (sr : AdapterEnumeration * result unit) =>
     (sr.2 = Return tt /\ Forall is_Some (adapterLists sr.1) /\ uniqueAdapters sr.1 = ∅) \/
     (exists pre,
         adapterLists sr.1 = pre ++ [None] /\ Forall is_Some pre /\
         uniqueAdapters sr.1 = ∅ /\
         exists err, sr.2 = Throw (ExDeviceDiscoveryError err))).
  assert (Hen : forall attribute ln s,
    Q (s, Return tt) -> Q (ENUMERATE_ADAPTERS p attribute ln s)).
  { intros attribute ln s [(_ & Hl & Hu)|(pre & _ & _ & _ & err & Herr)];
      [|discriminate Herr].
    unfold Q, ENUMERATE_ADAPTERS. simpl in *.
    destruct (CreateAdapterList p attribute); simpl.
    - left. repeat split; try done. apply Forall_app. split; [done|].
      by repeat constructor.
    - right. exists (adapterLists s). repeat split; try done. eauto. }
  assert (Hstep : forall (sr : AdapterEnumeration * result unit) (c : bool) attribute ln,
    Q sr -> Q (and_then sr (fun self =>
      if c then ENUMERATE_ADAPTERS p attribute ln self else (self, Return tt)))).
  { intros [s r] c attribute ln Hs.
    destruct r as [[]|e| |]; simpl; try done.
    destruct c; [by apply Hen | done]. }
  assert (H0 : Q (s0, Return tt)) by (left; repeat split; constructor).
  set (s1 := if bool_decide (flt ≠ ComputeOnly) && bool_decide (flt ≠ DisplayAndCompute)
             then ENUMERATE_ADAPTERS p DXCORE_ADAPTER_ATTRIBUTE_D3D11_GRAPHICS 42 s0
             else (s0, Return tt)).
  assert (H1 : Q s1).
  { unfold s1. destruct (_ && _); [by apply Hen | done]. }
  pose proof (Hstep s1 (bool_decide (flt ≠ ComputeOnly))
                DXCORE_ADAPTER_ATTRIBUTE_D3D12_GRAPHICS 47%N H1) as H2.
  set (s2 := and_then s1 _) in *.
  pose proof (Hstep s2 (bool_decide (flt ≠ DisplayOnly))
                DXCORE_ADAPTER_ATTRIBUTE_D3D12_CORE_COMPUTE 52%N H2) as H3.
  set (s3 := and_then s2 _) in *.
  destruct s3 as [s r].
  destruct H3 as [(Hr & Hl & Hu)|(pre & Hl & Hpre & Hu & err & Herr)]; simpl in *.
  - subst r. simpl.
    destruct (process_adapter_lists flt ii id (adapterLists s) (uniqueAdapters s)).
    by left.
  - subst r. simpl. right. exists pre. repeat split; try done; [eauto|].
    intros stale Hfresh. unfold IsStale. simpl. rewrite Hl.
    rewrite bool_decide_eq_false_2 by (by destruct pre).
    by apply any_list_stale_null.
Qed.

(** ** Registry queries *)

Lemma append_cons (c : ascii) (s1 s2 : string) :
  String c s1 +:+ s2 = String c (s1 +:+ s2).
Proof. reflexivity. Qed.

Lemma append_nil (s : string) : "" +:+ s = s.
Proof. reflexivity. Qed.

Ltac simpl_append := rewrite ?append_cons, ?append_nil.

Lemma append_assoc (s1 s2 s3 : string) : (s1 +:+ s2) +:+ s3 = s1 +:+ (s2 +:+ s3).
Proof. induction s1 as [|c s1 IH]; simpl_append; [done|]. by rewrite IH. Qed.

Lemma length_append (s1 s2 : string) :
  String.length (s1 +:+ s2) = (String.length s1 + String.length s2)%nat.
Proof. induction s1 as [|c s1 IH]; simpl_append; simpl; [done|]. by rewrite IH. Qed.

Lemma append_empty_r (s : string) : s +:+ "" = s.
Proof. induction s as [|c s IH]; simpl_append; [done|]. by rewrite IH. Qed.

Lemma drop_chars_append (pre s : string) :
  drop_chars (String.length pre) (pre +:+ s) = s.
Proof. induction pre as [|c pre IH]; simpl_append; simpl; [by destruct s|done]. Qed.

Lemma cstring_append (s rest : string) :
  no_NUL s = true -> cstring (s +:+ rest) = s +:+ cstring rest.
Proof.
  induction s as [|c s IH]; simpl_append; simpl; [done|].
  intros [Hc Hs]%andb_true_iff. destruct (Ascii.eqb c NUL); [done|].
  simpl_append. by rewrite IH.
Qed.

Lemma cstring_NUL (rest : string) : cstring (String NUL rest) = "".
Proof. reflexivity. Qed.

Lemma ExtractMultiStringValue_loop_spec strings :
  forall fuel pre tail upperBound acc,
    Forall (fun s => s <> "" /\ no_NUL s = true) strings ->
    cstring tail = "" ->
    (upperBound <= String.length pre + fuel)%nat ->
    ExtractMultiStringValue_loop fuel (pre +:+ (multi_sz strings +:+ tail))
      (String.length pre) upperBound acc
    = acc ++ strings_before upperBound (String.length pre) strings.
Proof.
  induction strings as [|s rest IH]; intros fuel pre tail upperBound acc Hok Htail Hfuel.
  - simpl. simpl_append. rewrite app_nil_r. destruct fuel as [|fuel]; simpl; [done|].
    destruct (_ <? _)%nat; [|done].
    by rewrite drop_chars_append, Htail.
  - apply Forall_cons in Hok as [[Hne Hnul] Hok].
    destruct fuel as [|fuel]; simpl.
    + rewrite (proj2 (Nat.ltb_ge _ _)) by lia. by rewrite app_nil_r.
    + destruct (_ <? _)%nat eqn:Hlt; [|by rewrite app_nil_r].
      rewrite drop_chars_append, append_assoc, cstring_append by done.
      simpl_append. rewrite cstring_NUL, append_empty_r.
      destruct (String.length s =? 0)%nat eqn:Hlen.
      { apply Nat.eqb_eq in Hlen. by destruct s. }
      pose proof (IH fuel (pre +:+ (s +:+ String NUL "")) tail upperBound (acc ++ [s]))
        as Hrec.
      rewrite !append_assoc, !append_cons, !append_nil in Hrec.
      rewrite !length_append in Hrec. simpl in Hrec.
      rewrite Nat.add_assoc in Hrec.
      rewrite Hrec; [by rewrite <- app_assoc|done..|].
      apply Nat.eqb_neq in Hlen. lia.
Qed.

(** X5: [ExtractMultiStringValue] on a buffer that holds a sequence of
    non-empty strings, each followed by a null character, and then either
    nothing or a null character and anything: it returns the strings that
    start before character [numBytes / 2], in order and in full (also the
    last of them when it extends beyond that bound), and nothing of what
    follows the terminating null character. *)
Theorem X5_multi_string_decoding strings junk numBytes :
  Forall (fun s => s <> "" /\ no_NUL s = true) strings ->
  ExtractMultiStringValue (multi_sz strings +:+ String NUL junk) numBytes
    = strings_before (numBytes / 2) 0 strings /\
  ExtractMultiStringValue (multi_sz strings) numBytes
    = strings_before (numBytes / 2) 0 strings.
Proof.
  intros Hok. unfold ExtractMultiStringValue. split.
  - apply (ExtractMultiStringValue_loop_spec strings (numBytes / 2) ""
             (String NUL junk) (numBytes / 2) []); [done|done|simpl; lia].
  - pose proof (ExtractMultiStringValue_loop_spec strings (numBytes / 2) ""
             "" (numBytes / 2) [] Hok eq_refl) as H.
    rewrite append_nil, append_empty_r in H. apply H. simpl. lia.
Qed.

Lemma X5_multi_string_decoding_witness :
  ExtractMultiStringValue (multi_sz ["nvapi64.dll"; "nvapi.dll"] +:+ String NUL "junk") 14
    = strings_before (14 / 2) 0 ["nvapi64.dll"; "nvapi.dll"] /\
  ExtractMultiStringValue (multi_sz ["nvapi64.dll"; "nvapi.dll"]) 14
    = strings_before (14 / 2) 0 ["nvapi64.dll"; "nvapi.dll"].
Proof.
  apply (X5_multi_string_decoding ["nvapi64.dll"; "nvapi.dll"] "junk" 14).
  repeat constructor; done.
Defined.

Lemma strings_before_all upperBound strings : forall offset,
  (offset + String.length (multi_sz strings) <= upperBound)%nat ->
  Forall (fun s => s <> "" /\ no_NUL s = true) strings ->
  strings_before upperBound offset strings = strings.
Proof.
  induction strings as [|s rest IH]; intros offset Hlen Hok; simpl; [done|].
  apply Forall_cons in Hok as [[Hne _] Hok].
  simpl in Hlen. rewrite length_append in Hlen. simpl in Hlen.
  rewrite (proj2 (Nat.ltb_lt _ _)) by lia.
  f_equal. apply IH; [lia|done].
Qed.

(** X6: the [REG_MULTI_SZ] layout is decoded to the strings it encodes:
    when the whole sequence lies within the first [numBytes / 2]
    characters, as it does for the data [EnumerateMultiStringValues]
    hands over, [ExtractMultiStringValue] returns exactly the sequence. *)
Theorem X6_multi_string_round_trip strings junk numBytes :
  Forall (fun s => s <> "" /\ no_NUL s = true) strings ->
  (String.length (multi_sz strings) <= numBytes / 2)%nat ->
  ExtractMultiStringValue (multi_sz strings +:+ String NUL junk) numBytes = strings.
Proof.
  intros Hok Hlen. unfold ExtractMultiStringValue.
  etrans.
  { apply (ExtractMultiStringValue_loop_spec strings (numBytes / 2) ""
             (String NUL junk) (numBytes / 2) []); [done|done|simpl; lia]. }
  simpl. by apply strings_before_all.
Qed.

Lemma X6_multi_string_round_trip_witness :
  ExtractMultiStringValue
    (multi_sz ["C:\Windows\nvapi64.dll"; "nvapi64.dll"] +:+ String NUL "") 72
  = ["C:\Windows\nvapi64.dll"; "nvapi64.dll"].
Proof.
  apply (X6_multi_string_round_trip ["C:\Windows\nvapi64.dll"; "nvapi64.dll"] "" 72).
  - repeat constructor; done.
  - vm_compute. lia.
Defined.

Lemma substring_0_0 (s : string) : String.substring 0 0 s = "".
Proof. by destruct s. Qed.

Lemma prefix_backslash (c : ascii) (s : string) :
  String.prefix (String backslash_char "") (String c s) = Ascii.eqb backslash_char c.
Proof.
  destruct (Ascii.eqb backslash_char c) eqn:Hc.
  - apply Ascii.eqb_eq in Hc. subst c. apply prefix_correct.
    simpl. by rewrite substring_0_0.
  - apply not_true_is_false. intros Hp. apply prefix_correct in Hp.
    simpl in Hp. rewrite substring_0_0 in Hp.
    injection Hp as Hp. subst c. by rewrite Ascii.eqb_refl in Hc.
Qed.

Lemma index_no_backslash (key : string) :
  no_backslash key = true ->
  String.index 0 (String backslash_char "") key = None.
Proof.
  induction key as [|c key IH]; [done|].
  intros [Hc Hkey]%andb_true_iff.
  change (String.index 0 (String backslash_char "") (String c key))
    with (if String.prefix (String backslash_char "") (String c key) then Some 0%nat
          else match String.index 0 (String backslash_char "") key with
               | Some n => Some (S n)
               | None => None
               end).
  rewrite prefix_backslash, Ascii.eqb_sym.
  apply negb_true_iff in Hc. rewrite Hc. by rewrite IH.
Qed.

Lemma index_first_backslash (root rest : string) :
  no_backslash root = true ->
  String.index 0 (String backslash_char "") (root +:+ String backslash_char rest)
    = Some (String.length root).
Proof.
  induction root as [|c root IH]; simpl_append.
  - intros _.
    change (String.index 0 (String backslash_char "") (String backslash_char rest))
      with (if String.prefix (String backslash_char "") (String backslash_char rest)
            then Some 0%nat
            else match String.index 0 (String backslash_char "") rest with
                 | Some n => Some (S n)
                 | None => None
                 end).
    by rewrite prefix_backslash, Ascii.eqb_refl.
  - intros [Hc Hroot]%andb_true_iff.
    change (String.index 0 (String backslash_char "")
              (String c (root +:+ String backslash_char rest)))
      with (if String.prefix (String backslash_char "")
                 (String c (root +:+ String backslash_char rest))
            then Some 0%nat
            else match String.index 0 (String backslash_char "")
                         (root +:+ String backslash_char rest) with
                 | Some n => Some (S n)
                 | None => None
                 end).
    rewrite prefix_backslash, Ascii.eqb_sym.
    apply negb_true_iff in Hc. rewrite Hc. by rewrite IH.
Qed.

Lemma substring_append (root rest : string) :
  String.substring 0 (String.length root) (root +:+ rest) = root.
Proof.
  induction root as [|c root IH]; simpl_append; simpl; [apply substring_0_0|].
  by rewrite IH.
Qed.

(** The registry key path [root\path] is split at its first backslash. *)
Lemma OpenKeyFromString_split p root path :
  no_backslash root = true -> path <> "" ->
  OpenKeyFromString p (root +:+ String backslash_char path) =
  if existsb (String.eqb root) rootKeys then
    check (RegOpenKeyExW p root path) RegistryQuery_cpp
      "RegistryQuery::OpenKeyFromString" 104
      ("failed to open registry key " +:+ (root +:+ String backslash_char path))
  else
    throw_CreateError ("unknown registry root key: " +:+ root)
      RegistryQuery_cpp "RegistryQuery::OpenKeyFromString" 99.
Proof.
  intros Hroot Hpath. unfold OpenKeyFromString.
  rewrite index_first_backslash by done.
  rewrite length_append. simpl.
  rewrite (proj2 (Nat.leb_gt _ _)) by (destruct path; [done|simpl; lia]).
  rewrite substring_append.
  replace (String.length root + 1)%nat
    with (String.length (root +:+ String backslash_char "")).
  2:{ rewrite length_append. simpl. lia. }
  replace (root +:+ String backslash_char path)
    with ((root +:+ String backslash_char "") +:+ path) at 1 3.
  2:{ by rewrite append_assoc. }
  rewrite drop_chars_append. by rewrite append_assoc.
Qed.

(** X7: [OpenKeyFromString] splits a key path at its first backslash.  A
    path without a backslash, or whose first backslash is its last
    character, is rejected as invalid before anything is opened; of a path
    [root\rest] with a non-empty [rest], [root] must be one of the six
    supported root key names, else it is rejected as unknown, and [rest],
    with any further backslashes it holds, is what is opened under that
    root key. *)
Theorem X7_registry_key_path_split p root rest :
  no_backslash root = true ->
  (exists err,
      OpenKeyFromString p root = Throw (ExDeviceDiscoveryError err) /\
      message err = "invalid registry key path: " +:+ root) /\
  (exists err,
      OpenKeyFromString p (root +:+ String backslash_char "")
        = Throw (ExDeviceDiscoveryError err) /\
      message err = "invalid registry key path: " +:+ root +:+ String backslash_char "") /\
  (rest <> "" ->
   (root ∈ rootKeys ->
    OpenKeyFromString p (root +:+ String backslash_char rest) =
    check (RegOpenKeyExW p root rest) RegistryQuery_cpp
      "RegistryQuery::OpenKeyFromString" 104
      ("failed to open registry key " +:+ root +:+ String backslash_char rest)) /\
   (root ∉ rootKeys ->
    exists err,
      OpenKeyFromString p (root +:+ String backslash_char rest)
        = Throw (ExDeviceDiscoveryError err) /\
      message err = "unknown registry root key: " +:+ root)).
Proof.
  intros Hroot. split; [|split].
  - unfold OpenKeyFromString. rewrite index_no_backslash by done.
    eexists. split; reflexivity.
  - unfold OpenKeyFromString. rewrite index_first_backslash by done.
    rewrite length_append. simpl.
    rewrite (proj2 (Nat.leb_le _ _)) by lia.
    eexists. split; reflexivity.
  - intros Hrest. rewrite OpenKeyFromString_split by done.
    assert (Hin : existsb (String.eqb root) rootKeys = true <-> root ∈ rootKeys).
    { rewrite existsb_exists. split.
      - intros (x & Hx & ->%String.eqb_eq). by apply list_elem_of_In.
      - intros Hx. exists root. split; [by apply list_elem_of_In|apply String.eqb_refl]. }
    split.
    + intros Hx. by rewrite (proj2 Hin Hx).
    + intros Hx.
      assert (Hex : existsb (String.eqb root) rootKeys = false)
        by (apply not_true_iff_false; by rewrite Hin).
      rewrite Hex. eexists. split; reflexivity.
Qed.

Lemma X7_registry_key_path_split_witness :
  let p := ex_registry_platform in
  let root := "HKEY_LOCAL_MACHINE" in
  let rest := "SYSTEM\CurrentControlSet" in
  (exists err,
      OpenKeyFromString p root = Throw (ExDeviceDiscoveryError err) /\
      message err = "invalid registry key path: " +:+ root) /\
  (exists err,
      OpenKeyFromString p (root +:+ String backslash_char "")
        = Throw (ExDeviceDiscoveryError err) /\
      message err = "invalid registry key path: " +:+ root +:+ String backslash_char "") /\
  (rest <> "" ->
   (root ∈ rootKeys ->
    OpenKeyFromString p (root +:+ String backslash_char rest) =
    check (RegOpenKeyExW p root rest) RegistryQuery_cpp
      "RegistryQuery::OpenKeyFromString" 104
      ("failed to open registry key " +:+ root +:+ String backslash_char rest)) /\
   (root ∉ rootKeys ->
    exists err,
      OpenKeyFromString p (root +:+ String backslash_char rest)
        = Throw (ExDeviceDiscoveryError err) /\
      message err = "unknown registry root key: " +:+ root)).
Proof.
  apply (X7_registry_key_path_split ex_registry_platform "HKEY_LOCAL_MACHINE"
           "SYSTEM\CurrentControlSet").
  reflexivity.
Defined.

(** X8: [FillDriverDetails] writes to the driver store path and the two
    runtime file lists of the device and to nothing else; when it does
    not return normally it has written nothing, unless it is the lookup
    of the environment variable [SystemRoot] that has thrown: then, and
    only then, the device holds the string of the driver store query as
    its driver store path, and nothing else of it has changed. *)
Theorem X8_driver_details_frame fuel p device :
  let run := FillDriverDetails fuel p device in
  (DeviceAdapter run.1 = DeviceAdapter device /\
   ID run.1 = ID device /\
   Description run.1 = Description device /\
   DriverRegistryKey run.1 = DriverRegistryKey device /\
   LocationPath run.1 = LocationPath device /\
   Vendor run.1 = Vendor device) /\
  (run.2 <> Return tt ->
   (run.1 = device /\ forall what, run.2 <> Throw (ExResultException what)) \/
   (exists adapter OutputString what,
       D3DKMTOpenAdapterFromLuid p (InstanceLuid (DeviceAdapter device))
         = Succeeded adapter /\
       PerformQuery fuel p adapter 0 = Return OutputString /\
       SystemRoot p = Failed what /\
       run.2 = Throw (ExResultException what) /\
       run.1 = set_DriverStorePath OutputString device)) /\
  (forall adapter OutputString what,
      D3DKMTOpenAdapterFromLuid p (InstanceLuid (DeviceAdapter device)) = Succeeded adapter ->
      PerformQuery fuel p adapter 0 = Return OutputString ->
      SystemRoot p = Failed what ->
      run = (set_DriverStorePath OutputString device, Throw (ExResultException what))).
Proof.
  intros run. subst run. split; [|split].
  - rewrite FillDriverDetails_spec.
    destruct (bind _ _) as [OutputString|e| |]; simpl; try done.
    destruct (SystemRoot p) as [systemRoot|what]; simpl; [|done].
    destruct (contains _ _); simpl; by destruct device.
  - intros Hr.
    destruct (FillDriverDetails fuel p device) as [device' r] eqn:Hrun. simpl in *.
    destruct (FillDriverDetails_not_Return _ _ _ _ _ Hrun Hr)
      as [[-> Hnot]|(adapter & OutputString & what & Ho & Hq & Hroot & -> & ->)].
    + left. split; [done|]. intros what ->.
      by destruct (Hnot _ eq_refl) as [err [=]].
    + right. by exists adapter, OutputString, what.
  - intros adapter OutputString what Hopen Hquery Hroot.
    rewrite FillDriverDetails_spec, Hopen. unfold check, bind. cbv beta iota.
    rewrite Hquery. cbv zeta. rewrite Hroot.
    unfold expand_SystemRoot. by rewrite Hroot.
Qed.

Lemma starts_with_append (prefix rest : string) :
  starts_with prefix (prefix +:+ rest) = true.
Proof.
  induction prefix as [|c prefix IH]; simpl_append; simpl; [done|].
  by rewrite Ascii.eqb_refl.
Qed.

Lemma substring_all (s : string) : String.substring 0 (String.length s) s = s.
Proof. induction s as [|c s IH]; simpl; [done|]. by rewrite IH. Qed.

Lemma substring_skip (prefix rest : string) (m : nat) :
  String.substring (String.length prefix) m (prefix +:+ rest) = String.substring 0 m rest.
Proof. induction prefix as [|c prefix IH]; simpl_append; simpl; done. Qed.

Lemma replace_prefix_append (prefix by_ rest : string) :
  replace_prefix (String.length prefix) by_ (prefix +:+ rest) = by_ +:+ rest.
Proof.
  unfold replace_prefix. rewrite length_append, substring_skip.
  replace (String.length prefix + String.length rest - String.length prefix)%nat
    with (String.length rest) by lia.
  by rewrite substring_all.
Qed.

(** X9: once the adapter is open and the driver store query has returned
    a string, the driver store path of the device depends on the lookup of
    the environment variable [SystemRoot]: when the lookup returns a
    value, the path is the string with a leading [\SystemRoot] replaced by
    that value, whatever follows the prefix, and a string that does not
    start with [\SystemRoot] is stored as it is; when the lookup throws,
    the path is the string as the query returned it and the exception
    leaves [FillDriverDetails]. *)
Theorem X9_driver_store_path_expansion fuel p device adapter OutputString :
  D3DKMTOpenAdapterFromLuid p (InstanceLuid (DeviceAdapter device)) = Succeeded adapter ->
  PerformQuery fuel p adapter 0 = Return OutputString ->
  let run := FillDriverDetails fuel p device in
  (forall systemRoot,
      SystemRoot p = Succeeded systemRoot ->
      run.2 = Return tt /\
      (forall rest,
          OutputString = String backslash_char "SystemRoot" +:+ rest ->
          DriverStorePath run.1 = systemRoot +:+ rest) /\
      (starts_with (String backslash_char "SystemRoot") OutputString = false ->
       DriverStorePath run.1 = OutputString)) /\
  (forall what,
      SystemRoot p = Failed what ->
      run.2 = Throw (ExResultException what) /\
      DriverStorePath run.1 = OutputString).
Proof.
  intros Hopen Hquery run. subst run.
  rewrite FillDriverDetails_spec, Hopen. unfold check, bind. cbv beta iota.
  rewrite Hquery. cbv zeta. unfold expand_SystemRoot. split.
  - intros systemRoot ->.
    assert (Hpath : forall path,
      (if contains "HostDriverStore" path
       then (set_DriverStorePath path device, Return tt)
       else
         (mkDevice (DeviceAdapter device) (ID device) (Description device)
            (DriverRegistryKey device) path (LocationPath device)
            (fold_left (add_runtime_file p) (subkey_values p device "CopyToVmWhenNewer")
               (fold_left (add_runtime_file p)
                  (subkey_values p device "CopyToVmOverwrite") (RuntimeFiles device)))
            (fold_left (add_runtime_file p)
               (subkey_values p device "CopyToVmWhenNewerWow64")
               (fold_left (add_runtime_file p)
                  (subkey_values p device "CopyToVmOverwriteWow64")
                  (RuntimeFilesWow64 device)))
            (Vendor device),
          Return tt)).2 = Return tt /\
      DriverStorePath
        (if contains "HostDriverStore" path
         then (set_DriverStorePath path device, Return tt)
         else
           (mkDevice (DeviceAdapter device) (ID device) (Description device)
              (DriverRegistryKey device) path (LocationPath device)
              (fold_left (add_runtime_file p) (subkey_values p device "CopyToVmWhenNewer")
                 (fold_left (add_runtime_file p)
                    (subkey_values p device "CopyToVmOverwrite") (RuntimeFiles device)))
              (fold_left (add_runtime_file p)
                 (subkey_values p device "CopyToVmWhenNewerWow64")
                 (fold_left (add_runtime_file p)
                    (subkey_values p device "CopyToVmOverwriteWow64")
                    (RuntimeFilesWow64 device)))
              (Vendor device),
            Return tt)).1 = path).
    { intros path. by destruct (contains _ path). }
    split; [apply Hpath|]. rewrite (proj2 (Hpath _)). split.
    + intros rest ->. by rewrite starts_with_append, replace_prefix_append.
    + by intros ->.
  - by intros what ->.
Qed.

Lemma X9_driver_store_path_expansion_witness :
  let p := ex_registry_platform in
  let OutputString := "\SystemRoot\System32\DriverStore\FileRepository\ex.inf" in
  let run := FillDriverDetails 2 p ex_device in
  (forall systemRoot,
      SystemRoot p = Succeeded systemRoot ->
      run.2 = Return tt /\
      (forall rest,
          OutputString = String backslash_char "SystemRoot" +:+ rest ->
          DriverStorePath run.1 = systemRoot +:+ rest) /\
      (starts_with (String backslash_char "SystemRoot") OutputString = false ->
       DriverStorePath run.1 = OutputString)) /\
  (forall what,
      SystemRoot p = Failed what ->
      run.2 = Throw (ExResultException what) /\
      DriverStorePath run.1 = OutputString).
Proof.
  apply (X9_driver_store_path_expansion 2 ex_registry_platform ex_device 1%N
           "\SystemRoot\System32\DriverStore\FileRepository\ex.inf").
  - reflexivity.
  - vm_compute. reflexivity.
Defined.

Lemma subkey_values_no_driver_key p device key :
  DriverRegistryKey device = "" -> subkey_values p device key = [].
Proof.
  intros Hkey. unfold subkey_values. rewrite Hkey.
  destruct key as [|c key].
  - by vm_compute.
  - rewrite append_nil, append_cons, append_nil.
    pose proof (OpenKeyFromString_split p "" (String c key) eq_refl) as Hsplit.
    rewrite append_nil in Hsplit. rewrite Hsplit by done.
    reflexivity.
Qed.

(** X10: driver metadata resolution reads no runtime file from the
    registry, and leaves both runtime file lists of the device as they
    were, when the device has no driver registry key, and when the driver
    store path (after expansion) holds [HostDriverStore], as it does inside
    a container. *)
Theorem X10_no_runtime_files fuel p device :
  DriverRegistryKey device = "" \/
  (exists adapter OutputString,
      D3DKMTOpenAdapterFromLuid p (InstanceLuid (DeviceAdapter device)) = Succeeded adapter /\
      PerformQuery fuel p adapter 0 = Return OutputString /\
      contains "HostDriverStore" (expand_SystemRoot p OutputString) = true) ->
  RuntimeFiles (FillDriverDetails fuel p device).1 = RuntimeFiles device /\
  RuntimeFilesWow64 (FillDriverDetails fuel p device).1 = RuntimeFilesWow64 device.
Proof.
  intros [Hkey|(adapter & OutputString & Hopen & Hquery & Hcontainer)];
    rewrite FillDriverDetails_spec.
  - destruct (bind _ _) as [OutputString|e| |]; try done.
    cbv zeta. destruct (SystemRoot p) as [systemRoot|what]; [|done].
    destruct (contains _ _); [done|].
    rewrite !subkey_values_no_driver_key by done. done.
  - rewrite Hopen. unfold check, bind. cbv beta iota.
    rewrite Hquery. cbv zeta. rewrite Hcontainer.
    by destruct (SystemRoot p).
Qed.

Lemma X10_no_runtime_files_witness :
  RuntimeFiles
    (FillDriverDetails 2 ex_registry_platform (set_DriverRegistryKey "" ex_device)).1
    = RuntimeFiles (set_DriverRegistryKey "" ex_device) /\
  RuntimeFilesWow64
    (FillDriverDetails 2 ex_registry_platform (set_DriverRegistryKey "" ex_device)).1
    = RuntimeFilesWow64 (set_DriverRegistryKey "" ex_device).
Proof.
  apply (X10_no_runtime_files 2 ex_registry_platform (set_DriverRegistryKey "" ex_device)).
  left. reflexivity.
Defined.

(** X11: the value [driver] of the [DEVPKEY_Device_Driver] property of a
    PnP device is what selects the registry keys read for its runtime
    files: the property sets the driver registry key to the class key of
    [HKEY_LOCAL_MACHINE] followed by [driver], and the sub-key [key] of a
    device with that driver registry key is opened under the root key
    [HKEY_LOCAL_MACHINE] at the path
    [SYSTEM\CurrentControlSet\Control\Class\driver\key]; [driver] is taken
    as it is. *)
Theorem X11_driver_property_selects_registry_path p self driver details key :
  let class := "SYSTEM\CurrentControlSet\Control\Class\" in
  let details' :=
    set_DriverRegistryKey ("HKEY_LOCAL_MACHINE" +:+ String backslash_char (class +:+ driver))
      details in
  apply_property self "DEVPKEY_Device_Driver" (VT_BSTR driver) details = Return details' /\
  enumerate_subkey p details' key =
    (registryKey <-
       check (RegOpenKeyExW p "HKEY_LOCAL_MACHINE"
                (class +:+ driver +:+ String backslash_char key))
         RegistryQuery_cpp "RegistryQuery::OpenKeyFromString" 104
         ("failed to open registry key " +:+ DriverRegistryKey details'
            +:+ String backslash_char key) ;;
     EnumerateMultiStringValues registryKey).
Proof.
  intros class details'. split; [reflexivity|].
  assert (Hkey : DriverRegistryKey details' +:+ String backslash_char key
                 = "HKEY_LOCAL_MACHINE"
                   +:+ String backslash_char (class +:+ driver +:+ String backslash_char key)).
  { change (DriverRegistryKey details')
      with ("HKEY_LOCAL_MACHINE" +:+ String backslash_char (class +:+ driver)).
    rewrite (append_assoc "HKEY_LOCAL_MACHINE"), (append_cons backslash_char).
    by rewrite (append_assoc class). }
  clearbody details'. unfold enumerate_subkey.
  change (DriverRegistryKey details' +:+ String backslash_char "" +:+ key)
    with (DriverRegistryKey details' +:+ String backslash_char key).
  rewrite Hkey.
  rewrite (OpenKeyFromString_split p "HKEY_LOCAL_MACHINE"); [done|done|].
  by destruct driver.
Qed.

Lemma compare_Lt_trans (a b c : string) :
  String.compare a b = Lt -> String.compare b c = Lt -> String.compare a c = Lt.
Proof.
  intros Hab Hbc.
  assert (Hle : String.le a c).
  { transitivity b; unfold String.le, String.leb; [by rewrite Hab | by rewrite Hbc]. }
  unfold String.le, String.leb in Hle.
  destruct (String.compare a c) eqn:Hac; [|done|done].
  apply String.compare_eq_iff in Hac. subst c.
  rewrite String.compare_antisym, Hab in Hbc. discriminate.
Qed.

Lemma wmap_insert_lower_bound {V : Type} (x k : string) (v : V) m :
  String.compare x k = Lt ->
  Forall (fun y => String.compare x y = Lt) (map fst m) ->
  Forall (fun y => String.compare x y = Lt) (map fst (wmap_insert k v m)).
Proof.
  intros Hx. induction m as [|[k' v'] m IH]; simpl; intros Hm.
  - by repeat constructor.
  - apply Forall_cons in Hm as [Hk' Hm].
    destruct (String.compare k k'); simpl; repeat constructor; auto.
Qed.

Lemma wmap_insert_ascending {V : Type} (k : string) (v : V) m :
  names_ascending (map fst m) -> names_ascending (map fst (wmap_insert k v m)).
Proof.
  induction m as [|[k' v'] m IH]; simpl; [done|].
  intros [Hk' Hm]. destruct (String.compare k k') eqn:Hc; simpl.
  - done.
  - split; [|done]. constructor; [done|].
    eapply Forall_impl; [apply Hk'|]. intros y Hy. simpl in Hy.
    by eapply compare_Lt_trans.
  - split; [|by apply IH]. apply wmap_insert_lower_bound; [|done].
    by rewrite String.compare_antisym, Hc.
Qed.

Lemma wmap_insert_elem_of {V : Type} (k : string) (v : V) m entry :
  entry ∈ wmap_insert k v m -> entry ∈ m \/ entry = (k, v).
Proof.
  induction m as [|[k' v'] m IH]; simpl.
  - intros ->%list_elem_of_singleton. by right.
  - destruct (String.compare k k'); [by left| |].
    + intros [->|H]%elem_of_cons; [by right|by left].
    + intros [->|H]%elem_of_cons; [left; by left|].
      destruct (IH H) as [H'|H']; [left; by right|by right].
Qed.

Lemma wmap_insert_names {V : Type} (k : string) (v : V) m :
  k ∈ map fst (wmap_insert k v m) /\
  (forall x, x ∈ map fst m -> x ∈ map fst (wmap_insert k v m)).
Proof.
  induction m as [|[k' v'] m [IHk IHm]]; simpl.
  - split; [by left|]. intros x Hx. by apply elem_of_nil in Hx.
  - destruct (String.compare k k') eqn:Hc; simpl.
    + apply String.compare_eq_iff in Hc. subst k'. split; [by left|done].
    + split; [by left|]. intros x Hx. by right.
    + split; [by right|].
      intros x [->|Hx]%elem_of_cons; [by left|right; by apply IHm].
Qed.

Lemma enumerate_values_Return key : forall values out,
  enumerate_values key values = Return out ->
  (names_ascending (map fst values) -> names_ascending (map fst out)) /\
  (forall entry, entry ∈ out ->
     entry ∈ values \/ exists value, Succeeded value ∈ key /\ entry = value_entry value) /\
  (forall x, x ∈ map fst values -> x ∈ map fst out) /\
  (forall value, Succeeded value ∈ key -> valueName value ∈ map fst out) /\
  Forall multi_string_value key.
Proof.
  induction key as [|r key IH]; intros values out H; simpl in H.
  - injection H as <-. repeat split; try done.
    + intros entry Hin. by left.
    + intros value Hin. by apply elem_of_nil in Hin.
  - destruct r as [value|msg]; simpl in H; [|done].
    destruct (valueType value =? REG_MULTI_SZ)%N eqn:Htype; simpl in H; [|done].
    apply N.eqb_eq in Htype.
    apply IH in H as (Hsorted & Hfrom & Hkeep & Hnames & Hgood).
    pose proof (wmap_insert_names (valueName value)
      (ExtractMultiStringValue (valueData value) (2 * String.length (valueData value)))
      values) as [Hk Hm].
    repeat split.
    + intros Hv. by apply Hsorted, wmap_insert_ascending.
    + intros entry Hin. destruct (Hfrom entry Hin) as [Hi|(value' & Hv & ->)].
      * apply wmap_insert_elem_of in Hi as [Hi| ->]; [by left|].
        right. exists value. split; [by left|done].
      * right. exists value'. split; [by right|done].
    + intros x Hx. by apply Hkeep, Hm.
    + intros value' [[= ->]|Hin]%elem_of_cons; [by apply Hkeep|by apply Hnames].
    + by constructor.
Qed.

(** X12: the values [EnumerateMultiStringValues] returns are in strictly
    ascending order of their names, not in the order of the registry;
    each is made of a value of the key (its name, and its data decoded as
    a multi-string), and every value name of the key has an entry. *)
Theorem X12_enumerated_values_sorted key values :
  EnumerateMultiStringValues key = Return values ->
  names_ascending (map fst values) /\
  (forall entry, entry ∈ values ->
     exists value, Succeeded value ∈ key /\ entry = value_entry value) /\
  (forall value, Succeeded value ∈ key -> valueName value ∈ map fst values).
Proof.
  intros H. apply enumerate_values_Return in H as (Hsorted & Hfrom & _ & Hnames & _).
  split; [by apply Hsorted|]. split; [|done].
  intros entry Hin. destruct (Hfrom entry Hin) as [Hnil|Hvalue]; [|done].
  by apply elem_of_nil in Hnil.
Qed.

Lemma X12_enumerated_values_sorted_witness :
  let key := [ ex_multi_sz "b" "nv\y.dll"; ex_multi_sz "a" "nv\x.dll" ] in
  let values := [ ("a", ["nv\x.dll"]); ("b", ["nv\y.dll"]) ] in
  names_ascending (map fst values) /\
  (forall entry, entry ∈ values ->
     exists value, Succeeded value ∈ key /\ entry = value_entry value) /\
  (forall value, Succeeded value ∈ key -> valueName value ∈ map fst values).
Proof.
  apply (X12_enumerated_values_sorted
           [ ex_multi_sz "b" "nv\y.dll"; ex_multi_sz "a" "nv\x.dll" ]
           [ ("a", ["nv\x.dll"]); ("b", ["nv\y.dll"]) ]).
  vm_compute. reflexivity.
Defined.

(** X13: one value of a sub-key that is not of type [REG_MULTI_SZ], or one
    failure of [RegEnumValueW], makes the enumeration of the sub-key throw
    a [DeviceDiscoveryError]; [ProcessRuntimeFiles] then returns with the
    device as it was, without any of the files of the other values of the
    sub-key. *)
Theorem X13_bad_value_discards_subkey p key isWow64 device registryKey :
  OpenKeyFromString p (DriverRegistryKey device +:+ String backslash_char "" +:+ key)
    = Return registryKey ->
  ~ Forall multi_string_value registryKey ->
  (exists err, EnumerateMultiStringValues registryKey = Throw (ExDeviceDiscoveryError err)) /\
  ProcessRuntimeFiles p key isWow64 device = (device, Return tt).
Proof.
  intros Hopen Hbad.
  assert (Hthrow : exists err,
    EnumerateMultiStringValues registryKey = Throw (ExDeviceDiscoveryError err)).
  { pose proof (enumerate_values_returns_or_throws_error registryKey []) as Hr.
    unfold EnumerateMultiStringValues.
    destruct (enumerate_values registryKey []) as [out|[err| | | |]| |] eqn:He;
      simpl in Hr; try done; [|by eexists].
    apply enumerate_values_Return in He as (_ & _ & _ & _ & Hgood). done. }
  split; [done|]. destruct Hthrow as [err Herr].
  unfold ProcessRuntimeFiles. rewrite Hopen. simpl. by rewrite Herr.
Qed.

Lemma X13_bad_value_discards_subkey_witness :
  (exists err,
      EnumerateMultiStringValues [ Succeeded (mkRegValue "a" 1 "text") ]
        = Throw (ExDeviceDiscoveryError err)) /\
  ProcessRuntimeFiles ex_registry_platform "CopyToVmWhenNewerWow64" true ex_device
    = (ex_device, Return tt).
Proof.
  apply (X13_bad_value_discards_subkey ex_registry_platform "CopyToVmWhenNewerWow64" true
           ex_device [ Succeeded (mkRegValue "a" 1 "text") ]).
  - vm_compute. reflexivity.
  - intros H. inversion H as [|r l Hr Hl]. vm_compute in Hr. discriminate.
Defined.

(** ** The driver store query *)

Lemma PerformQuery_rounds p adapter (n : nat) : forall fuel trailingBuffer size,
  buffer_of_round p adapter n trailingBuffer = Some size ->
  PerformQuery (n + fuel) p adapter trailingBuffer = PerformQuery fuel p adapter size.
Proof.
  induction n as [|n IH]; intros fuel trailingBuffer size Hround; simpl in *.
  - by injection Hround as <-.
  - destruct (D3DKMTQueryAdapterInfo p adapter trailingBuffer) as [info|msg]; [|done].
    simpl. destruct (Status info); try done. by apply IH.
Qed.

(** X14: the loop of [PerformQuery] has no bound of its own, and a query
    answered with a buffer overflow is followed by a query with exactly
    the buffer size the answer asked for: on every machine, after a round
    that ends with an overflow, and after any number of such rounds, the
    loop continues as the loop started with the size last asked for does;
    and on a machine that answers every query with a buffer overflow the
    loop never ends, whatever the number of rounds it is given. *)
Theorem X14_driver_store_query_unbounded p adapter :
  (forall fuel trailingBuffer info,
      D3DKMTQueryAdapterInfo p adapter trailingBuffer = Succeeded info ->
      Status info = D3DDDI_QUERYREGISTRY_STATUS_BUFFER_OVERFLOW ->
      PerformQuery (S fuel) p adapter trailingBuffer
        = PerformQuery fuel p adapter (OutputValueSize info)) /\
  (forall n fuel trailingBuffer size,
      buffer_of_round p adapter n trailingBuffer = Some size ->
      PerformQuery (n + fuel) p adapter trailingBuffer
        = PerformQuery fuel p adapter size) /\
  ((forall size, exists info,
       D3DKMTQueryAdapterInfo p adapter size = Succeeded info /\
       Status info = D3DDDI_QUERYREGISTRY_STATUS_BUFFER_OVERFLOW) ->
   forall fuel trailingBuffer, PerformQuery fuel p adapter trailingBuffer = OutOfFuel).
Proof.
  split; [|split].
  - intros fuel trailingBuffer info Hinfo Hstatus.
    apply (PerformQuery_rounds p adapter 1 fuel trailingBuffer (OutputValueSize info)).
    simpl. by rewrite Hinfo, Hstatus.
  - intros n fuel trailingBuffer size. apply PerformQuery_rounds.
  - intros Hoverflow.
    induction fuel as [|fuel IH]; intros trailingBuffer; simpl; [done|].
    destruct (Hoverflow trailingBuffer) as (info & -> & Hstatus). simpl.
    rewrite Hstatus. apply IH.
Qed.

(** On a machine that asks for one character more at each query the loop
    does not end, and on a machine that accepts only the size it has asked
    for the second query is made with that size. *)
Example ex_driver_store_query_sizes :
  (forall fuel, PerformQuery fuel ex_overflow_platform 1 0 = OutOfFuel) /\
  buffer_of_round ex_registry_platform 1 1 0 = Some 80%N /\
  PerformQuery 2 ex_registry_platform 1 0
    = Return "\SystemRoot\System32\DriverStore\FileRepository\ex.inf".
Proof.
  split; [|by vm_compute].
  intros fuel. generalize 0%N.
  induction fuel as [|fuel IH]; intros trailingBuffer; [done|].
  simpl. apply IH.
Qed.

Lemma PerformQuery_some_round p adapter (fuel : nat) : forall trailingBuffer,
  PerformQuery fuel p adapter trailingBuffer <> OutOfFuel ->
  exists n size,
    (n < fuel)%nat /\
    buffer_of_round p adapter n trailingBuffer = Some size /\
    match D3DKMTQueryAdapterInfo p adapter size with
    | Succeeded info => Status info <> D3DDDI_QUERYREGISTRY_STATUS_BUFFER_OVERFLOW
    | Failed _ => True
    end.
Proof.
  induction fuel as [|fuel IH]; intros trailingBuffer Hend; simpl in Hend; [done|].
  destruct (D3DKMTQueryAdapterInfo p adapter trailingBuffer) as [info|msg] eqn:Hinfo.
  - simpl in Hend. destruct (Status info) eqn:Hstatus.
    + exists 0%nat, trailingBuffer. split; [lia|]. split; [done|].
      by rewrite Hinfo, Hstatus.
    + destruct (IH _ Hend) as (n & size & Hn & Hround & Hlast).
      exists (S n), size. split; [lia|]. split; [|done].
      simpl. by rewrite Hinfo, Hstatus.
    + exists 0%nat, trailingBuffer. split; [lia|]. split; [done|].
      by rewrite Hinfo, Hstatus.
  - exists 0%nat, trailingBuffer. split; [lia|]. split; [done|]. by rewrite Hinfo.
Qed.

(** X15: the outcome of [PerformQuery] is that of the first query that is
    not answered with a buffer overflow, the queries being made with the
    sizes the answers before asked for.  If the queries number 0 to [n-1]
    are answered with an overflow and the query number [n], made with the
    size [size], is not, then with any number of rounds above [n] the loop
    ends at that query: with the output string of its answer when the call
    succeeds, whatever the status of the answer, the status
    [D3DDDI_QUERYREGISTRY_STATUS_FAIL] included, and with a
    [DeviceDiscoveryError] when the call fails.  And a loop that ends
    within its rounds ends in this way. *)
Theorem X15_driver_store_query_outcome p adapter trailingBuffer n size :
  buffer_of_round p adapter n trailingBuffer = Some size ->
  (forall fuel info,
      D3DKMTQueryAdapterInfo p adapter size = Succeeded info ->
      Status info <> D3DDDI_QUERYREGISTRY_STATUS_BUFFER_OVERFLOW ->
      PerformQuery (n + S fuel) p adapter trailingBuffer = Return (OutputString info)) /\
  (forall fuel msg,
      D3DKMTQueryAdapterInfo p adapter size = Failed msg ->
      PerformQuery (n + S fuel) p adapter trailingBuffer
        = Throw (ExDeviceDiscoveryError
                   (mkError ("D3DKMTQueryAdapterInfo failed: " +:+ msg) "D3DHelpers.cpp"
                      "QueryD3DRegistryInfo::PerformQuery" 49))) /\
  (forall fuel,
      PerformQuery fuel p adapter trailingBuffer <> OutOfFuel ->
      exists n' size',
        (n' < fuel)%nat /\
        buffer_of_round p adapter n' trailingBuffer = Some size' /\
        match D3DKMTQueryAdapterInfo p adapter size' with
        | Succeeded info =>
            Status info <> D3DDDI_QUERYREGISTRY_STATUS_BUFFER_OVERFLOW /\
            PerformQuery fuel p adapter trailingBuffer = Return (OutputString info)
        | Failed msg =>
            PerformQuery fuel p adapter trailingBuffer
              = Throw (ExDeviceDiscoveryError
                         (mkError ("D3DKMTQueryAdapterInfo failed: " +:+ msg)
                            "D3DHelpers.cpp" "QueryD3DRegistryInfo::PerformQuery" 49))
        end).
Proof.
  intros Hround. split; [|split].
  - intros fuel info Hinfo Hstatus.
    rewrite (PerformQuery_rounds p adapter n (S fuel) trailingBuffer size Hround).
    simpl. rewrite Hinfo. simpl. by destruct (Status info).
  - intros fuel msg Hinfo.
    rewrite (PerformQuery_rounds p adapter n (S fuel) trailingBuffer size Hround).
    simpl. by rewrite Hinfo.
  - intros fuel Hend.
    destruct (PerformQuery_some_round p adapter fuel trailingBuffer Hend)
      as (n' & size' & Hn & Hround' & Hlast).
    exists n', size'. split; [done|]. split; [done|].
    replace fuel with (n' + S (fuel - S n'))%nat by lia.
    rewrite (PerformQuery_rounds p adapter n' _ trailingBuffer size' Hround').
    simpl.
    destruct (D3DKMTQueryAdapterInfo p adapter size') as [info|msg]; simpl; [|done].
    split; [done|]. by destruct (Status info).
Qed.

Lemma X15_driver_store_query_outcome_witness :
  let p := ex_fail_status_platform in
  (forall fuel info,
      D3DKMTQueryAdapterInfo p 1 0 = Succeeded info ->
      Status info <> D3DDDI_QUERYREGISTRY_STATUS_BUFFER_OVERFLOW ->
      PerformQuery (0 + S fuel) p 1 0 = Return (OutputString info)) /\
  (forall fuel msg,
      D3DKMTQueryAdapterInfo p 1 0 = Failed msg ->
      PerformQuery (0 + S fuel) p 1 0
        = Throw (ExDeviceDiscoveryError
                   (mkError ("D3DKMTQueryAdapterInfo failed: " +:+ msg) "D3DHelpers.cpp"
                      "QueryD3DRegistryInfo::PerformQuery" 49))) /\
  (forall fuel,
      PerformQuery fuel p 1 0 <> OutOfFuel ->
      exists n' size',
        (n' < fuel)%nat /\
        buffer_of_round p 1 n' 0 = Some size' /\
        match D3DKMTQueryAdapterInfo p 1 size' with
        | Succeeded info =>
            Status info <> D3DDDI_QUERYREGISTRY_STATUS_BUFFER_OVERFLOW /\
            PerformQuery fuel p 1 0 = Return (OutputString info)
        | Failed msg =>
            PerformQuery fuel p 1 0
              = Throw (ExDeviceDiscoveryError
                         (mkError ("D3DKMTQueryAdapterInfo failed: " +:+ msg)
                            "D3DHelpers.cpp" "QueryD3DRegistryInfo::PerformQuery" 49))
        end).
Proof.
  apply (X15_driver_store_query_outcome ex_fail_status_platform 1 0 0 0).
  reflexivity.
Defined.

(** With the status [D3DDDI_QUERYREGISTRY_STATUS_FAIL] the loop returns the
    output string of the answer, and driver metadata resolution goes on
    with it. *)
Example ex_fail_status_is_returned :
  PerformQuery 1 ex_fail_status_platform 1 0 = Return "" /\
  (FillDriverDetails 1 ex_fail_status_platform ex_device).2 = Return tt /\
  DriverStorePath (FillDriverDetails 1 ex_fail_status_platform ex_device).1 = "".
Proof. by vm_compute. Qed.

(** ** Error objects for status codes *)

Lemma find_last_of_no_newline (s : string) (pos : nat) :
  no_newline s = true -> find_last_of [CR; LF] s pos = None.
Proof.
  revert pos. induction s as [|c s IH]; intros pos; simpl; [done|].
  intros [Hc Hs]%andb_true_iff. rewrite IH by done.
  apply negb_true_iff in Hc. unfold is_newline in Hc. simpl in Hc. by rewrite Hc.
Qed.

Lemma find_last_of_last_newline (a : string) (c : ascii) (b : string) (pos : nat) :
  is_newline c = true -> no_newline b = true ->
  find_last_of [CR; LF] (a +:+ String c b) pos = Some (pos + String.length a)%nat.
Proof.
  intros Hc Hb. revert pos. induction a as [|x a IH]; intros pos; simpl_append.
  - simpl. rewrite find_last_of_no_newline by done.
    unfold is_newline in Hc. simpl in Hc. rewrite Hc. f_equal. lia.
  - simpl. rewrite IH. f_equal. lia.
Qed.

Lemma pad_left_length (missing : nat) (s : string) :
  String.length (pad_left missing s) = (missing + String.length s)%nat.
Proof. induction missing as [|m IH]; simpl; [done|]. by rewrite IH. Qed.

Lemma to_hex_go_length (fuel : nat) : forall (k : nat) (n : N) (acc : string),
  (n < 16 ^ N.of_nat (S k))%N ->
  (String.length (to_hex_go fuel n acc) <= String.length acc + S k)%nat.
Proof.
  induction fuel as [|fuel IH]; intros k n acc Hn; simpl; [lia|].
  destruct (n / 16 =? 0)%N eqn:Hq; [simpl; lia|].
  apply N.eqb_neq in Hq.
  destruct k as [|k].
  { exfalso. apply Hq. apply N.div_small. exact Hn. }
  etrans; [apply (IH k)|simpl; lia].
  apply N.Div0.div_lt_upper_bound.
  rewrite (Nat2N.inj_succ (S k)), N.pow_succ_r' in Hn. exact Hn.
Qed.

Lemma format_hex_length_8 (n : N) :
  (n < 2 ^ 32)%N -> String.length (format_hex 8 n) = 8%nat.
Proof.
  intros Hn. unfold format_hex. rewrite pad_left_length.
  pose proof (to_hex_go_length (S (N.to_nat (N.log2 n))) 7 n "" Hn) as Hlen.
  simpl String.length in Hlen at 2. lia.
Qed.

(** X16: [ErrorForNtStatus] makes an error of a negative status only.  For
    a status that is not negative the object it returns tests false,
    whatever text the system holds for the code.  For a negative status for
    which the system has no text, the message is the fixed sentence followed
    by the status as an unsigned 32-bit number in exactly eight hexadecimal
    digits, and the object tests true. *)
Theorem X16_status_classification status text fl fn ln :
  ((0 <= status)%Z -> error_bool (ErrorForNtStatus status text fl fn ln) = false) /\
  ((status < 0)%Z ->
   let e := ErrorForNtStatus status "" fl fn ln in
   let digits := format_hex 8 (Z.to_N (status mod 2 ^ 32)) in
   message e = "Unable to retrieve error message for NTSTATUS code 0x" +:+ digits /\
   String.length digits = 8%nat /\
   error_bool e = true /\
   file e = fl /\ function e = fn /\ line e = ln).
Proof.
  split.
  - intros Hs. unfold ErrorForNtStatus.
    by rewrite (proj2 (Z.ltb_ge _ _)) by done.
  - intros Hs e digits. subst e digits. unfold ErrorForNtStatus.
    rewrite (proj2 (Z.ltb_lt _ _)) by done. simpl.
    repeat split. apply format_hex_length_8.
    pose proof (Z.mod_pos_bound status (2 ^ 32)) as Hbound.
    change (2 ^ 32)%N with (Z.to_N (2 ^ 32)).
    apply Z2N.inj_lt; lia.
Qed.

(** X17: the text the system holds for a negative status is cut at its
    last newline character, together with the character before it: a text
    that ends with a carriage return and a line feed loses exactly these
    two; a newline character at the start of the text is not removed; a
    non-empty text without a newline character is kept.  The error object made of a
    text that holds nothing before these two characters has an empty
    message, and tests false although the status is negative. *)
Theorem X17_status_message_trimming status fl fn ln :
  (status < 0)%Z ->
  (forall a x c b,
      is_newline c = true -> no_newline b = true ->
      message (ErrorForNtStatus status (a +:+ String x (String c b)) fl fn ln) = a) /\
  (forall body,
      message (ErrorForNtStatus status (body +:+ String CR (String LF "")) fl fn ln)
        = body) /\
  (forall c b,
      is_newline c = true -> no_newline b = true ->
      message (ErrorForNtStatus status (String c b) fl fn ln) = String c b) /\
  (forall text,
      text <> "" -> no_newline text = true ->
      message (ErrorForNtStatus status text fl fn ln) = text) /\
  (forall x, error_bool (ErrorForNtStatus status (String x (String LF "")) fl fn ln) = false).
Proof.
  intros Hs.
  assert (Hcut : forall a x c b,
    is_newline c = true -> no_newline b = true ->
    message (ErrorForNtStatus status (a +:+ String x (String c b)) fl fn ln) = a).
  { intros a x c b Hc Hb. unfold ErrorForNtStatus.
    rewrite (proj2 (Z.ltb_lt _ _)) by done.
    rewrite length_append. simpl String.length.
    rewrite (proj2 (Nat.ltb_lt _ _)) by lia.
    replace (a +:+ String x (String c b))
      with ((a +:+ String x "") +:+ String c b) by (by rewrite append_assoc).
    rewrite find_last_of_last_newline by done.
    rewrite length_append. simpl.
    rewrite (proj2 (Nat.eqb_neq _ _)) by lia.
    replace (String.length a + 1 - 1)%nat with (String.length a) by lia.
    by rewrite append_assoc, substring_append. }
  split; [done|]. split; [|split; [|split]].
  - intros body. by apply Hcut.
  - intros c b Hc Hb. unfold ErrorForNtStatus.
    rewrite (proj2 (Z.ltb_lt _ _)) by done. simpl String.length. simpl Nat.ltb.
    pose proof (find_last_of_last_newline "" c b 0 Hc Hb) as Hfind.
    rewrite append_nil in Hfind. by rewrite Hfind.
  - intros text Hne Htext. unfold ErrorForNtStatus.
    rewrite (proj2 (Z.ltb_lt _ _)) by done.
    rewrite find_last_of_no_newline by done.
    by destruct text.
  - intros x. unfold error_bool.
    pose proof (Hcut "" x LF "" eq_refl eq_refl) as Hempty.
    rewrite append_nil in Hempty. by rewrite Hempty.
Qed.

Lemma X17_status_message_trimming_witness :
  let status := (-1073741811)%Z in
  let fl := "RegistryQuery.cpp" in
  let fn := "RegistryQuery::FillDriverDetails" in
  (forall a x c b,
      is_newline c = true -> no_newline b = true ->
      message (ErrorForNtStatus status (a +:+ String x (String c b)) fl fn 157) = a) /\
  (forall body,
      message (ErrorForNtStatus status (body +:+ String CR (String LF "")) fl fn 157)
        = body) /\
  (forall c b,
      is_newline c = true -> no_newline b = true ->
      message (ErrorForNtStatus status (String c b) fl fn 157) = String c b) /\
  (forall text,
      text <> "" -> no_newline text = true ->
      message (ErrorForNtStatus status text fl fn 157) = text) /\
  (forall x, error_bool (ErrorForNtStatus status (String x (String LF "")) fl fn 157) = false).
Proof.
  apply (X17_status_message_trimming (-1073741811)%Z "RegistryQuery.cpp"
           "RegistryQuery::FillDriverDetails" 157).
  lia.
Defined.

(** ** Adapter LUIDs in text form *)

Lemma pretty_N_char_digit (d : N) :
  (d < 10)%N ->
  isdigit (pretty_N_char d) = true /\
  (Z.of_N (N_of_ascii (pretty_N_char d)) - 48 = Z.of_N d)%Z.
Proof.
  intros Hd.
  assert (d = 0 \/ d = 1 \/ d = 2 \/ d = 3 \/ d = 4 \/ d = 5 \/ d = 6 \/ d = 7
          \/ d = 8 \/ d = 9)%N as Hcases by lia.
  repeat (destruct Hcases as [->|Hcases]; [by vm_compute|]).
  subst d. by vm_compute.
Qed.

Lemma pretty_N_go_append (x : N) : forall s, pretty_N_go x s = pretty_N_go x "" +:+ s.
Proof.
  induction (N.lt_wf_0 x) as [x _ IH]. intros s.
  destruct (decide (0 < x)%N) as [Hx|Hx].
  - rewrite (pretty_N_go_step x s), (pretty_N_go_step x "") by done.
    pose proof (N.div_lt x 10 Hx eq_refl) as Hlt.
    rewrite (IH (x / 10)%N Hlt (String (pretty_N_char (x mod 10)) s)).
    rewrite (IH (x / 10)%N Hlt (String (pretty_N_char (x mod 10)) "")).
    by rewrite append_assoc.
  - assert (x = 0%N) as -> by lia. by rewrite !pretty_N_go_0.
Qed.

Lemma parse_digits_pretty_N_go (x : N) : forall rest,
  parse_digits (pretty_N_go x "" +:+ rest) 0 = parse_digits rest (Z.of_N x).
Proof.
  induction (N.lt_wf_0 x) as [x _ IH]. intros rest.
  destruct (decide (0 < x)%N) as [Hx|Hx].
  - rewrite (pretty_N_go_step x "") by done.
    rewrite pretty_N_go_append, append_assoc, append_cons, append_nil.
    rewrite IH by (by apply N.div_lt). simpl.
    destruct (pretty_N_char_digit (x mod 10)) as [-> ->];
      [by apply N.mod_lt|].
    f_equal. pose proof (N.div_mod x 10 ltac:(done)) as Hdm. lia.
  - assert (x = 0%N) as -> by lia. by rewrite pretty_N_go_0.
Qed.

Lemma pretty_N_go_starts_with_digit (x : N) :
  (0 < x)%N -> starts_with_digit (pretty_N_go x "") = true.
Proof.
  induction (N.lt_wf_0 x) as [x _ IH]. intros Hx.
  rewrite pretty_N_go_step, pretty_N_go_append by done.
  destruct (N.eq_0_gt_0_cases (x / 10)) as [Hq|Hq].
  - rewrite Hq, pretty_N_go_0, append_nil. simpl.
    apply pretty_N_char_digit. by apply N.mod_lt.
  - specialize (IH (x / 10)%N (N.div_lt x 10 Hx eq_refl) Hq).
    destruct (pretty_N_go (x / 10) "") as [|c s]; [done|]. by rewrite append_cons.
Qed.

Lemma isdigit_plain (c : ascii) :
  isdigit c = true ->
  isspace c = false /\ Ascii.eqb c "-" = false /\ Ascii.eqb c "+" = false.
Proof.
  intros Hc. repeat split.
  - unfold isdigit in Hc. unfold isspace. cbv zeta in *.
    apply andb_true_iff in Hc as [H1%N.leb_le H2%N.leb_le].
    rewrite (proj2 (N.eqb_neq _ _)) by lia.
    rewrite (proj2 (N.leb_gt (N_of_ascii c) 13)) by lia. by rewrite andb_false_r.
  - apply not_true_iff_false. intros ->%Ascii.eqb_eq. by vm_compute in Hc.
  - apply not_true_iff_false. intros ->%Ascii.eqb_eq. by vm_compute in Hc.
Qed.

Lemma parse_digits_stop (rest : string) (acc : Z) :
  starts_with_digit rest = false -> parse_digits rest acc = acc.
Proof. destruct rest as [|c rest]; simpl; [done|]. by intros ->. Qed.

(** The digits of a positive number, whatever follows them that is not a
    digit, are read back by [stoll] as the number, with or without a
    minus sign in front. *)
Lemma stoll_digits (x : N) (rest : string) :
  (0 < x)%N -> starts_with_digit rest = false ->
  stoll (pretty_N_go x "" +:+ rest)
    = (if (LLONG_MAX <? Z.of_N x)%Z
       then Throw (ExOutOfRange "stoll argument out of range")
       else Return (Z.of_N x)) /\
  stoll (String "-" (pretty_N_go x "" +:+ rest))
    = (if (- Z.of_N x <? LLONG_MIN)%Z
       then Throw (ExOutOfRange "stoll argument out of range")
       else Return (- Z.of_N x)%Z).
Proof.
  intros Hx Hrest.
  pose proof (pretty_N_go_starts_with_digit x Hx) as Hdigit.
  pose proof (parse_digits_pretty_N_go x rest) as Hparse.
  rewrite (parse_digits_stop rest) in Hparse by done.
  destruct (pretty_N_go x "") as [|c s] eqn:Hs; [done|].
  simpl in Hdigit. destruct (isdigit_plain c Hdigit) as (Hspace & Hminus & Hplus).
  rewrite append_cons in *. split.
  - unfold stoll. simpl skip_spaces. rewrite Hspace, Hminus, Hplus, Hdigit, Hparse.
    rewrite (proj2 (Z.ltb_ge _ _)) by (unfold LLONG_MIN; lia). done.
  - unfold stoll. simpl skip_spaces.
    change (isspace "-") with false. cbv iota.
    change (Ascii.eqb "-" "-") with true. cbv iota beta.
    rewrite Hdigit, Hparse.
    rewrite (proj2 (Z.ltb_ge LLONG_MAX _)) by (unfold LLONG_MAX; lia).
    by rewrite orb_false_r.
Qed.

(** X18: a LUID written in decimal is read back by [stoll] as the same
    number: for every [z] of the range of a 64-bit integer
    [stoll (to_wstring z) = z], also when the digits are followed by text
    that does not start with a digit; so the string form and the integer
    form of the adapter LUID property of a PnP device lead to the same
    device details.  A number above the range makes [stoll] throw
    [std::out_of_range]. *)
Theorem X18_luid_text_round_trip z :
  ((LLONG_MIN <= z <= LLONG_MAX)%Z ->
   (forall rest, starts_with_digit rest = false -> stoll (pretty z +:+ rest) = Return z) /\
   (forall details,
       let self := mkWmiQuery DevPropKeyToString_AdapterLuid in
       apply_property self (devPropKeyLUID self) (VT_BSTR (pretty z)) details
       = apply_property self (devPropKeyLUID self) (VT_I8 z) details)) /\
  ((LLONG_MAX < z)%Z ->
   stoll (pretty z) = Throw (ExOutOfRange "stoll argument out of range")).
Proof.
  assert (Hpos : forall x : positive, pretty (Z.pos x) = pretty_N_go (N.pos x) "") by done.
  assert (Hneg : forall x : positive,
    pretty (Z.neg x) = String "-" (pretty_N_go (N.pos x) "")) by done.
  assert (Hread : (LLONG_MIN <= z <= LLONG_MAX)%Z ->
    forall rest, starts_with_digit rest = false -> stoll (pretty z +:+ rest) = Return z).
  { intros [Hmin Hmax] rest Hrest. destruct z as [|x|x].
    - change (pretty 0%Z) with "0". rewrite append_cons, append_nil.
      unfold stoll. simpl. by rewrite parse_digits_stop.
    - rewrite Hpos. destruct (stoll_digits (N.pos x) rest) as [-> _]; [lia|done|].
      by rewrite (proj2 (Z.ltb_ge _ _)) by (simpl; lia).
    - rewrite Hneg, append_cons.
      destruct (stoll_digits (N.pos x) rest) as [_ ->]; [lia|done|].
      by rewrite (proj2 (Z.ltb_ge _ _)) by (simpl; lia). }
  split.
  - intros Hrange. split; [by apply Hread|].
    intros details self. subst self.
    pose proof (Hread Hrange "" eq_refl) as Hz. rewrite append_empty_r in Hz.
    unfold apply_property.
    change (devPropKeyLUID (mkWmiQuery DevPropKeyToString_AdapterLuid)
              =? "DEVPKEY_Device_Driver")%string with false.
    change (devPropKeyLUID (mkWmiQuery DevPropKeyToString_AdapterLuid)
              =? "DEVPKEY_Device_LocationPaths")%string with false.
    cbv iota. rewrite String.eqb_refl. by rewrite Hz.
  - intros Hmax. destruct z as [|x|x]; [done| |done].
    rewrite Hpos. pose proof (stoll_digits (N.pos x) "" eq_refl eq_refl) as [Hz _].
    rewrite append_empty_r in Hz. rewrite Hz.
    by rewrite (proj2 (Z.ltb_lt _ _)) by (simpl; lia).
Qed.

(** ** Correlation with the PnP devices *)

Lemma properties_frame_refl d : properties_frame d d.
Proof. unfold properties_frame. repeat split. by left. Qed.

Lemma properties_frame_trans d0 d1 d2 :
  properties_frame d0 d1 -> properties_frame d1 d2 -> properties_frame d0 d2.
Proof.
  unfold properties_frame.
  intros (H1 & H2 & H3 & H4 & H5 & H6 & H7 & H8 & H9 & H10 & Hk)
         (G1 & G2 & G3 & G4 & G5 & G6 & G7 & G8 & G9 & G10 & Gk).
  repeat split; try congruence.
  destruct Gk as [Gk|Gk]; [|by right].
  rewrite Gk. exact Hk.
Qed.

Lemma apply_property_frame self keyName data details details' :
  apply_property self keyName data details = Return details' ->
  properties_frame details details'.
Proof.
  unfold apply_property. intros H.
  destruct (keyName =? "DEVPKEY_Device_Driver")%string.
  { destruct data as [|bstrVal| |]; try done. injection H as <-.
    unfold properties_frame. simpl. repeat split. right. by exists bstrVal. }
  destruct (keyName =? "DEVPKEY_Device_LocationPaths")%string.
  { destruct data as [| |lock first others|]; try done.
    destruct lock; simpl in H; [|done]. injection H as <-.
    unfold properties_frame. simpl. repeat split. by left. }
  destruct (keyName =? devPropKeyLUID self)%string.
  2:{ injection H as <-. apply properties_frame_refl. }
  destruct data as [llVal|bstrVal| |]; try done.
  - injection H as <-. unfold properties_frame. simpl. repeat split. by left.
  - destruct (stoll bstrVal); simpl in H; try done. injection H as <-.
    unfold properties_frame. simpl. repeat split. by left.
Qed.

Lemma process_properties_frame self elements : forall details details',
  process_properties self elements details = Return details' ->
  properties_frame details details'.
Proof.
  induction elements as [|element rest IH]; intros details details' H; simpl in H.
  - injection H as <-. apply properties_frame_refl.
  - destruct (QueryInterface element); simpl in H; [|done].
    destruct (Get_KeyName element) as [keyName|]; simpl in H; [|done].
    destruct (Get_Data element) as [data|]; [|by apply IH].
    destruct (apply_property self keyName data details) as [d1| | |] eqn:Ha;
      simpl in H; try done.
    eapply properties_frame_trans; [by eapply apply_property_frame|by apply IH].
Qed.

(** X19: the details [ExtractDeviceDetails] returns for a PnP entity: the
    identifier, the description and the vendor are the [DeviceID],
    [Description] and [Manufacturer] properties of the entity; the driver
    store path is empty; of the adapter only the LUID can differ from a
    default-constructed adapter; and the driver registry key is either
    empty or the class key of [HKEY_LOCAL_MACHINE] followed by the value
    of a driver property. *)
Theorem X19_extracted_device_details self entity details :
  ExtractDeviceDetails self entity = Return details ->
  Get_DeviceID entity = Succeeded (ID details) /\
  Get_Description entity = Succeeded (Description details) /\
  Get_Manufacturer entity = Succeeded (Vendor details) /\
  DriverStorePath details = "" /\
  DeviceAdapter details
    = mkAdapter (InstanceLuid (DeviceAdapter details)) (mkHardwareID 0 0 0 0)
        false false false false false /\
  (DriverRegistryKey details = "" \/
   exists driver, DriverRegistryKey details = class_key_prefix +:+ driver).
Proof.
  unfold ExtractDeviceDetails. intros H.
  destruct (Get_DeviceID entity) as [id|]; simpl in H; [|done].
  destruct (Get_Description entity) as [description|]; simpl in H; [|done].
  destruct (Get_Manufacturer entity) as [vendor|]; simpl in H; [|done].
  repeat match type of H with
         | context [check ?r _ _ _ _] => destruct r; simpl in H; [|by inversion H]
         end.
  match type of H with
  | context [match ?v with _ => _ end] =>
      destruct v as [lock elements|]; simpl in H; [|by inversion H]
  end.
  destruct lock; simpl in H; [|done].
  apply process_properties_frame in H
    as (H1 & H2 & H3 & H4 & H5 & H6 & H7 & H8 & H9 & H10 & Hk).
  simpl in *. rewrite H1, H2, H3, H4. repeat split; [|done].
  destruct (DeviceAdapter details). simpl in *. congruence.
Qed.

Lemma X19_extracted_device_details_witness :
  let entity := ex_entity "PCI\VEN_0001&DEV_0001\A" (VT_BSTR "5") in
  let details :=
    mkDevice (mkAdapter 5 (mkHardwareID 0 0 0 0) false false false false false)
      "PCI\VEN_0001&DEV_0001\A" "Example GPU"
      "HKEY_LOCAL_MACHINE\SYSTEM\CurrentControlSet\Control\Class\{4d36e968}\0001"
      "" "" [] [] "Example Corp" in
  Get_DeviceID entity = Succeeded (ID details) /\
  Get_Description entity = Succeeded (Description details) /\
  Get_Manufacturer entity = Succeeded (Vendor details) /\
  DriverStorePath details = "" /\
  DeviceAdapter details
    = mkAdapter (InstanceLuid (DeviceAdapter details)) (mkHardwareID 0 0 0 0)
        false false false false false /\
  (DriverRegistryKey details = "" \/
   exists driver, DriverRegistryKey details = class_key_prefix +:+ driver).
Proof.
  apply (X19_extracted_device_details (mkWmiQuery DevPropKeyToString_AdapterLuid)
           (ex_entity "PCI\VEN_0001&DEV_0001\A" (VT_BSTR "5"))).
  vm_compute. reflexivity.
Defined.

Lemma match_devices_extractable self (adapters : gmap Z Adapter) enumerator :
  forall devices,
    Forall (extractable self) enumerator ->
    match_devices self adapters enumerator devices
      = Return (devices ++ omap (correlate self adapters) enumerator).
Proof.
  induction enumerator as [|next rest IH]; intros devices Hok; simpl.
  - by rewrite app_nil_r.
  - apply Forall_cons in Hok as [Hnext Hok].
    destruct next as [device|msg]; [|done]. destruct Hnext as [details Hdetails].
    simpl. rewrite Hdetails. simpl.
    destruct (adapters !! InstanceLuid (DeviceAdapter details)) as [matchingAdapter|].
    + rewrite IH by done. by rewrite <- app_assoc.
    + by apply IH.
Qed.

Lemma match_devices_Return_extractable self (adapters : gmap Z Adapter) enumerator :
  forall devices found,
    match_devices self adapters enumerator devices = Return found ->
    Forall (extractable self) enumerator.
Proof.
  induction enumerator as [|next rest IH]; intros devices found H; simpl in H.
  - constructor.
  - destruct next as [device|msg]; simpl in H; [|done].
    destruct (ExtractDeviceDetails self device) as [details| | |] eqn:Hdetails;
      simpl in H; try done.
    constructor; [by exists details|].
    destruct (adapters !! InstanceLuid (DeviceAdapter details)); by eapply IH.
Qed.

(** X20: when [GetDevicesForAdapters] returns, the devices it returns are,
    in the order of the query result, exactly the PnP entities of the
    result whose LUID is a key of the adapters, each with the adapter
    stored under that key in place of its own; no entity with such a LUID
    is left out, and an entity whose LUID is no key is left out without an
    error.  The call returns exactly when the query succeeds and the
    details of every entity of its result can be extracted. *)
Theorem X20_correlation_in_query_order p self (adapters : gmap Z Adapter) found :
  adapters <> ∅ ->
  let query :=
    "SELECT * FROM Win32_PnPEntity WHERE Present = TRUE AND ("
    +:+ like_clauses (query_hardware_ids adapters) +:+ ")" in
  GetDevicesForAdapters p self adapters = Return found <->
  exists enumerator,
    ExecQuery p query = Succeeded enumerator /\
    Forall (extractable self) enumerator /\
    found = omap (correlate self adapters) enumerator.
Proof.
  intros Hne query. unfold GetDevicesForAdapters.
  rewrite bool_decide_eq_false_2 by done.
  fold (query_hardware_ids adapters). fold query.
  destruct (ExecQuery p query) as [enumerator|msg]; simpl.
  - split.
    + intros H. exists enumerator. split; [done|].
      pose proof (match_devices_Return_extractable _ _ _ _ _ H) as Hok.
      split; [done|]. rewrite match_devices_extractable in H by done.
      by injection H as <-.
    + intros (enumerator' & [= <-] & Hok & ->).
      by rewrite match_devices_extractable.
  - split; [done|]. by intros (enumerator' & ? & _).
Qed.

Lemma X20_correlation_in_query_order_witness :
  let self := mkWmiQuery DevPropKeyToString_AdapterLuid in
  let found := [ ex_correlated "PCI\VEN_0001&DEV_0001\A";
                 ex_correlated "PCI\VEN_0001&DEV_0001\B" ] in
  let query :=
    "SELECT * FROM Win32_PnPEntity WHERE Present = TRUE AND ("
    +:+ like_clauses (query_hardware_ids ex_adapters) +:+ ")" in
  GetDevicesForAdapters ex_two_entities_platform self ex_adapters = Return found <->
  exists enumerator,
    ExecQuery ex_two_entities_platform query = Succeeded enumerator /\
    Forall (extractable self) enumerator /\
    found = omap (correlate self ex_adapters) enumerator.
Proof.
  apply (X20_correlation_in_query_order ex_two_entities_platform
           (mkWmiQuery DevPropKeyToString_AdapterLuid) ex_adapters
           [ ex_correlated "PCI\VEN_0001&DEV_0001\A";
             ex_correlated "PCI\VEN_0001&DEV_0001\B" ]).
  intros H. assert (Hl : ex_adapters !! 5%Z = None) by (by rewrite H).
  vm_compute in Hl. discriminate.
Defined.

Lemma set_insert_lower_bound (x k : string) s :
  String.compare x k = Lt ->
  Forall (fun y => String.compare x y = Lt) s ->
  Forall (fun y => String.compare x y = Lt) (set_insert k s).
Proof.
  intros Hx. induction s as [|y s IH]; simpl; intros Hs.
  - by repeat constructor.
  - apply Forall_cons in Hs as [Hy Hs].
    destruct (String.compare k y); repeat constructor; auto.
Qed.

Lemma set_insert_ascending (k : string) s :
  names_ascending s -> names_ascending (set_insert k s).
Proof.
  induction s as [|y s IH]; simpl; [done|].
  intros [Hy Hs]. destruct (String.compare k y) eqn:Hc; simpl.
  - done.
  - split; [|done]. constructor; [done|].
    eapply Forall_impl; [apply Hy|]. intros z Hz. simpl in Hz.
    by eapply compare_Lt_trans.
  - split; [|by apply IH]. apply set_insert_lower_bound; [|done].
    by rewrite String.compare_antisym, Hc.
Qed.

Lemma set_insert_elem_of (k x : string) s :
  x ∈ set_insert k s <-> x = k \/ x ∈ s.
Proof.
  induction s as [|y s IH]; simpl.
  - rewrite list_elem_of_singleton. split; [by left|]. intros [H|H]; [done|].
    by apply elem_of_nil in H.
  - destruct (String.compare k y) eqn:Hc.
    + apply String.compare_eq_iff in Hc. subst y. split; [by right|].
      intros [->|H]; [by left|done].
    + by rewrite elem_of_cons.
    + rewrite !elem_of_cons, IH. tauto.
Qed.

(** X21: the hardware identifiers of the WQL query are in strictly
    ascending order, so that none occurs twice also when several adapters
    share it, and they are exactly the formatted hardware identifiers of
    the adapters handed over. *)
Theorem X21_query_hardware_ids (adapters : gmap Z Adapter) :
  names_ascending (query_hardware_ids adapters) /\
  (forall id,
      id ∈ query_hardware_ids adapters <->
      exists k a, adapters !! k = Some a /\ id = FormatHardwareID (HardwareID a)) /\
  (forall p self,
      adapters <> ∅ ->
      GetDevicesForAdapters p self adapters =
      (enumerator <-
         check (ExecQuery p
                  ("SELECT * FROM Win32_PnPEntity WHERE Present = TRUE AND ("
                   +:+ like_clauses (query_hardware_ids adapters) +:+ ")"))
           WmiQuery_cpp "WmiQuery::GetDevicesForAdapters" 150
           "WQL query execution failed" ;;
       match_devices self adapters enumerator [])).
Proof.
  unfold query_hardware_ids. split; [|split].
  - induction (map_to_list adapters) as [|[k a] l IH]; simpl; [done|].
    by apply set_insert_ascending.
  - intros id.
    assert (Hl : id ∈ foldr (fun adapter ids =>
                    set_insert (FormatHardwareID (HardwareID adapter.2)) ids) []
                    (map_to_list adapters)
                 <-> exists k a, (k, a) ∈ map_to_list adapters /\
                                 id = FormatHardwareID (HardwareID a)).
    { induction (map_to_list adapters) as [|[k a] l IH]; simpl.
      - split; [by intros H%elem_of_nil|]. by intros (k & a & H%elem_of_nil & _).
      - rewrite set_insert_elem_of, IH. split.
        + intros [->|(k' & a' & Hin & ->)].
          * exists k, a. split; [by left|done].
          * exists k', a'. split; [by right|done].
        + intros (k' & a' & [[= -> ->]|Hin]%elem_of_cons & ->); [by left|].
          right. by exists k', a'. }
    rewrite Hl. split; intros (k & a & Hin & ->); exists k, a;
      (split; [by apply elem_of_map_to_list|done]).
  - intros p self Hne. unfold GetDevicesForAdapters.
    by rewrite bool_decide_eq_false_2 by done.
Qed.

Lemma apply_property_other_key self keyName data details details' :
  keyName <> devPropKeyLUID self ->
  apply_property self keyName data details = Return details' ->
  InstanceLuid (DeviceAdapter details') = InstanceLuid (DeviceAdapter details).
Proof.
  intros Hkey. unfold apply_property. intros H.
  destruct (keyName =? "DEVPKEY_Device_Driver")%string.
  { destruct data as [|bstrVal| |]; try done. by injection H as <-. }
  destruct (keyName =? "DEVPKEY_Device_LocationPaths")%string.
  { destruct data as [| |lock first others|]; try done.
    destruct lock; simpl in H; [|done]. by injection H as <-. }
  rewrite (proj2 (String.eqb_neq _ _)) in H by done. by injection H as <-.
Qed.

Lemma process_properties_without_luid self elements : forall details details',
  Forall (not_luid_property self) elements ->
  process_properties self elements details = Return details' ->
  InstanceLuid (DeviceAdapter details') = InstanceLuid (DeviceAdapter details).
Proof.
  induction elements as [|element rest IH]; intros details details' Hok H; simpl in H.
  - by injection H as <-.
  - apply Forall_cons in Hok as [Helement Hok].
    destruct (QueryInterface element); simpl in H; [|done].
    destruct (Get_KeyName element) as [keyName|] eqn:Hname; simpl in H; [|done].
    destruct (Get_Data element) as [data|] eqn:Hdata; [|by apply IH].
    destruct (apply_property self keyName data details) as [d1| | |] eqn:Ha;
      simpl in H; try done.
    rewrite (IH d1 details' Hok H).
    eapply apply_property_other_key; [|exact Ha].
    destruct Helement as [Hk|Hd]; congruence.
Qed.

(** X30: a PnP entity none of whose properties gives an adapter LUID is
    not rejected: its details carry the LUID 0 of a default-constructed
    adapter, and [GetDevicesForAdapters] correlates it with the adapter
    stored under the LUID 0 when there is one, and leaves it out
    otherwise. *)
Theorem X30_missing_luid_is_zero self entity details lock elements :
  ExtractDeviceDetails self entity = Return details ->
  Get_deviceProperties entity = Succeeded (VT_ARRAY_UNKNOWN lock elements) ->
  Forall (not_luid_property self) elements ->
  InstanceLuid (DeviceAdapter details) = 0%Z /\
  (forall adapters : gmap Z Adapter,
      correlate self adapters (Succeeded entity) =
      match adapters !! 0%Z with
      | Some matchingAdapter => Some (set_DeviceAdapter matchingAdapter details)
      | None => None
      end).
Proof.
  intros Hdetails Hproperties Hok.
  assert (Hluid : InstanceLuid (DeviceAdapter details) = 0%Z).
  { pose proof Hdetails as H. unfold ExtractDeviceDetails in H.
    rewrite Hproperties in H.
    repeat match type of H with
           | context [check ?r _ _ _ _] =>
               lazymatch r with
               | Succeeded _ => fail
               | _ => destruct r; simpl in H; [|by inversion H]
               end
           end.
    simpl in H. by apply process_properties_without_luid in H. }
  split; [done|]. intros adapters. unfold correlate. by rewrite Hdetails, Hluid.
Qed.

Lemma X30_missing_luid_is_zero_witness :
  let self := mkWmiQuery DevPropKeyToString_AdapterLuid in
  let details :=
    mkDevice Adapter_default "ROOT\BASICDISPLAY\0000" "Example display"
      "HKEY_LOCAL_MACHINE\SYSTEM\CurrentControlSet\Control\Class\{4d36e968}\0002"
      "" "" [] [] "Example Corp" in
  InstanceLuid (DeviceAdapter details) = 0%Z /\
  (forall adapters : gmap Z Adapter,
      correlate self adapters (Succeeded ex_entity_without_luid) =
      match adapters !! 0%Z with
      | Some matchingAdapter => Some (set_DeviceAdapter matchingAdapter details)
      | None => None
      end).
Proof.
  apply (X30_missing_luid_is_zero (mkWmiQuery DevPropKeyToString_AdapterLuid)
           ex_entity_without_luid
           (mkDevice Adapter_default "ROOT\BASICDISPLAY\0000" "Example display"
              "HKEY_LOCAL_MACHINE\SYSTEM\CurrentControlSet\Control\Class\{4d36e968}\0002"
              "" "" [] [] "Example Corp")
           (Succeeded tt)
           [ mkPnPDeviceProperty (Succeeded tt) (Succeeded "DEVPKEY_Device_Driver")
               (Some (VT_BSTR "{4d36e968}\0002")) ]).
  - by vm_compute.
  - reflexivity.
  - constructor; [|constructor]. left. simpl. intros H. by vm_compute in H.
Defined.

(** ** The discovery session *)

(** X22: when the enumeration pass of a session that holds its helper
    objects finds no adapter, [DiscoverDevices] succeeds without asking
    WMI or the registry for anything: the device list of the session
    becomes empty, whatever it held, and the last error message is
    cleared. *)
Theorem X22_no_adapters_no_devices fuel p flt ii id self e w e' :
  enumeration self = Some e ->
  wmi self = Some w ->
  EnumerateAdapters p flt ii id e = (e', Return tt) ->
  uniqueAdapters e' = ∅ ->
  DiscoverDevices fuel p flt ii id self
    = (mkDeviceDiscoveryImp [] "" (Some e') (Some w), Return true).
Proof.
  intros He Hw Henum Hempty.
  assert (Hhave : HaveDevices self = true).
  { unfold HaveDevices. rewrite He, Hw. by rewrite !bool_decide_eq_true_2 by eauto. }
  unfold DiscoverDevices, DiscoverDevices_try, create_helpers.
  rewrite Hhave. cbn [negb and_then]. rewrite He, Hw, Henum.
  cbn [and_then]. unfold GetDevicesForAdapters, GetUniqueAdapters.
  rewrite Hempty, bool_decide_eq_true_2 by done.
  cbn [fill_driver_details].
  unfold RETURN_SUCCESS, SetLastErrorMessage, set_devices, set_enumeration.
  cbn [devices enumeration wmi lastError]. by rewrite Hw.
Qed.

Lemma X22_no_adapters_no_devices_witness :
  DiscoverDevices 2 ex_no_adapters_platform AllDevices true true ex_session
  = (mkDeviceDiscoveryImp [] ""
       (Some (EnumerateAdapters ex_no_adapters_platform AllDevices true true
                (mkAdapterEnumeration [] ∅)).1)
       (Some (mkWmiQuery DevPropKeyToString_AdapterLuid)),
     Return true).
Proof.
  apply (X22_no_adapters_no_devices 2 ex_no_adapters_platform AllDevices true true
           ex_session (mkAdapterEnumeration [] ∅)
           (mkWmiQuery DevPropKeyToString_AdapterLuid)).
  - reflexivity.
  - reflexivity.
  - by vm_compute.
  - by vm_compute.
Defined.

Lemma FillDriverDetails_DeviceAdapter fuel p device :
  DeviceAdapter (FillDriverDetails fuel p device).1 = DeviceAdapter device /\
  ID (FillDriverDetails fuel p device).1 = ID device.
Proof.
  rewrite FillDriverDetails_spec.
  destruct (bind _ _) as [OutputString|e| |]; simpl; try done.
  destruct (SystemRoot p) as [systemRoot|what]; [|done].
  by destruct (contains _ _).
Qed.

Lemma fill_driver_details_adapters fuel p found :
  map DeviceAdapter (fill_driver_details fuel p found).1 = map DeviceAdapter found /\
  map ID (fill_driver_details fuel p found).1 = map ID found.
Proof.
  induction found as [|device rest [IHa IHi]]; simpl; [done|].
  pose proof (FillDriverDetails_DeviceAdapter fuel p device) as [Ha Hi].
  destruct (FillDriverDetails fuel p device) as [device' [[]|e| |]]; simpl in *;
    try (by rewrite Ha, Hi).
  destruct (fill_driver_details fuel p rest) as [rest' r]. simpl in *.
  by rewrite Ha, Hi, IHa, IHi.
Qed.

Lemma correlation_stage_found p flt ii id self found :
  correlation_stage p flt ii id self = Return found ->
  exists e e' w,
    EnumerateAdapters p flt ii id e = (e', Return tt) /\
    GetDevicesForAdapters p w (uniqueAdapters e') = Return found.
Proof.
  unfold correlation_stage.
  destruct (create_helpers p self) as [s1 [[]|e1| |]]; simpl; try done.
  destruct (enumeration s1) as [e|]; [|done].
  destruct (wmi s1) as [w|]; [|done].
  destruct (EnumerateAdapters p flt ii id e) as [e' [[]|e2| |]] eqn:He; simpl; try done.
  intros Hg. by exists e, e', w.
Qed.

Lemma process_adapter_list_from flt ii id (P : Adapter -> Prop) adapters :
  forall index unique,
    (forall adapter details,
        Succeeded adapter ∈ adapters ->
        ExtractAdapterDetails adapter = Return details -> P details) ->
    map_Forall (fun _ a => P a) unique ->
    map_Forall (fun _ a => P a)
      (process_adapter_list flt ii id adapters index unique).1.
Proof.
  induction adapters as [|r rest IH]; intros index unique HP Hu; simpl; [done|].
  destruct r as [adapter|msg]; simpl; [|done].
  destruct (ExtractAdapterDetails adapter) as [details| | |] eqn:He; simpl; try done.
  apply IH.
  - intros adapter' details' Hin. apply HP. by right.
  - destruct (survives flt ii id details); [|done].
    intros k a. rewrite map_insert_lookup.
    destruct (unique !! k) eqn:Hk.
    + intros [= <-]. by eapply Hu.
    + destruct (decide (InstanceLuid details = k)) as [<-|]; [|done].
      intros [= <-]. eapply HP; [by left|done].
Qed.

Lemma process_adapter_lists_from flt ii id (P : Adapter -> Prop) lists :
  forall unique,
    (forall l adapter details,
        Some l ∈ lists -> Succeeded adapter ∈ GetAdapter l ->
        ExtractAdapterDetails adapter = Return details -> P details) ->
    map_Forall (fun _ a => P a) unique ->
    map_Forall (fun _ a => P a) (process_adapter_lists flt ii id lists unique).1.
Proof.
  induction lists as [|l lists IH]; intros unique HP Hu; simpl; [done|].
  destruct l as [l|]; [|done].
  pose proof (process_adapter_list_from flt ii id P (GetAdapter l) 0%N unique
                (fun adapter details => HP l adapter details ltac:(by left)) Hu) as H1.
  destruct (process_adapter_list flt ii id (GetAdapter l) 0 unique) as [u1 r1].
  simpl in H1. destruct r1 as [[]| | |]; simpl; try done.
  apply IH; [|done]. intros l' adapter details Hin. apply HP. by right.
Qed.

(** Every adapter of the set of unique adapters is an adapter of a list
    the platform has created during the pass. *)
Lemma EnumerateAdapters_reported p flt ii id self :
  map_Forall (fun _ a => reported_by p a)
    (uniqueAdapters (EnumerateAdapters p flt ii id self).1).
Proof.
  unfold EnumerateAdapters.
  set (s0 := mkAdapterEnumeration [] ∅).
  set (Q := fun (sr : AdapterEnumeration * result unit) =>
     Forall (fun o => forall l, o = Some l ->
               exists attribute, CreateAdapterList p attribute = Succeeded l)
       (adapterLists sr.1) /\
     uniqueAdapters sr.1 = ∅).
  assert (Hen : forall attribute ln s,
    Q (s, Return tt) -> Q (ENUMERATE_ADAPTERS p attribute ln s)).
  { intros attribute ln s [Hl Hu]. unfold Q, ENUMERATE_ADAPTERS. simpl in *.
    destruct (CreateAdapterList p attribute) as [l|msg] eqn:Hcreate; simpl.
    - split; [|done]. apply Forall_app. split; [done|].
      constructor; [|constructor]. intros l' [= <-]. by exists attribute.
    - split; [|done]. apply Forall_app. split; [done|].
      constructor; [|constructor]. done. }
  assert (Hstep : forall (sr : AdapterEnumeration * result unit) (c : bool) attribute ln,
    Q sr -> Q (and_then sr (fun self =>
      if c then ENUMERATE_ADAPTERS p attribute ln self else (self, Return tt)))).
  { intros [s r] c attribute ln Hs.
    destruct r as [[]|e| |]; simpl; try done.
    destruct c; [by apply Hen | done]. }
  assert (H0 : Q (s0, Return tt)) by (split; [constructor|done]).
  set (s1 := if bool_decide (flt ≠ ComputeOnly) && bool_decide (flt ≠ DisplayAndCompute)
             then ENUMERATE_ADAPTERS p DXCORE_ADAPTER_ATTRIBUTE_D3D11_GRAPHICS 42 s0
             else (s0, Return tt)).
  assert (H1 : Q s1).
  { unfold s1. destruct (_ && _); [by apply Hen | done]. }
  pose proof (Hstep s1 (bool_decide (flt ≠ ComputeOnly))
                DXCORE_ADAPTER_ATTRIBUTE_D3D12_GRAPHICS 47%N H1) as H2.
  set (s2 := and_then s1 _) in *.
  pose proof (Hstep s2 (bool_decide (flt ≠ DisplayOnly))
                DXCORE_ADAPTER_ATTRIBUTE_D3D12_CORE_COMPUTE 52%N H2) as H3.
  set (s3 := and_then s2 _) in *.
  destruct s3 as [s r]. destruct H3 as [Hl Hu]. simpl in Hl, Hu.
  destruct r as [[]| | |]; simpl; try (rewrite Hu; apply map_Forall_empty).
  pose proof (process_adapter_lists_from flt ii id (reported_by p) (adapterLists s)
                (uniqueAdapters s)) as Hfrom.
  destruct (process_adapter_lists flt ii id (adapterLists s) (uniqueAdapters s)) as [u r].
  simpl in *. apply Hfrom.
  - intros l adapter details Hin Hadapter Hdetails.
    rewrite Forall_forall in Hl. destruct (Hl _ Hin l eq_refl) as [attribute Hcreate].
    by exists attribute, l, adapter.
  - rewrite Hu. apply map_Forall_empty.
Qed.

Lemma correlation_stage_survivors p flt ii id self found :
  correlation_stage p flt ii id self = Return found ->
  Forall (fun a => survives flt ii id a = true /\ reported_by p a)
    (map DeviceAdapter found).
Proof.
  intros (e & e' & w & He & Hg)%correlation_stage_found.
  pose proof (EnumerateAdapters_entries p flt ii id e) as Hentries.
  pose proof (EnumerateAdapters_reported p flt ii id e) as Hreported.
  rewrite He in Hentries, Hreported. simpl in Hentries, Hreported.
  assert (Hin : Forall (fun d => exists k, uniqueAdapters e' !! k = Some (DeviceAdapter d))
                  found).
  { unfold GetDevicesForAdapters in Hg. case_bool_decide.
    - injection Hg as <-. constructor.
    - match type of Hg with
      | context [ExecQuery p ?q] =>
          destruct (ExecQuery p q) as [enumerator|msg]; simpl in Hg; [|done]
      end.
      apply match_devices_spec in Hg as (new & -> & _ & Hnew). done. }
  apply Forall_map. eapply Forall_impl; [exact Hin|].
  intros d (k & Hk). simpl. split.
  - by destruct (Hentries k _ Hk) as (_ & Hs & _).
  - exact (Hreported k _ Hk).
Qed.

Lemma DiscoverDevices_devices fuel p flt ii id self :
  devices (DiscoverDevices fuel p flt ii id self).1
  = devices (DiscoverDevices_try fuel p flt ii id self).1.
Proof.
  unfold DiscoverDevices.
  by destruct (DiscoverDevices_try fuel p flt ii id self)
    as [s' [[]|[err|what|what|what|what]| |]].
Qed.

(** X23: after a successful [DiscoverDevices], every device of the session
    carries an adapter that DXCore has reported on the machine of the
    call, as an element of an adapter list it created there, and that
    passes the filtering conditions of the call: a hardware adapter,
    integrated or detachable only if the call included such adapters, with
    the capabilities the filter asks for; driver metadata resolution has
    changed neither the adapter nor the identifier of a correlated
    device. *)
Theorem X23_discovered_devices_pass_filter fuel p flt ii id self self' :
  DiscoverDevices fuel p flt ii id self = (self', Return true) ->
  Forall (fun d =>
      survives flt ii id (DeviceAdapter d) = true /\
      exists attribute l adapter,
        CreateAdapterList p attribute = Succeeded l /\
        Succeeded adapter ∈ GetAdapter l /\
        ExtractAdapterDetails adapter = Return (DeviceAdapter d))
    (devices self') /\
  exists found,
    correlation_stage p flt ii id self = Return found /\
    map DeviceAdapter (devices self') = map DeviceAdapter found /\
    map ID (devices self') = map ID found.
Proof.
  intros Hrun.
  pose proof (DiscoverDevices_devices fuel p flt ii id self) as Hdev.
  rewrite Hrun in Hdev. simpl in Hdev.
  unfold DiscoverDevices in Hrun.
  destruct (DiscoverDevices_try fuel p flt ii id self) as [s' r] eqn:Htry.
  simpl in Hdev.
  assert (r = Return tt) as ->.
  { destruct r as [[]|[err|what|what|what|what]| |]; simpl in Hrun; try done;
      by injection Hrun. }
  apply DiscoverDevices_try_spec in Htry as (_ & _ & Hm).
  destruct (correlation_stage p flt ii id self) as [found| | |] eqn:Hstage;
    try (by destruct Hm as [_ Hr]).
  destruct Hm as [Hfill _].
  pose proof (fill_driver_details_adapters fuel p found) as [Ha Hi].
  rewrite Hfill in Ha, Hi. simpl in Ha, Hi. rewrite <- Hdev in Ha, Hi.
  split; [|by exists found].
  apply correlation_stage_survivors in Hstage.
  rewrite <- Ha in Hstage. by apply Forall_map in Hstage.
Qed.

Lemma X23_discovered_devices_pass_filter_witness :
  let p := ex_good_platform in
  let self' :=
    (DiscoverDevices 2 p DisplayAndCompute false true DeviceDiscoveryImp_new).1 in
  Forall (fun d =>
      survives DisplayAndCompute false true (DeviceAdapter d) = true /\
      exists attribute l adapter,
        CreateAdapterList p attribute = Succeeded l /\
        Succeeded adapter ∈ GetAdapter l /\
        ExtractAdapterDetails adapter = Return (DeviceAdapter d))
    (devices self') /\
  exists found,
    correlation_stage p DisplayAndCompute false true DeviceDiscoveryImp_new
      = Return found /\
    map DeviceAdapter (devices self') = map DeviceAdapter found /\
    map ID (devices self') = map ID found.
Proof.
  apply (X23_discovered_devices_pass_filter 2 ex_good_platform DisplayAndCompute false true
           DeviceDiscoveryImp_new).
  vm_compute. reflexivity.
Defined.

(** X24: in every session reached from a new one by [DiscoverDevices]
    calls, whatever their arguments and outcomes, each device the session
    holds carries a hardware adapter that DXCore has reported on the
    machine of one of the calls, as an element of an adapter list it
    created there. *)
Theorem X24_session_devices_are_hardware calls :
  Forall (fun d =>
      IsHardware (DeviceAdapter d) = true /\
      exists c attribute l adapter,
        c ∈ calls /\
        CreateAdapterList (call_platform c) attribute = Succeeded l /\
        Succeeded adapter ∈ GetAdapter l /\
        ExtractAdapterDetails adapter = Return (DeviceAdapter d))
    (devices (run_calls calls DeviceDiscoveryImp_new)).
Proof.
  assert (Hstep : forall (Q : Adapter -> Prop) fuel p flt ii id self,
    (forall a, IsHardware a = true -> reported_by p a -> Q a) ->
    Forall Q (map DeviceAdapter (devices self)) ->
    Forall Q (map DeviceAdapter (devices (DiscoverDevices fuel p flt ii id self).1))).
  { intros Q fuel p flt ii id self HQ Hself. rewrite DiscoverDevices_devices.
    destruct (DiscoverDevices_try fuel p flt ii id self) as [s' r] eqn:Htry.
    apply DiscoverDevices_try_spec in Htry as (_ & _ & Hm). simpl.
    destruct (correlation_stage p flt ii id self) as [found| | |] eqn:Hstage;
      try (by destruct Hm as [-> _]).
    destruct Hm as [Hfill _].
    pose proof (fill_driver_details_adapters fuel p found) as [Ha _].
    rewrite Hfill in Ha. simpl in Ha. rewrite Ha.
    apply correlation_stage_survivors in Hstage.
    eapply Forall_impl; [exact Hstage|].
    intros a [Hs Hx]. apply HQ; [|done].
    unfold survives in Hs. by destruct (IsHardware a). }
  assert (Hall : forall (Q : Adapter -> Prop) calls' self,
    (forall c a, c ∈ calls' -> IsHardware a = true ->
                 reported_by (call_platform c) a -> Q a) ->
    Forall Q (map DeviceAdapter (devices self)) ->
    Forall Q (map DeviceAdapter (devices (run_calls calls' self)))).
  { intros Q calls'. unfold run_calls.
    induction calls' as [|c calls' IH]; intros self HQ Hself; simpl; [done|].
    apply IH.
    - intros c' a Hin. apply HQ. by right.
    - apply Hstep; [|done]. intros a. apply HQ. by left. }
  specialize (Hall
    (fun a => IsHardware a = true /\
              exists c attribute l adapter,
                c ∈ calls /\
                CreateAdapterList (call_platform c) attribute = Succeeded l /\
                Succeeded adapter ∈ GetAdapter l /\
                ExtractAdapterDetails adapter = Return a)
    calls DeviceDiscoveryImp_new).
  assert (Hcalls : forall c a, c ∈ calls -> IsHardware a = true ->
            reported_by (call_platform c) a ->
            IsHardware a = true /\
            exists c attribute l adapter,
              c ∈ calls /\
              CreateAdapterList (call_platform c) attribute = Succeeded l /\
              Succeeded adapter ∈ GetAdapter l /\
              ExtractAdapterDetails adapter = Return a).
  { intros c a Hin Hhw (attribute & l & adapter & H1 & H2 & H3).
    split; [done|]. by exists c, attribute, l, adapter. }
  specialize (Hall Hcalls (Forall_nil_2 _)).
  apply Forall_map in Hall. exact Hall.
Qed.

Lemma DiscoverDevices_keeps_helpers fuel p flt ii id self :
  HaveDevices self = true ->
  HaveDevices (DiscoverDevices fuel p flt ii id self).1 = true /\
  wmi (DiscoverDevices fuel p flt ii id self).1 = wmi self.
Proof.
  intros Hhave.
  assert (exists e w, enumeration self = Some e /\ wmi self = Some w) as (e & w & He & Hw).
  { unfold HaveDevices in Hhave. apply andb_true_iff in Hhave as [H1 H2].
    apply bool_decide_eq_true in H1 as [e He]. apply bool_decide_eq_true in H2 as [w Hw].
    by exists e, w. }
  unfold DiscoverDevices, DiscoverDevices_try, create_helpers.
  rewrite Hhave. cbn [negb and_then]. rewrite He, Hw.
  destruct (EnumerateAdapters p flt ii id e) as [e' [[]|[err|what|what|what|what]| |]];
    cbn [and_then]; try (unfold HaveDevices; simpl; by rewrite Hw).
  destruct (GetDevicesForAdapters p w (GetUniqueAdapters e'))
    as [found|[err|what|what|what|what]| |];
    try (unfold HaveDevices; simpl; by rewrite Hw).
  destruct (fill_driver_details fuel p found) as [filled [[]|[err|what|what|what|what]| |]];
    unfold HaveDevices; simpl; by rewrite Hw.
Qed.

(** X25: the helper objects of a session are created once: in a session
    that holds them, no sequence of [DiscoverDevices] calls, whatever
    their outcomes, removes them or replaces the WMI helper, and the
    session keeps answering that it has performed discovery. *)
Theorem X25_helper_objects_persist calls self :
  HaveDevices self = true ->
  HaveDevices (run_calls calls self) = true /\
  wmi (run_calls calls self) = wmi self /\
  (GetNumDevices (run_calls calls self)).2
    = Z.of_nat (length (devices (run_calls calls self))).
Proof.
  intros Hhave.
  assert (Hkeep : HaveDevices (run_calls calls self) = true /\
                  wmi (run_calls calls self) = wmi self).
  { revert self Hhave. unfold run_calls.
    induction calls as [|c calls IH]; intros self Hhave; simpl; [done|].
    pose proof (DiscoverDevices_keeps_helpers (call_fuel c) (call_platform c)
                  (call_filter c) (call_includeIntegrated c) (call_includeDetachable c)
                  self Hhave) as [Hh Hw].
    destruct (IH _ Hh) as [IH1 IH2]. split; [done|]. by rewrite IH2. }
  destruct Hkeep as [Hh Hw]. repeat split; try done.
  unfold GetNumDevices. by rewrite Hh.
Qed.

Lemma X25_helper_objects_persist_witness :
  let calls := [ex_call ex_query_fails_platform; ex_call ex_list_fails_platform] in
  HaveDevices (run_calls calls ex_session) = true /\
  wmi (run_calls calls ex_session) = wmi ex_session /\
  (GetNumDevices (run_calls calls ex_session)).2
    = Z.of_nat (length (devices (run_calls calls ex_session))).
Proof.
  apply (X25_helper_objects_persist
           [ex_call ex_query_fails_platform; ex_call ex_list_fails_platform] ex_session).
  by vm_compute.
Defined.

Lemma ValidateRequestedDevice_spec device self :
  HaveDevices self = true ->
  ValidateRequestedDevice device self =
  (SetLastErrorMessage "" self,
   match devices self !! N.to_nat device with
   | Some _ => None
   | None =>
       Some (mkError ("requested device index is invalid: " +:+ pretty device)
               DeviceDiscoveryImp_cpp "DeviceDiscoveryImp::ValidateRequestedDevice" 258)
   end).
Proof.
  intros Hhave. unfold ValidateRequestedDevice, GetNumDevices, RETURN_SUCCESS.
  rewrite Hhave. cbn [negb].
  destruct (devices self !! N.to_nat device) as [d|] eqn:Hd.
  - apply lookup_lt_Some in Hd.
    by rewrite (proj2 (Z.leb_gt _ _)) by lia.
  - apply lookup_ge_None in Hd.
    by rewrite (proj2 (Z.leb_le _ _)) by lia.
Qed.

(** X26: the index check of the device accessors, in a session that holds
    its helper objects: for an index below the number of devices the
    accessor returns the field of the device at that index and clears the
    last error message; for any other index it returns its sentinel and
    sets the message to the invalid index; in both cases nothing else of
    the session changes. *)
Theorem X26_device_index_check {A : Type} (sentinel : A) (get : Device -> A)
    (device : N) (self : DeviceDiscoveryImp) :
  HaveDevices self = true ->
  device_accessor sentinel get device self =
  match devices self !! N.to_nat device with
  | Some d => (SetLastErrorMessage "" self, get d)
  | None =>
      (SetLastErrorMessage ("requested device index is invalid: " +:+ pretty device) self,
       sentinel)
  end.
Proof.
  intros Hhave. unfold device_accessor.
  rewrite ValidateRequestedDevice_spec by done.
  destruct (devices self !! N.to_nat device) as [d|] eqn:Hd; [|done].
  unfold RETURN_SUCCESS. cbn [devices SetLastErrorMessage].
  by rewrite (nth_lookup_Some _ _ _ _ Hd).
Qed.

Lemma X26_device_index_check_witness :
  device_accessor None (fun d => Some (ID d)) 1 ex_session =
  match devices ex_session !! N.to_nat 1 with
  | Some d => (SetLastErrorMessage "" ex_session, Some (ID d))
  | None =>
      (SetLastErrorMessage ("requested device index is invalid: " +:+ pretty 1%N)
         ex_session,
       None)
  end.
Proof.
  apply (X26_device_index_check None (fun d => Some (ID d)) 1 ex_session).
  by vm_compute.
Defined.

(** X27: the index checks of the runtime file accessors, in a session
    that holds its helper objects: the device index is checked first, the
    file index against the length of the selected list of that device
    next; a valid pair returns the field of the file and clears the last
    error message, an invalid file index returns a null pointer and sets
    the message to the invalid file index. *)
Theorem X27_file_index_check (files : Device -> list RuntimeFile)
    (get : RuntimeFile -> string) (device file : N) (self : DeviceDiscoveryImp) :
  HaveDevices self = true ->
  file_accessor files get device file self =
  match devices self !! N.to_nat device with
  | Some d =>
      match files d !! N.to_nat file with
      | Some f => (SetLastErrorMessage "" self, Some (get f))
      | None =>
          (SetLastErrorMessage
             ("requested runtime file index is invalid: " +:+ pretty file) self,
           None)
      end
  | None =>
      (SetLastErrorMessage ("requested device index is invalid: " +:+ pretty device) self,
       None)
  end.
Proof.
  intros Hhave. unfold file_accessor.
  rewrite ValidateRequestedDevice_spec by done.
  destruct (devices self !! N.to_nat device) as [d|] eqn:Hd; [|done].
  cbn [devices SetLastErrorMessage].
  rewrite (nth_lookup_Some _ _ _ _ Hd).
  destruct (files d !! N.to_nat file) as [f|] eqn:Hf.
  - pose proof (lookup_lt_Some _ _ _ Hf) as Hlt.
    rewrite (proj2 (Z.leb_gt _ _)) by lia.
    unfold RETURN_SUCCESS. by rewrite (nth_lookup_Some _ _ _ _ Hf).
  - apply lookup_ge_None in Hf.
    by rewrite (proj2 (Z.leb_le _ _)) by lia.
Qed.

Lemma X27_file_index_check_witness :
  let self := (DiscoverDevices 2 ex_good_platform AllDevices true true
                 DeviceDiscoveryImp_new).1 in
  file_accessor RuntimeFiles DestinationFilename 0 1 self =
  match devices self !! N.to_nat 0 with
  | Some d =>
      match RuntimeFiles d !! N.to_nat 1 with
      | Some f => (SetLastErrorMessage "" self, Some (DestinationFilename f))
      | None =>
          (SetLastErrorMessage
             ("requested runtime file index is invalid: " +:+ pretty 1%N) self,
           None)
      end
  | None =>
      (SetLastErrorMessage ("requested device index is invalid: " +:+ pretty 0%N) self,
       None)
  end.
Proof.
  apply (X27_file_index_check RuntimeFiles DestinationFilename 0 1
           (DiscoverDevices 2 ex_good_platform AllDevices true true
              DeviceDiscoveryImp_new).1).
  by vm_compute.
Defined.

(** ** The wrapper class for C++ clients *)

(** X28: [DeviceDiscovery::DiscoverDevices] of the wrapper class never
    returns [false].  It leaves the instance as the method of the
    implementation leaves it; when that method returns [true] it returns
    [true], the last error message being empty; when that method returns
    [false] it throws a [DeviceDiscoveryException] that carries the last
    error message of the instance, which is not empty; and it has no
    handler: an exception that leaves the method of the implementation
    leaves the wrapper as it is. *)
Theorem X28_wrapper_discover_never_false fuel p flt ii id instance :
  let imp := DiscoverDevices fuel p flt ii id instance in
  let wrapper := DeviceDiscovery.DiscoverDevices fuel p flt ii id instance in
  wrapper.1 = imp.1 /\
  (imp.2 = Return true ->
   wrapper.2 = Return (Value true) /\ lastError wrapper.1 = "") /\
  (imp.2 = Return false ->
   wrapper.2 = Return (DeviceDiscoveryException (lastError wrapper.1)) /\
   lastError wrapper.1 <> "") /\
  (forall e, imp.2 = Throw e -> wrapper.2 = Throw e) /\
  (forall success, wrapper.2 = Return (Value success) -> success = true).
Proof.
  intros imp wrapper. subst imp wrapper.
  unfold DeviceDiscovery.DiscoverDevices, DeviceDiscovery_DiscoverDevices, DiscoverDevices.
  destruct (DiscoverDevices_try fuel p flt ii id instance) as [s' r] eqn:Htry.
  apply DiscoverDevices_try_spec in Htry as (_ & Hlib & _).
  destruct r as [[]|[err|what|what|what|what]| |]; simpl in *; try done.
  - repeat split; try done. by intros success [= <-].
  - repeat split; try done. apply Pretty_not_empty.
  - repeat split; try done. by intros e [= <-].
  - repeat split; try done. by intros e [= <-].
  - repeat split; try done. by intros e [= <-].
Qed.

(** X29: the sentinels of the wrapper class, for a valid device index in a
    session that holds its helper objects: [GetDeviceAdapterLUID] throws
    for a device whose adapter LUID is -1, with an empty message, and
    returns the LUID otherwise; the accessors of strings, counts and flags
    return the field of the device, a flag as the [bool] it is; and for an
    invalid index [GetDeviceAdapterLUID] throws with the message that names
    the index. *)
Theorem X29_wrapper_sentinels device self d :
  HaveDevices self = true ->
  devices self !! N.to_nat device = Some d ->
  (DeviceDiscovery.GetDeviceAdapterLUID device self).2
    = (if (InstanceLuid (DeviceAdapter d) =? -1)%Z
       then DeviceDiscoveryException ""
       else Value (InstanceLuid (DeviceAdapter d))) /\
  (DeviceDiscovery.GetDeviceID device self).2 = Value (Some (ID d)) /\
  (DeviceDiscovery.GetDeviceDriverStorePath device self).2
    = Value (Some (DriverStorePath d)) /\
  (DeviceDiscovery.GetNumRuntimeFiles device self).2
    = Value (Z.of_nat (length (RuntimeFiles d))) /\
  (DeviceDiscovery.GetNumRuntimeFilesWow64 device self).2
    = Value (Z.of_nat (length (RuntimeFilesWow64 d))) /\
  (DeviceDiscovery.IsDeviceIntegrated device self).2
    = Value (IsIntegrated (DeviceAdapter d)) /\
  (DeviceDiscovery.IsDeviceDetachable device self).2
    = Value (IsDetachable (DeviceAdapter d)) /\
  (DeviceDiscovery.DoesDeviceSupportDisplay device self).2
    = Value (SupportsDisplay (DeviceAdapter d)) /\
  (DeviceDiscovery.DoesDeviceSupportCompute device self).2
    = Value (SupportsCompute (DeviceAdapter d)) /\
  (forall other,
      devices self !! N.to_nat other = None ->
      (DeviceDiscovery.GetDeviceAdapterLUID other self).2
        = DeviceDiscoveryException
            ("requested device index is invalid: " +:+ pretty other)).
Proof.
  intros Hhave Hd.
  assert (Hacc : forall (A : Type) (sentinel : A) (get : Device -> A),
    device_accessor sentinel get device self = (SetLastErrorMessage "" self, get d)).
  { intros A sentinel get. unfold device_accessor.
    rewrite ValidateRequestedDevice_spec, Hd by done.
    unfold RETURN_SUCCESS. cbn [devices SetLastErrorMessage].
    by rewrite (nth_lookup_Some _ _ _ _ Hd). }
  assert (Hcount : forall n : nat, is_minus_one (Z.of_nat n) = false).
  { intros n. unfold is_minus_one. apply Z.eqb_neq. lia. }
  assert (Hflag : forall b : bool,
    is_minus_one (Z.b2z b) = false /\ int_to_bool (Z.b2z b) = b) by (by intros []).
  repeat split.
  - unfold DeviceDiscovery.GetDeviceAdapterLUID, DeviceDiscovery_GetDeviceAdapterLUID,
      GetDeviceAdapterLUID, THROW_IF_ERROR.
    rewrite Hacc. unfold is_minus_one. by destruct (_ =? _)%Z.
  - unfold DeviceDiscovery.GetDeviceID, DeviceDiscovery_GetDeviceID, GetDeviceID,
      THROW_IF_ERROR. by rewrite Hacc.
  - unfold DeviceDiscovery.GetDeviceDriverStorePath, DeviceDiscovery_GetDeviceDriverStorePath,
      GetDeviceDriverStorePath, THROW_IF_ERROR. by rewrite Hacc.
  - unfold DeviceDiscovery.GetNumRuntimeFiles, DeviceDiscovery_GetNumRuntimeFiles,
      GetNumRuntimeFiles, THROW_IF_ERROR. by rewrite Hacc, Hcount.
  - unfold DeviceDiscovery.GetNumRuntimeFilesWow64, DeviceDiscovery_GetNumRuntimeFilesWow64,
      GetNumRuntimeFilesWow64, THROW_IF_ERROR. by rewrite Hacc, Hcount.
  - unfold DeviceDiscovery.IsDeviceIntegrated, DeviceDiscovery_IsDeviceIntegrated,
      IsDeviceIntegrated, THROW_IF_ERROR, returning.
    rewrite Hacc. destruct (Hflag (IsIntegrated (DeviceAdapter d))) as [-> Hb].
    simpl. by rewrite Hb.
  - unfold DeviceDiscovery.IsDeviceDetachable, DeviceDiscovery_IsDeviceDetachable,
      IsDeviceDetachable, THROW_IF_ERROR, returning.
    rewrite Hacc. destruct (Hflag (IsDetachable (DeviceAdapter d))) as [-> Hb].
    simpl. by rewrite Hb.
  - unfold DeviceDiscovery.DoesDeviceSupportDisplay, DeviceDiscovery_DoesDeviceSupportDisplay,
      DoesDeviceSupportDisplay, THROW_IF_ERROR, returning.
    rewrite Hacc. destruct (Hflag (SupportsDisplay (DeviceAdapter d))) as [-> Hb].
    simpl. by rewrite Hb.
  - unfold DeviceDiscovery.DoesDeviceSupportCompute, DeviceDiscovery_DoesDeviceSupportCompute,
      DoesDeviceSupportCompute, THROW_IF_ERROR, returning.
    rewrite Hacc. destruct (Hflag (SupportsCompute (DeviceAdapter d))) as [-> Hb].
    simpl. by rewrite Hb.
  - intros other Hother.
    unfold DeviceDiscovery.GetDeviceAdapterLUID, DeviceDiscovery_GetDeviceAdapterLUID,
      GetDeviceAdapterLUID, THROW_IF_ERROR, device_accessor.
    by rewrite ValidateRequestedDevice_spec, Hother by done.
Qed.

Lemma X29_wrapper_sentinels_witness :
  let self := mkDeviceDiscoveryImp
                [set_InstanceLuid (-1) ex_device] ""
                (Some (mkAdapterEnumeration [] ∅))
                (Some (mkWmiQuery DevPropKeyToString_AdapterLuid)) in
  let d := set_InstanceLuid (-1) ex_device in
  (DeviceDiscovery.GetDeviceAdapterLUID 0 self).2
    = (if (InstanceLuid (DeviceAdapter d) =? -1)%Z
       then DeviceDiscoveryException ""
       else Value (InstanceLuid (DeviceAdapter d))) /\
  (DeviceDiscovery.GetDeviceID 0 self).2 = Value (Some (ID d)) /\
  (DeviceDiscovery.GetDeviceDriverStorePath 0 self).2
    = Value (Some (DriverStorePath d)) /\
  (DeviceDiscovery.GetNumRuntimeFiles 0 self).2
    = Value (Z.of_nat (length (RuntimeFiles d))) /\
  (DeviceDiscovery.GetNumRuntimeFilesWow64 0 self).2
    = Value (Z.of_nat (length (RuntimeFilesWow64 d))) /\
  (DeviceDiscovery.IsDeviceIntegrated 0 self).2
    = Value (IsIntegrated (DeviceAdapter d)) /\
  (DeviceDiscovery.IsDeviceDetachable 0 self).2
    = Value (IsDetachable (DeviceAdapter d)) /\
  (DeviceDiscovery.DoesDeviceSupportDisplay 0 self).2
    = Value (SupportsDisplay (DeviceAdapter d)) /\
  (DeviceDiscovery.DoesDeviceSupportCompute 0 self).2
    = Value (SupportsCompute (DeviceAdapter d)) /\
  (forall other,
      devices self !! N.to_nat other = None ->
      (DeviceDiscovery.GetDeviceAdapterLUID other self).2
        = DeviceDiscoveryException
            ("requested device index is invalid: " +:+ pretty other)).
Proof.
  apply (X29_wrapper_sentinels 0
           (mkDeviceDiscoveryImp
              [set_InstanceLuid (-1) ex_device] ""
              (Some (mkAdapterEnumeration [] ∅))
              (Some (mkWmiQuery DevPropKeyToString_AdapterLuid)))
           (set_InstanceLuid (-1) ex_device)).
  - by vm_compute.
  - reflexivity.
Defined.
